(** * metapiston: launcher metadata models and URL builders

    A shallow embedding of [metapiston.minecraft]: the URL builders of
    [urls.py], the base model contract of [_model.py], the two version
    manifest schemas and the client descriptor schema.

    The schemas are pydantic (v2) classes.  A class is embedded as a record
    with the declared fields, a validator [model_validate] that follows
    the class' field declarations (alias, required or defaulted, nullable)
    and its [model_config], and a serialiser [model_dump].

    Conventions.
    - A document is a decoded JSON value ([json]); the text layer (bytes to
      JSON value and back) belongs to pydantic_core and is not modelled.
    - pydantic reports every error of a document at once; the validators
      below report the first one they meet.  Success and failure agree.
    - The scalar routines of pydantic_core that this repository only calls
      (URL parsing, ISO-8601 date-time parsing, the lax coercions of
      strings and floats) are the members of the class [pydantic_core];
      what the proofs need of them is stated in [pydantic_core_laws].
    - A Python [str] is a [string]; a Python [int] is a [Z]; a [dict] is an
      association list in insertion order.
    - The models are frozen: no operation of the embedding changes a
      value once it is built. *)

From Stdlib Require Import String Ascii List ZArith Bool Lia PeanoNat.
From Stdlib Require Import DecimalString DecimalPos DecimalZ.
From Stdlib Require Floats.PrimFloat.
Import ListNotations.
Local Open Scope list_scope.
Local Open Scope string_scope.

Set Implicit Arguments.

(* ================================================================== *)
(** ** Python strings *)

Module Py.

Definition is_upper (c : ascii) : bool :=
  let n := nat_of_ascii c in (65 <=? n)%nat && (n <=? 90)%nat.

Definition is_lower (c : ascii) : bool :=
  let n := nat_of_ascii c in (97 <=? n)%nat && (n <=? 122)%nat.

Definition is_digit (c : ascii) : bool :=
  let n := nat_of_ascii c in (48 <=? n)%nat && (n <=? 57)%nat.

Definition is_alpha (c : ascii) : bool := is_upper c || is_lower c.

Definition is_alnum (c : ascii) : bool := is_alpha c || is_digit c.

Definition upper (c : ascii) : ascii :=
  if is_lower c then ascii_of_nat (nat_of_ascii c - 32) else c.

Definition lower (c : ascii) : ascii :=
  if is_upper c then ascii_of_nat (nat_of_ascii c + 32) else c.

(** [s.title()]: the first letter of every run of letters is upper-cased,
    the other letters of the run are lower-cased. *)
Fixpoint title_from (prev_cased : bool) (s : string) : string :=
  match s with
  | EmptyString => EmptyString
  | String c s' =>
      if is_alpha c
      then String (if prev_cased then lower c else upper c) (title_from true s')
      else String c (title_from false s')
  end.

Definition title (s : string) : string := title_from false s.

(** [s[:n]]: the first [n] characters, or all of [s] when it is shorter. *)
Fixpoint slice_to (n : nat) (s : string) : string :=
  match n, s with
  | O, _ => EmptyString
  | S _, EmptyString => EmptyString
  | S n', String c s' => String c (slice_to n' s')
  end.

(** [str(n)], also what [f"{n}"] interpolates for an [int]. *)
Definition str_of_int (n : Z) : string := NilZero.string_of_int (Z.to_int n).

End Py.

(* ================================================================== *)
(** ** Decoded JSON documents *)

#[warnings="-register-all"]
Inductive json : Type :=
| JNull
| JBool (b : bool)
| JInt (z : Z)
| JFloat (f : PrimFloat.float)
| JString (s : string)
| JArray (l : list json)
| JObject (o : list (string * json)).

(** The keys of an object, as written. *)
Definition keys {A : Type} (o : list (string * A)) : list string := map fst o.

(** [o.get(k)]: when a key is repeated the last binding is the one a
    mapping built from the pairs holds. *)
Fixpoint get {A : Type} (k : string) (o : list (string * A)) : option A :=
  match o with
  | [] => None
  | (k', v) :: o' =>
      match get k o' with
      | Some v' => Some v'
      | None => if String.eqb k k' then Some v else None
      end
  end.

Definition mem (k : string) (l : list string) : bool :=
  existsb (String.eqb k) l.

Definition is_null (j : json) : bool :=
  match j with JNull => true | _ => false end.

(** [d[k] = v] on an insertion-ordered mapping. *)
Fixpoint setitem {A : Type} (d : list (string * A)) (k : string) (v : A)
  : list (string * A) :=
  match d with
  | [] => [(k, v)]
  | (k', v') :: d' =>
      if String.eqb k k' then (k', v) :: d' else (k', v') :: setitem d' k v
  end.

(** [dict(pairs)]. *)
Definition dict_of {A : Type} (pairs : list (string * A)) : list (string * A) :=
  fold_left (fun d kv => setitem d (fst kv) (snd kv)) pairs [].

(* ================================================================== *)
(** ** Validation results *)

(** The kinds of error a validator reports (pydantic's error types). *)
Inductive ErrorType : Type :=
| missing
| extra_forbidden
| model_type
| string_type
| int_type
| bool_type
| list_type
| dict_type
| url_type
| url_parsing
| datetime_type.

(** [Err e] is a [ValidationError], the spec's SchemaViolation. *)
Inductive result (A : Type) : Type :=
| Ok (a : A)
| Err (e : ErrorType).

Arguments Ok {A} a.
Arguments Err {A} e.

Definition bind {A B : Type} (m : result A) (k : A -> result B) : result B :=
  match m with
  | Ok a => k a
  | Err e => Err e
  end.

Notation "x <- m ;; k" := (bind m (fun x => k))
  (at level 61, m at next level, right associativity).

Definition fmap {A B : Type} (f : A -> B) (m : result A) : result B :=
  x <- m ;; Ok (f x).

Definition is_ok {A : Type} (m : result A) : bool :=
  match m with Ok _ => true | Err _ => false end.

(** The document is rejected. *)
Definition SchemaViolation {A : Type} (m : result A) : Prop :=
  exists e, m = Err e.

Definition of_option {A : Type} (e : ErrorType) (o : option A) : result A :=
  match o with Some a => Ok a | None => Err e end.

Fixpoint mapM {A B : Type} (f : A -> result B) (l : list A) : result (list B) :=
  match l with
  | [] => Ok []
  | a :: l' => b <- f a ;; bs <- mapM f l' ;; Ok (b :: bs)
  end.

(* ================================================================== *)
(** ** pydantic_core: scalar routines used through pydantic *)

(** What the repository calls and does not define.  [Url_new text] is
    [Url(text)] ([None] when the constructor raises), [unicode_string] the
    text a URL serialises to; [datetime_validate] is the lax [datetime]
    validator on a JSON value (ISO-8601 text or a Unix time), and
    [isoformat] the text a date-time serialises to; the remaining members
    are the lax coercions of strings and floats to [int] and [bool]. *)
Class pydantic_core : Type := {
  Url : Type;
  Url_new : string -> option Url;
  unicode_string : Url -> string;
  datetime : Type;
  datetime_validate : json -> option datetime;
  isoformat : datetime -> string;
  str_as_int : string -> option Z;
  float_as_int : PrimFloat.float -> option Z;
  str_as_bool : string -> option bool;
  float_as_bool : PrimFloat.float -> option bool
}.

(** Re-reading what was written gives the value back: parsing the text of
    a URL, or of a date-time, yields that URL, or that date-time. *)
Class pydantic_core_laws (PC : pydantic_core) : Prop := {
  Url_new_unicode_string :
    forall (s : string) (u : Url),
      Url_new s = Some u -> Url_new (unicode_string u) = Some u;
  datetime_validate_isoformat :
    forall (j : json) (d : datetime),
      datetime_validate j = Some d ->
      datetime_validate (JString (isoformat d)) = Some d
}.

(* ================================================================== *)
(** ** pydantic: configuration, aliases, field validators *)

Module pydantic.

(** [pydantic.alias_generators.to_pascal]:
    [re.sub('([0-9A-Za-z])_(?=[0-9A-Z])', group 1, snake.title())]. *)
Definition next_is_digit_or_upper (s : string) : bool :=
  match s with
  | EmptyString => false
  | String c _ => Py.is_digit c || Py.is_upper c
  end.

Fixpoint join_words (prev_alnum : bool) (s : string) : string :=
  match s with
  | EmptyString => EmptyString
  | String c s' =>
      if Ascii.eqb c "_" && prev_alnum && next_is_digit_or_upper s'
      then join_words false s'
      else String c (join_words (Py.is_alnum c) s')
  end.

Definition to_pascal (snake : string) : string :=
  join_words false (Py.title snake).

(** [re.sub('(^_*[A-Z])', lower, camel)]. *)
Fixpoint lower_first (camel : string) : string :=
  match camel with
  | EmptyString => EmptyString
  | String c s' =>
      if Ascii.eqb c "_" then String c (lower_first s')
      else if Py.is_upper c then String (Py.lower c) s'
      else camel
  end.

(** [pydantic.alias_generators.to_camel]: [to_pascal], then the first
    upper-case letter (after leading underscores) in lower case.  (Later
    releases return a name that is already camel case unchanged; on the
    field names of this repository the two agree.) *)
Definition to_camel (snake : string) : string := lower_first (to_pascal snake).

Inductive Extra : Type := ignore | allow | forbid.

(** [ConfigDict(...)]: the keys the repository sets.  Without an alias
    generator the alias of a field is its name. *)
Record ConfigDict : Type := {
  title : option string;
  extra : Extra;
  frozen : bool;
  alias_generator : option (string -> string)
}.

Definition alias (cfg : ConfigDict) (name : string) : string :=
  match alias_generator cfg with
  | Some g => g name
  | None => name
  end.

(** The options of [model_dump_json] that select names and fields.
    ([indent] shapes the text only; [include], [exclude], [exclude_unset],
    [round_trip] and [warnings] are passed through unchanged by the
    repository and left at their defaults here.) *)
Record dump_options : Type := {
  by_alias : bool;
  exclude_defaults : bool;
  exclude_none : bool
}.

Section validators.
Context {PC : pydantic_core}.

(** [str]: a JSON string, nothing else. *)
Definition validate_str (j : json) : result string :=
  match j with
  | JString s => Ok s
  | _ => Err string_type
  end.

(** [int]: a JSON integer; in lax mode also a boolean, a float without
    fractional part and a numeric string. *)
Definition validate_int (j : json) : result Z :=
  match j with
  | JInt z => Ok z
  | JBool b => Ok (Z.b2z b)
  | JFloat f => of_option int_type (float_as_int f)
  | JString s => of_option int_type (str_as_int s)
  | _ => Err int_type
  end.

(** [bool]: a JSON boolean; in lax mode also 0, 1 and the strings and
    floats pydantic_core reads as booleans. *)
Definition validate_bool (j : json) : result bool :=
  match j with
  | JBool b => Ok b
  | JInt z =>
      if Z.eqb z 0 then Ok false
      else if Z.eqb z 1 then Ok true
      else Err bool_type
  | JFloat f => of_option bool_type (float_as_bool f)
  | JString s => of_option bool_type (str_as_bool s)
  | _ => Err bool_type
  end.

(** [AnyUrl]: a JSON string that [Url] parses. *)
Definition validate_url (j : json) : result Url :=
  match j with
  | JString s => of_option url_parsing (Url_new s)
  | _ => Err url_type
  end.

(** [datetime]. *)
Definition validate_datetime (j : json) : result datetime :=
  of_option datetime_type (datetime_validate j).

(** What the scalars serialise to in JSON mode. *)
Definition dump_str (s : string) : json := JString s.

Definition dump_int (z : Z) : json := JInt z.

Definition dump_bool (b : bool) : json := JBool b.

Definition dump_url (u : Url) : json := JString (unicode_string u).

Definition dump_datetime (d : datetime) : json := JString (isoformat d).

End validators.

(** [list[T]]. *)
Definition validate_list {A : Type} (v : json -> result A) (j : json)
  : result (list A) :=
  match j with
  | JArray l => mapM v l
  | _ => Err list_type
  end.

(** [dict[str, T]]: every value is validated, then the mapping is built. *)
Definition validate_dict {A : Type} (v : json -> result A) (j : json)
  : result (list (string * A)) :=
  match j with
  | JObject o =>
      fmap (@dict_of A) (mapM (fun kv => x <- v (snd kv) ;; Ok (fst kv, x)) o)
  | _ => Err dict_type
  end.

(** [Optional[T]]: [null] is [None], anything else is validated as [T]. *)
Definition nullable {A : Type} (v : json -> result A) (j : json)
  : result (option A) :=
  match j with
  | JNull => Ok None
  | _ => fmap Some (v j)
  end.

(** [A | B]: the alternatives in the declared order, the first that
    validates wins.  (Every union of the repository has alternatives of
    different JSON kinds, so at most one of them validates.) *)
Definition union {A B : Type} (va : json -> result A) (vb : json -> result B)
  (j : json) : result (A + B) :=
  match va j with
  | Ok a => Ok (inl a)
  | Err _ => fmap inr (vb j)
  end.

(** A field without default: the value under the field's alias. *)
Definition required {A : Type} (cfg : ConfigDict) (o : list (string * json))
  (name : string) (v : json -> result A) : result A :=
  match get (alias cfg name) o with
  | Some j => v j
  | None => Err missing
  end.

(** A field with a default: the default when the alias is absent. *)
Definition defaulted {A : Type} (cfg : ConfigDict) (o : list (string * json))
  (name : string) (v : json -> result A) (default : A) : result A :=
  match get (alias cfg name) o with
  | Some j => v j
  | None => Ok default
  end.

(** The keys of the input that are the alias of no declared field. *)
Definition extra_keys (cfg : ConfigDict) (fields : list string)
  (o : list (string * json)) : list string :=
  filter (fun k => negb (mem k (map (alias cfg) fields))) (keys o).

(** A model: the input must be an object; the fields are validated, then
    [extra='forbid'] rejects an input with a key that is no alias. *)
Definition validate_model {A : Type} (cfg : ConfigDict) (fields : list string)
  (body : list (string * json) -> result A) (j : json) : result A :=
  match j with
  | JObject o =>
      x <- body o ;;
      match extra cfg, extra_keys cfg fields o with
      | forbid, _ :: _ => Err extra_forbidden
      | _, _ => Ok x
      end
  | _ => Err model_type
  end.

(** One field of a dumped model: left out when its value is [None] and
    [exclude_none] is set, or when it equals its default and
    [exclude_defaults] is set (every default of the repository is [None]). *)
Definition dump_field (opts : dump_options) (cfg : ConfigDict)
  (name : string) (has_default : bool) (j : json) : list (string * json) :=
  if (exclude_none opts || (exclude_defaults opts && has_default)) && is_null j
  then []
  else [(if by_alias opts then alias cfg name else name, j)].

Definition dump_option {A : Type} (d : A -> json) (x : option A) : json :=
  match x with
  | Some a => d a
  | None => JNull
  end.

Definition dump_list {A : Type} (d : A -> json) (l : list A) : json :=
  JArray (map d l).

Definition dump_dict {A : Type} (d : A -> json) (m : list (string * A)) : json :=
  JObject (map (fun kv => (fst kv, d (snd kv))) m).

(** [BaseModel.model_dump_json]'s defaults. *)
Definition BaseModel_dump_defaults : dump_options :=
  {| by_alias := false; exclude_defaults := false; exclude_none := false |}.

(** External names, every field included. *)
Definition by_alias_include_all : dump_options :=
  {| by_alias := true; exclude_defaults := false; exclude_none := false |}.

Definition dump_union {A B : Type} (da : A -> json) (db : B -> json)
  (x : A + B) : json :=
  match x with
  | inl a => da a
  | inr b => db b
  end.

End pydantic.

(* ================================================================== *)
(** ** _model.py *)

Module _model.

(** [class LauncherModel(BaseModel)]:
    [ConfigDict(extra="forbid", frozen=True, alias_generator=to_camel)]. *)
Definition LauncherModel : pydantic.ConfigDict :=
  {| pydantic.title := None;
     pydantic.extra := pydantic.forbid;
     pydantic.frozen := true;
     pydantic.alias_generator := Some pydantic.to_camel |}.

End _model.

(* ================================================================== *)
(** ** urls.py *)

Module urls.

Section urls.
Context {PC : pydantic_core}.

(** [Url(f"https://piston-meta.mojang.com/v{api_version}/packages/{hash}/{file}")],
    [api_version] defaulting to 1. *)
Definition package_url (hash file : string) (api_version : Z) : option Url :=
  Url_new ("https://piston-meta.mojang.com/v" ++ Py.str_of_int api_version
             ++ "/packages/" ++ hash ++ "/" ++ file).

(** [Url(f"https://resources.download.minecraft.net/{hash[:2]}/{hash}")]. *)
Definition resource_url (hash : string) : option Url :=
  Url_new ("https://resources.download.minecraft.net/" ++ Py.slice_to 2 hash
             ++ "/" ++ hash).

(** [version = "" if file_version == 1 else f"_v{file_version}"], then
    [Url(f"https://piston-meta.mojang.com/mc/game/version_manifest{version}.json")];
    [file_version] defaults to 2. *)
Definition version_manifest_url (file_version : Z) : option Url :=
  let version :=
    if Z.eqb file_version 1 then "" else "_v" ++ Py.str_of_int file_version in
  Url_new ("https://piston-meta.mojang.com/mc/game/version_manifest" ++ version
             ++ ".json").

End urls.

End urls.

(* ================================================================== *)
(** ** version_manifests/version_manifest_v1.py *)

Module VersionManifestV1.

Module Latest.

Definition model_config : pydantic.ConfigDict := _model.LauncherModel.

Definition model_fields : list string := ["release"; "snapshot"].

Record t : Type := {
  release : string;
  snapshot : string
}.

Definition model_validate (j : json) : result t :=
  pydantic.validate_model model_config model_fields (fun o =>
    release <- pydantic.required model_config o "release" pydantic.validate_str ;;
    snapshot <- pydantic.required model_config o "snapshot" pydantic.validate_str ;;
    Ok {| release := release; snapshot := snapshot |}) j.

Definition model_dump (opts : pydantic.dump_options) (x : t) : json :=
  JObject
    (pydantic.dump_field opts model_config "release" false (pydantic.dump_str (release x))
     ++ pydantic.dump_field opts model_config "snapshot" false (pydantic.dump_str (snapshot x)))%list.

End Latest.

Module Version.

Definition model_config : pydantic.ConfigDict := _model.LauncherModel.

Definition model_fields : list string :=
  ["id"; "type"; "url"; "time"; "release_time"].

Section model.
Context {PC : pydantic_core}.

Record t : Type := {
  id : string;
  type : string;
  url : Url;
  time : datetime;
  release_time : datetime
}.

Definition model_validate (j : json) : result t :=
  pydantic.validate_model model_config model_fields (fun o =>
    id <- pydantic.required model_config o "id" pydantic.validate_str ;;
    type <- pydantic.required model_config o "type" pydantic.validate_str ;;
    url <- pydantic.required model_config o "url" pydantic.validate_url ;;
    time <- pydantic.required model_config o "time" pydantic.validate_datetime ;;
    release_time <-
      pydantic.required model_config o "release_time" pydantic.validate_datetime ;;
    Ok {| id := id; type := type; url := url; time := time;
          release_time := release_time |}) j.

Definition model_dump (opts : pydantic.dump_options) (x : t) : json :=
  JObject
    (pydantic.dump_field opts model_config "id" false (pydantic.dump_str (id x))
     ++ pydantic.dump_field opts model_config "type" false (pydantic.dump_str (type x))
     ++ pydantic.dump_field opts model_config "url" false
          (pydantic.dump_url (url x))
     ++ pydantic.dump_field opts model_config "time" false
          (pydantic.dump_datetime (time x))
     ++ pydantic.dump_field opts model_config "release_time" false
          (pydantic.dump_datetime (release_time x)))%list.

End model.

End Version.

(** [ConfigDict(title="MinecraftVersionManifestV1", extra="forbid",
    frozen=True, alias_generator=to_camel)]. *)
Definition model_config : pydantic.ConfigDict :=
  {| pydantic.title := Some "MinecraftVersionManifestV1";
     pydantic.extra := pydantic.forbid;
     pydantic.frozen := true;
     pydantic.alias_generator := Some pydantic.to_camel |}.

Definition model_fields : list string := ["latest"; "versions"].

Section model.
Context {PC : pydantic_core}.

Record t : Type := {
  latest : Latest.t;
  versions : list Version.t
}.

Definition model_validate (j : json) : result t :=
  pydantic.validate_model model_config model_fields (fun o =>
    latest <- pydantic.required model_config o "latest" Latest.model_validate ;;
    versions <-
      pydantic.required model_config o "versions"
        (pydantic.validate_list Version.model_validate) ;;
    Ok {| latest := latest; versions := versions |}) j.

Definition model_dump (opts : pydantic.dump_options) (x : t) : json :=
  JObject
    (pydantic.dump_field opts model_config "latest" false
       (Latest.model_dump opts (latest x))
     ++ pydantic.dump_field opts model_config "versions" false
          (pydantic.dump_list (Version.model_dump opts) (versions x)))%list.

(** [model_validate_json] on the decoded content. *)
Definition model_validate_json (doc : json) : result t := model_validate doc.

(** [model_dump_json], inherited from [BaseModel]. *)
Definition model_dump_json (opts : pydantic.dump_options) (x : t) : json :=
  model_dump opts x.

(** [download(url)]: the content fetched from [url], validated. *)
Definition download (requests_get : string -> json) (url : string) : result t :=
  model_validate_json (requests_get url).

End model.

End VersionManifestV1.

(* ================================================================== *)
(** ** version_manifests/version_manifest_v2.py *)

Module VersionManifestV2.

Module Latest.

Definition model_config : pydantic.ConfigDict := _model.LauncherModel.

Definition model_fields : list string := ["release"; "snapshot"].

Record t : Type := {
  release : string;
  snapshot : string
}.

Definition model_validate (j : json) : result t :=
  pydantic.validate_model model_config model_fields (fun o =>
    release <- pydantic.required model_config o "release" pydantic.validate_str ;;
    snapshot <- pydantic.required model_config o "snapshot" pydantic.validate_str ;;
    Ok {| release := release; snapshot := snapshot |}) j.

Definition model_dump (opts : pydantic.dump_options) (x : t) : json :=
  JObject
    (pydantic.dump_field opts model_config "release" false (pydantic.dump_str (release x))
     ++ pydantic.dump_field opts model_config "snapshot" false (pydantic.dump_str (snapshot x)))%list.

End Latest.

Module Version.

Definition model_config : pydantic.ConfigDict := _model.LauncherModel.

Definition model_fields : list string :=
  ["id"; "type"; "url"; "time"; "release_time"; "sha1"; "compliance_level"].

Section model.
Context {PC : pydantic_core}.

Record t : Type := {
  id : string;
  type : string;
  url : Url;
  time : datetime;
  release_time : datetime;
  sha1 : string;
  compliance_level : Z
}.

Definition model_validate (j : json) : result t :=
  pydantic.validate_model model_config model_fields (fun o =>
    id <- pydantic.required model_config o "id" pydantic.validate_str ;;
    type <- pydantic.required model_config o "type" pydantic.validate_str ;;
    url <- pydantic.required model_config o "url" pydantic.validate_url ;;
    time <- pydantic.required model_config o "time" pydantic.validate_datetime ;;
    release_time <-
      pydantic.required model_config o "release_time" pydantic.validate_datetime ;;
    sha1 <- pydantic.required model_config o "sha1" pydantic.validate_str ;;
    compliance_level <-
      pydantic.required model_config o "compliance_level" pydantic.validate_int ;;
    Ok {| id := id; type := type; url := url; time := time;
          release_time := release_time; sha1 := sha1;
          compliance_level := compliance_level |}) j.

Definition model_dump (opts : pydantic.dump_options) (x : t) : json :=
  JObject
    (pydantic.dump_field opts model_config "id" false (pydantic.dump_str (id x))
     ++ pydantic.dump_field opts model_config "type" false (pydantic.dump_str (type x))
     ++ pydantic.dump_field opts model_config "url" false
          (pydantic.dump_url (url x))
     ++ pydantic.dump_field opts model_config "time" false
          (pydantic.dump_datetime (time x))
     ++ pydantic.dump_field opts model_config "release_time" false
          (pydantic.dump_datetime (release_time x))
     ++ pydantic.dump_field opts model_config "sha1" false (pydantic.dump_str (sha1 x))
     ++ pydantic.dump_field opts model_config "compliance_level" false
          (pydantic.dump_int (compliance_level x)))%list.

End model.

End Version.

(** [ConfigDict(title="MinecraftVersionManifestV1", ...)]: the v2 class
    carries the v1 title. *)
Definition model_config : pydantic.ConfigDict :=
  {| pydantic.title := Some "MinecraftVersionManifestV1";
     pydantic.extra := pydantic.forbid;
     pydantic.frozen := true;
     pydantic.alias_generator := Some pydantic.to_camel |}.

Definition model_fields : list string := ["latest"; "versions"].

Section model.
Context {PC : pydantic_core}.

Record t : Type := {
  latest : Latest.t;
  versions : list Version.t
}.

Definition model_validate (j : json) : result t :=
  pydantic.validate_model model_config model_fields (fun o =>
    latest <- pydantic.required model_config o "latest" Latest.model_validate ;;
    versions <-
      pydantic.required model_config o "versions"
        (pydantic.validate_list Version.model_validate) ;;
    Ok {| latest := latest; versions := versions |}) j.

Definition model_dump (opts : pydantic.dump_options) (x : t) : json :=
  JObject
    (pydantic.dump_field opts model_config "latest" false
       (Latest.model_dump opts (latest x))
     ++ pydantic.dump_field opts model_config "versions" false
          (pydantic.dump_list (Version.model_dump opts) (versions x)))%list.

(** [model_validate_json] on the decoded content. *)
Definition model_validate_json (doc : json) : result t := model_validate doc.

(** [model_dump_json], inherited from [BaseModel]. *)
Definition model_dump_json (opts : pydantic.dump_options) (x : t) : json :=
  model_dump opts x.

(** [download(url)]: the content fetched from [url], validated. *)
Definition download (requests_get : string -> json) (url : string) : result t :=
  model_validate_json (requests_get url).

End model.

End VersionManifestV2.

(* ================================================================== *)
(** ** clients/client_v1.py *)

Module ClientV1.

Module Arguments.

Module ConditionalGameArgument.

Module Rule.

Definition model_config : pydantic.ConfigDict := _model.LauncherModel.

Definition model_fields : list string := ["action"; "features"].

Section model.
Context {PC : pydantic_core}.

Record t : Type := {
  action : string;
  features : list (string * bool)
}.

Definition model_validate (j : json) : result t :=
  pydantic.validate_model model_config model_fields (fun o =>
    action <- pydantic.required model_config o "action" pydantic.validate_str ;;
    features <-
      pydantic.required model_config o "features"
        (pydantic.validate_dict pydantic.validate_bool) ;;
    Ok {| action := action; features := features |}) j.

Definition model_dump (opts : pydantic.dump_options) (x : t) : json :=
  JObject
    (pydantic.dump_field opts model_config "action" false (pydantic.dump_str (action x))
     ++ pydantic.dump_field opts model_config "features" false
          (pydantic.dump_dict pydantic.dump_bool (features x)))%list.

End model.

End Rule.

Definition model_config : pydantic.ConfigDict := _model.LauncherModel.

Definition model_fields : list string := ["rules"; "value"].

Section model.
Context {PC : pydantic_core}.

Record t : Type := {
  rules : list Rule.t;
  value : string + list string
}.

Definition model_validate (j : json) : result t :=
  pydantic.validate_model model_config model_fields (fun o =>
    rules <-
      pydantic.required model_config o "rules"
        (pydantic.validate_list Rule.model_validate) ;;
    value <-
      pydantic.required model_config o "value"
        (pydantic.union pydantic.validate_str
           (pydantic.validate_list pydantic.validate_str)) ;;
    Ok {| rules := rules; value := value |}) j.

Definition model_dump (opts : pydantic.dump_options) (x : t) : json :=
  JObject
    (pydantic.dump_field opts model_config "rules" false
       (pydantic.dump_list (Rule.model_dump opts) (rules x))
     ++ pydantic.dump_field opts model_config "value" false
          (pydantic.dump_union pydantic.dump_str (pydantic.dump_list pydantic.dump_str) (value x)))%list.

End model.

End ConditionalGameArgument.

Module ConditionalJVMArgument.

Module Rule.

Module OS.

Definition model_config : pydantic.ConfigDict := _model.LauncherModel.

Definition model_fields : list string := ["name"; "version"; "arch"].

Record t : Type := {
  name : option string;
  version : option string;
  arch : option string
}.

Definition model_validate (j : json) : result t :=
  pydantic.validate_model model_config model_fields (fun o =>
    name <-
      pydantic.defaulted model_config o "name"
        (pydantic.nullable pydantic.validate_str) None ;;
    version <-
      pydantic.defaulted model_config o "version"
        (pydantic.nullable pydantic.validate_str) None ;;
    arch <-
      pydantic.defaulted model_config o "arch"
        (pydantic.nullable pydantic.validate_str) None ;;
    Ok {| name := name; version := version; arch := arch |}) j.

Definition model_dump (opts : pydantic.dump_options) (x : t) : json :=
  JObject
    (pydantic.dump_field opts model_config "name" true
       (pydantic.dump_option pydantic.dump_str (name x))
     ++ pydantic.dump_field opts model_config "version" true
          (pydantic.dump_option pydantic.dump_str (version x))
     ++ pydantic.dump_field opts model_config "arch" true
          (pydantic.dump_option pydantic.dump_str (arch x)))%list.

End OS.

Definition model_config : pydantic.ConfigDict := _model.LauncherModel.

Definition model_fields : list string := ["action"; "os"].

Record t : Type := {
  action : string;
  os : OS.t
}.

Definition model_validate (j : json) : result t :=
  pydantic.validate_model model_config model_fields (fun o =>
    action <- pydantic.required model_config o "action" pydantic.validate_str ;;
    os <- pydantic.required model_config o "os" OS.model_validate ;;
    Ok {| action := action; os := os |}) j.

Definition model_dump (opts : pydantic.dump_options) (x : t) : json :=
  JObject
    (pydantic.dump_field opts model_config "action" false (pydantic.dump_str (action x))
     ++ pydantic.dump_field opts model_config "os" false
          (OS.model_dump opts (os x)))%list.

End Rule.

Definition model_config : pydantic.ConfigDict := _model.LauncherModel.

Definition model_fields : list string := ["rules"; "value"].

Record t : Type := {
  rules : list Rule.t;
  value : string + list string
}.

Definition model_validate (j : json) : result t :=
  pydantic.validate_model model_config model_fields (fun o =>
    rules <-
      pydantic.required model_config o "rules"
        (pydantic.validate_list Rule.model_validate) ;;
    value <-
      pydantic.required model_config o "value"
        (pydantic.union pydantic.validate_str
           (pydantic.validate_list pydantic.validate_str)) ;;
    Ok {| rules := rules; value := value |}) j.

Definition model_dump (opts : pydantic.dump_options) (x : t) : json :=
  JObject
    (pydantic.dump_field opts model_config "rules" false
       (pydantic.dump_list (Rule.model_dump opts) (rules x))
     ++ pydantic.dump_field opts model_config "value" false
          (pydantic.dump_union pydantic.dump_str (pydantic.dump_list pydantic.dump_str) (value x)))%list.

End ConditionalJVMArgument.

Definition model_config : pydantic.ConfigDict := _model.LauncherModel.

Definition model_fields : list string := ["game"; "jvm"].

Section model.
Context {PC : pydantic_core}.

Record t : Type := {
  game : list (string + ConditionalGameArgument.t);
  jvm : list (string + ConditionalJVMArgument.t)
}.

Definition model_validate (j : json) : result t :=
  pydantic.validate_model model_config model_fields (fun o =>
    game <-
      pydantic.required model_config o "game"
        (pydantic.validate_list
           (pydantic.union pydantic.validate_str
              ConditionalGameArgument.model_validate)) ;;
    jvm <-
      pydantic.required model_config o "jvm"
        (pydantic.validate_list
           (pydantic.union pydantic.validate_str
              ConditionalJVMArgument.model_validate)) ;;
    Ok {| game := game; jvm := jvm |}) j.

Definition model_dump (opts : pydantic.dump_options) (x : t) : json :=
  JObject
    (pydantic.dump_field opts model_config "game" false
       (pydantic.dump_list
          (pydantic.dump_union pydantic.dump_str (ConditionalGameArgument.model_dump opts))
          (game x))
     ++ pydantic.dump_field opts model_config "jvm" false
          (pydantic.dump_list
             (pydantic.dump_union pydantic.dump_str (ConditionalJVMArgument.model_dump opts))
             (jvm x)))%list.

End model.

End Arguments.

Module AssetIndex.

Definition model_config : pydantic.ConfigDict := _model.LauncherModel.

Definition model_fields : list string :=
  ["id"; "sha1"; "size"; "total_size"; "url"].

Section model.
Context {PC : pydantic_core}.

Record t : Type := {
  id : string;
  sha1 : string;
  size : Z;
  total_size : Z;
  url : Url
}.

Definition model_validate (j : json) : result t :=
  pydantic.validate_model model_config model_fields (fun o =>
    id <- pydantic.required model_config o "id" pydantic.validate_str ;;
    sha1 <- pydantic.required model_config o "sha1" pydantic.validate_str ;;
    size <- pydantic.required model_config o "size" pydantic.validate_int ;;
    total_size <-
      pydantic.required model_config o "total_size" pydantic.validate_int ;;
    url <- pydantic.required model_config o "url" pydantic.validate_url ;;
    Ok {| id := id; sha1 := sha1; size := size; total_size := total_size;
          url := url |}) j.

Definition model_dump (opts : pydantic.dump_options) (x : t) : json :=
  JObject
    (pydantic.dump_field opts model_config "id" false (pydantic.dump_str (id x))
     ++ pydantic.dump_field opts model_config "sha1" false (pydantic.dump_str (sha1 x))
     ++ pydantic.dump_field opts model_config "size" false (pydantic.dump_int (size x))
     ++ pydantic.dump_field opts model_config "total_size" false
          (pydantic.dump_int (total_size x))
     ++ pydantic.dump_field opts model_config "url" false
          (pydantic.dump_url (url x)))%list.

End model.

End AssetIndex.

Module Downloads.

Module Download.

Definition model_config : pydantic.ConfigDict := _model.LauncherModel.

Definition model_fields : list string := ["sha1"; "size"; "url"].

Section model.
Context {PC : pydantic_core}.

Record t : Type := {
  sha1 : string;
  size : Z;
  url : Url
}.

Definition model_validate (j : json) : result t :=
  pydantic.validate_model model_config model_fields (fun o =>
    sha1 <- pydantic.required model_config o "sha1" pydantic.validate_str ;;
    size <- pydantic.required model_config o "size" pydantic.validate_int ;;
    url <- pydantic.required model_config o "url" pydantic.validate_url ;;
    Ok {| sha1 := sha1; size := size; url := url |}) j.

Definition model_dump (opts : pydantic.dump_options) (x : t) : json :=
  JObject
    (pydantic.dump_field opts model_config "sha1" false (pydantic.dump_str (sha1 x))
     ++ pydantic.dump_field opts model_config "size" false (pydantic.dump_int (size x))
     ++ pydantic.dump_field opts model_config "url" false
          (pydantic.dump_url (url x)))%list.

End model.

End Download.

(** [class Downloads(BaseModel)] with
    [model_config = ConfigDict(extra="forbid", frozen=True)]: the one class
    of the repository without an alias generator. *)
Definition model_config : pydantic.ConfigDict :=
  {| pydantic.title := None;
     pydantic.extra := pydantic.forbid;
     pydantic.frozen := true;
     pydantic.alias_generator := None |}.

Definition model_fields : list string :=
  ["client"; "client_mappings"; "server"; "server_mappings"; "windows_server"].

Section model.
Context {PC : pydantic_core}.

Record t : Type := {
  client : Download.t;
  client_mappings : option Download.t;
  server : Download.t;
  server_mappings : option Download.t;
  windows_server : option Download.t
}.

Definition model_validate (j : json) : result t :=
  pydantic.validate_model model_config model_fields (fun o =>
    client <- pydantic.required model_config o "client" Download.model_validate ;;
    client_mappings <-
      pydantic.defaulted model_config o "client_mappings"
        (pydantic.nullable Download.model_validate) None ;;
    server <- pydantic.required model_config o "server" Download.model_validate ;;
    server_mappings <-
      pydantic.defaulted model_config o "server_mappings"
        (pydantic.nullable Download.model_validate) None ;;
    windows_server <-
      pydantic.defaulted model_config o "windows_server"
        (pydantic.nullable Download.model_validate) None ;;
    Ok {| client := client; client_mappings := client_mappings;
          server := server; server_mappings := server_mappings;
          windows_server := windows_server |}) j.

Definition model_dump (opts : pydantic.dump_options) (x : t) : json :=
  JObject
    (pydantic.dump_field opts model_config "client" false
       (Download.model_dump opts (client x))
     ++ pydantic.dump_field opts model_config "client_mappings" true
          (pydantic.dump_option (Download.model_dump opts) (client_mappings x))
     ++ pydantic.dump_field opts model_config "server" false
          (Download.model_dump opts (server x))
     ++ pydantic.dump_field opts model_config "server_mappings" true
          (pydantic.dump_option (Download.model_dump opts) (server_mappings x))
     ++ pydantic.dump_field opts model_config "windows_server" true
          (pydantic.dump_option (Download.model_dump opts) (windows_server x)))%list.

End model.

End Downloads.

Module JavaVersion.

Definition model_config : pydantic.ConfigDict := _model.LauncherModel.

Definition model_fields : list string := ["component"; "major_version"].

Section model.
Context {PC : pydantic_core}.

Record t : Type := {
  component : string;
  major_version : Z
}.

Definition model_validate (j : json) : result t :=
  pydantic.validate_model model_config model_fields (fun o =>
    component <-
      pydantic.required model_config o "component" pydantic.validate_str ;;
    major_version <-
      pydantic.required model_config o "major_version" pydantic.validate_int ;;
    Ok {| component := component; major_version := major_version |}) j.

Definition model_dump (opts : pydantic.dump_options) (x : t) : json :=
  JObject
    (pydantic.dump_field opts model_config "component" false
       (pydantic.dump_str (component x))
     ++ pydantic.dump_field opts model_config "major_version" false
          (pydantic.dump_int (major_version x)))%list.

End model.

End JavaVersion.

Module Library.

Module Downloads.

Module Artifact.

Definition model_config : pydantic.ConfigDict := _model.LauncherModel.

Definition model_fields : list string := ["path"; "sha1"; "size"; "url"].

Section model.
Context {PC : pydantic_core}.

Record t : Type := {
  path : string;
  sha1 : string;
  size : Z;
  url : string
}.

Definition model_validate (j : json) : result t :=
  pydantic.validate_model model_config model_fields (fun o =>
    path <- pydantic.required model_config o "path" pydantic.validate_str ;;
    sha1 <- pydantic.required model_config o "sha1" pydantic.validate_str ;;
    size <- pydantic.required model_config o "size" pydantic.validate_int ;;
    url <- pydantic.required model_config o "url" pydantic.validate_str ;;
    Ok {| path := path; sha1 := sha1; size := size; url := url |}) j.

Definition model_dump (opts : pydantic.dump_options) (x : t) : json :=
  JObject
    (pydantic.dump_field opts model_config "path" false (pydantic.dump_str (path x))
     ++ pydantic.dump_field opts model_config "sha1" false (pydantic.dump_str (sha1 x))
     ++ pydantic.dump_field opts model_config "size" false (pydantic.dump_int (size x))
     ++ pydantic.dump_field opts model_config "url" false (pydantic.dump_str (url x)))%list.

End model.

End Artifact.

Definition model_config : pydantic.ConfigDict := _model.LauncherModel.

Definition model_fields : list string := ["artifact"; "classifiers"].

Section model.
Context {PC : pydantic_core}.

Record t : Type := {
  artifact : option Artifact.t;
  classifiers : option (list (string * Artifact.t))
}.

Definition model_validate (j : json) : result t :=
  pydantic.validate_model model_config model_fields (fun o =>
    artifact <-
      pydantic.defaulted model_config o "artifact"
        (pydantic.nullable Artifact.model_validate) None ;;
    classifiers <-
      pydantic.defaulted model_config o "classifiers"
        (pydantic.nullable (pydantic.validate_dict Artifact.model_validate))
        None ;;
    Ok {| artifact := artifact; classifiers := classifiers |}) j.

Definition model_dump (opts : pydantic.dump_options) (x : t) : json :=
  JObject
    (pydantic.dump_field opts model_config "artifact" true
       (pydantic.dump_option (Artifact.model_dump opts) (artifact x))
     ++ pydantic.dump_field opts model_config "classifiers" true
          (pydantic.dump_option
             (pydantic.dump_dict (Artifact.model_dump opts)) (classifiers x)))%list.

End model.

End Downloads.

Module Extract.

Definition model_config : pydantic.ConfigDict := _model.LauncherModel.

Definition model_fields : list string := ["exclude"].

Record t : Type := {
  exclude : list string
}.

Definition model_validate (j : json) : result t :=
  pydantic.validate_model model_config model_fields (fun o =>
    exclude <-
      pydantic.required model_config o "exclude"
        (pydantic.validate_list pydantic.validate_str) ;;
    Ok {| exclude := exclude |}) j.

Definition model_dump (opts : pydantic.dump_options) (x : t) : json :=
  JObject
    (pydantic.dump_field opts model_config "exclude" false
       (pydantic.dump_list pydantic.dump_str (exclude x))).

End Extract.

Module Rule.

Module OS.

Definition model_config : pydantic.ConfigDict := _model.LauncherModel.

Definition model_fields : list string := ["name"; "version"; "arch"].

Record t : Type := {
  name : option string;
  version : option string;
  arch : option string
}.

Definition model_validate (j : json) : result t :=
  pydantic.validate_model model_config model_fields (fun o =>
    name <-
      pydantic.defaulted model_config o "name"
        (pydantic.nullable pydantic.validate_str) None ;;
    version <-
      pydantic.defaulted model_config o "version"
        (pydantic.nullable pydantic.validate_str) None ;;
    arch <-
      pydantic.defaulted model_config o "arch"
        (pydantic.nullable pydantic.validate_str) None ;;
    Ok {| name := name; version := version; arch := arch |}) j.

Definition model_dump (opts : pydantic.dump_options) (x : t) : json :=
  JObject
    (pydantic.dump_field opts model_config "name" true
       (pydantic.dump_option pydantic.dump_str (name x))
     ++ pydantic.dump_field opts model_config "version" true
          (pydantic.dump_option pydantic.dump_str (version x))
     ++ pydantic.dump_field opts model_config "arch" true
          (pydantic.dump_option pydantic.dump_str (arch x)))%list.

End OS.

Definition model_config : pydantic.ConfigDict := _model.LauncherModel.

Definition model_fields : list string := ["action"; "os"].

Record t : Type := {
  action : string;
  os : option OS.t
}.

Definition model_validate (j : json) : result t :=
  pydantic.validate_model model_config model_fields (fun o =>
    action <- pydantic.required model_config o "action" pydantic.validate_str ;;
    os <-
      pydantic.defaulted model_config o "os"
        (pydantic.nullable OS.model_validate) None ;;
    Ok {| action := action; os := os |}) j.

Definition model_dump (opts : pydantic.dump_options) (x : t) : json :=
  JObject
    (pydantic.dump_field opts model_config "action" false (pydantic.dump_str (action x))
     ++ pydantic.dump_field opts model_config "os" true
          (pydantic.dump_option (OS.model_dump opts) (os x)))%list.

End Rule.

Definition model_config : pydantic.ConfigDict := _model.LauncherModel.

Definition model_fields : list string :=
  ["downloads"; "name"; "url"; "natives"; "extract"; "rules"].

Section model.
Context {PC : pydantic_core}.

Record t : Type := {
  downloads : Downloads.t;
  name : string;
  url : option Url;
  natives : option (list (string * string));
  extract : option Extract.t;
  rules : option (list Rule.t)
}.

Definition model_validate (j : json) : result t :=
  pydantic.validate_model model_config model_fields (fun o =>
    downloads <-
      pydantic.required model_config o "downloads" Downloads.model_validate ;;
    name <- pydantic.required model_config o "name" pydantic.validate_str ;;
    url <-
      pydantic.defaulted model_config o "url"
        (pydantic.nullable pydantic.validate_url) None ;;
    natives <-
      pydantic.defaulted model_config o "natives"
        (pydantic.nullable (pydantic.validate_dict pydantic.validate_str)) None ;;
    extract <-
      pydantic.defaulted model_config o "extract"
        (pydantic.nullable Extract.model_validate) None ;;
    rules <-
      pydantic.defaulted model_config o "rules"
        (pydantic.nullable (pydantic.validate_list Rule.model_validate)) None ;;
    Ok {| downloads := downloads; name := name; url := url;
          natives := natives; extract := extract; rules := rules |}) j.

Definition model_dump (opts : pydantic.dump_options) (x : t) : json :=
  JObject
    (pydantic.dump_field opts model_config "downloads" false
       (Downloads.model_dump opts (downloads x))
     ++ pydantic.dump_field opts model_config "name" false (pydantic.dump_str (name x))
     ++ pydantic.dump_field opts model_config "url" true
          (pydantic.dump_option pydantic.dump_url (url x))
     ++ pydantic.dump_field opts model_config "natives" true
          (pydantic.dump_option (pydantic.dump_dict pydantic.dump_str) (natives x))
     ++ pydantic.dump_field opts model_config "extract" true
          (pydantic.dump_option (Extract.model_dump opts) (extract x))
     ++ pydantic.dump_field opts model_config "rules" true
          (pydantic.dump_option
             (pydantic.dump_list (Rule.model_dump opts)) (rules x)))%list.

End model.

End Library.

Module Logging.

Module Client.

Module File.

Definition model_config : pydantic.ConfigDict := _model.LauncherModel.

Definition model_fields : list string := ["id"; "sha1"; "size"; "url"].

Section model.
Context {PC : pydantic_core}.

Record t : Type := {
  id : string;
  sha1 : string;
  size : Z;
  url : string
}.

Definition model_validate (j : json) : result t :=
  pydantic.validate_model model_config model_fields (fun o =>
    id <- pydantic.required model_config o "id" pydantic.validate_str ;;
    sha1 <- pydantic.required model_config o "sha1" pydantic.validate_str ;;
    size <- pydantic.required model_config o "size" pydantic.validate_int ;;
    url <- pydantic.required model_config o "url" pydantic.validate_str ;;
    Ok {| id := id; sha1 := sha1; size := size; url := url |}) j.

Definition model_dump (opts : pydantic.dump_options) (x : t) : json :=
  JObject
    (pydantic.dump_field opts model_config "id" false (pydantic.dump_str (id x))
     ++ pydantic.dump_field opts model_config "sha1" false (pydantic.dump_str (sha1 x))
     ++ pydantic.dump_field opts model_config "size" false (pydantic.dump_int (size x))
     ++ pydantic.dump_field opts model_config "url" false (pydantic.dump_str (url x)))%list.

End model.

End File.

Definition model_config : pydantic.ConfigDict := _model.LauncherModel.

Definition model_fields : list string := ["argument"; "file"; "type"].

Section model.
Context {PC : pydantic_core}.

Record t : Type := {
  argument : string;
  file : File.t;
  type : string
}.

Definition model_validate (j : json) : result t :=
  pydantic.validate_model model_config model_fields (fun o =>
    argument <- pydantic.required model_config o "argument" pydantic.validate_str ;;
    file <- pydantic.required model_config o "file" File.model_validate ;;
    type <- pydantic.required model_config o "type" pydantic.validate_str ;;
    Ok {| argument := argument; file := file; type := type |}) j.

Definition model_dump (opts : pydantic.dump_options) (x : t) : json :=
  JObject
    (pydantic.dump_field opts model_config "argument" false
       (pydantic.dump_str (argument x))
     ++ pydantic.dump_field opts model_config "file" false
          (File.model_dump opts (file x))
     ++ pydantic.dump_field opts model_config "type" false (pydantic.dump_str (type x)))%list.

End model.

End Client.

Definition model_config : pydantic.ConfigDict := _model.LauncherModel.

Definition model_fields : list string := ["client"].

Section model.
Context {PC : pydantic_core}.

Record t : Type := {
  client : Client.t
}.

Definition model_validate (j : json) : result t :=
  pydantic.validate_model model_config model_fields (fun o =>
    client <- pydantic.required model_config o "client" Client.model_validate ;;
    Ok {| client := client |}) j.

Definition model_dump (opts : pydantic.dump_options) (x : t) : json :=
  JObject
    (pydantic.dump_field opts model_config "client" false
       (Client.model_dump opts (client x))).

End model.

End Logging.

(** [ConfigDict(title="MinecraftClientV1", extra="forbid", frozen=True,
    alias_generator=to_camel)]. *)
Definition model_config : pydantic.ConfigDict :=
  {| pydantic.title := Some "MinecraftClientV1";
     pydantic.extra := pydantic.forbid;
     pydantic.frozen := true;
     pydantic.alias_generator := Some pydantic.to_camel |}.

Definition model_fields : list string :=
  ["arguments"; "asset_index"; "assets"; "compliance_level"; "downloads"; "id";
   "java_version"; "libraries"; "logging"; "main_class"; "minecraft_arguments";
   "minimum_launcher_version"; "release_time"; "time"; "type"].

Section model.
Context {PC : pydantic_core}.

(** [logging: Optional[Logging]] has no default: the key must be present,
    its value may be [null].  [arguments] and [minecraft_arguments] default
    to [None]. *)
Record t : Type := {
  arguments : option Arguments.t;
  asset_index : AssetIndex.t;
  assets : string;
  compliance_level : Z;
  downloads : Downloads.t;
  id : string;
  java_version : JavaVersion.t;
  libraries : list Library.t;
  logging : option Logging.t;
  main_class : string;
  minecraft_arguments : option string;
  minimum_launcher_version : Z;
  release_time : string;
  time : string;
  type : string
}.

Definition model_validate (j : json) : result t :=
  pydantic.validate_model model_config model_fields (fun o =>
    arguments <-
      pydantic.defaulted model_config o "arguments"
        (pydantic.nullable Arguments.model_validate) None ;;
    asset_index <-
      pydantic.required model_config o "asset_index" AssetIndex.model_validate ;;
    assets <- pydantic.required model_config o "assets" pydantic.validate_str ;;
    compliance_level <-
      pydantic.required model_config o "compliance_level" pydantic.validate_int ;;
    downloads <-
      pydantic.required model_config o "downloads" Downloads.model_validate ;;
    id <- pydantic.required model_config o "id" pydantic.validate_str ;;
    java_version <-
      pydantic.required model_config o "java_version" JavaVersion.model_validate ;;
    libraries <-
      pydantic.required model_config o "libraries"
        (pydantic.validate_list Library.model_validate) ;;
    logging <-
      pydantic.required model_config o "logging"
        (pydantic.nullable Logging.model_validate) ;;
    main_class <-
      pydantic.required model_config o "main_class" pydantic.validate_str ;;
    minecraft_arguments <-
      pydantic.defaulted model_config o "minecraft_arguments"
        (pydantic.nullable pydantic.validate_str) None ;;
    minimum_launcher_version <-
      pydantic.required model_config o "minimum_launcher_version"
        pydantic.validate_int ;;
    release_time <-
      pydantic.required model_config o "release_time" pydantic.validate_str ;;
    time <- pydantic.required model_config o "time" pydantic.validate_str ;;
    type <- pydantic.required model_config o "type" pydantic.validate_str ;;
    Ok {| arguments := arguments; asset_index := asset_index; assets := assets;
          compliance_level := compliance_level; downloads := downloads;
          id := id; java_version := java_version; libraries := libraries;
          logging := logging; main_class := main_class;
          minecraft_arguments := minecraft_arguments;
          minimum_launcher_version := minimum_launcher_version;
          release_time := release_time; time := time; type := type |}) j.

Definition model_dump (opts : pydantic.dump_options) (x : t) : json :=
  JObject
    (pydantic.dump_field opts model_config "arguments" true
       (pydantic.dump_option (Arguments.model_dump opts) (arguments x))
     ++ pydantic.dump_field opts model_config "asset_index" false
          (AssetIndex.model_dump opts (asset_index x))
     ++ pydantic.dump_field opts model_config "assets" false (pydantic.dump_str (assets x))
     ++ pydantic.dump_field opts model_config "compliance_level" false
          (pydantic.dump_int (compliance_level x))
     ++ pydantic.dump_field opts model_config "downloads" false
          (Downloads.model_dump opts (downloads x))
     ++ pydantic.dump_field opts model_config "id" false (pydantic.dump_str (id x))
     ++ pydantic.dump_field opts model_config "java_version" false
          (JavaVersion.model_dump opts (java_version x))
     ++ pydantic.dump_field opts model_config "libraries" false
          (pydantic.dump_list (Library.model_dump opts) (libraries x))
     ++ pydantic.dump_field opts model_config "logging" false
          (pydantic.dump_option (Logging.model_dump opts) (logging x))
     ++ pydantic.dump_field opts model_config "main_class" false
          (pydantic.dump_str (main_class x))
     ++ pydantic.dump_field opts model_config "minecraft_arguments" true
          (pydantic.dump_option pydantic.dump_str (minecraft_arguments x))
     ++ pydantic.dump_field opts model_config "minimum_launcher_version" false
          (pydantic.dump_int (minimum_launcher_version x))
     ++ pydantic.dump_field opts model_config "release_time" false
          (pydantic.dump_str (release_time x))
     ++ pydantic.dump_field opts model_config "time" false (pydantic.dump_str (time x))
     ++ pydantic.dump_field opts model_config "type" false (pydantic.dump_str (type x)))%list.

(** [model_validate_json] on the decoded content. *)
Definition model_validate_json (doc : json) : result t := model_validate doc.

(** The defaults of the overriding [model_dump_json]: as [BaseModel]'s,
    but [exclude_none=True]. *)
Definition model_dump_json_defaults : pydantic.dump_options :=
  {| pydantic.by_alias := false;
     pydantic.exclude_defaults := false;
     pydantic.exclude_none := true |}.

(** [model_dump_json] hands its options on to [BaseModel.model_dump_json]. *)
Definition model_dump_json (opts : pydantic.dump_options) (x : t) : json :=
  model_dump opts x.

(** [download(url)]: the content fetched from [url], validated. *)
Definition download (requests_get : string -> json) (url : string) : result t :=
  model_validate_json (requests_get url).

End model.

End ClientV1.

(* ================================================================== *)
(** ** An executable pydantic_core and sample documents *)

(** A small instance on which the validators run: a URL is its text and the
    constructor asks for a scheme ([letter (letter | digit | + | - | .)* :]);
    a date-time is its text and must start with [dddd-dd-dd]; a numeric
    string is a decimal integer, a boolean string is [true] or [false];
    no float is coerced. *)
Module simple_core.

Fixpoint scheme_rest (s : string) : bool :=
  match s with
  | EmptyString => false
  | String c s' =>
      if Ascii.eqb c ":" then true
      else if Py.is_alnum c || Ascii.eqb c "+" || Ascii.eqb c "-" || Ascii.eqb c "."
      then scheme_rest s'
      else false
  end.

Definition has_scheme (s : string) : bool :=
  match s with
  | EmptyString => false
  | String c s' => Py.is_alpha c && scheme_rest s'
  end.

Fixpoint matches (pattern : list (ascii -> bool)) (s : string) : bool :=
  match pattern, s with
  | [], _ => true
  | _ :: _, EmptyString => false
  | p :: pattern', String c s' => p c && matches pattern' s'
  end.

Definition starts_with_date (s : string) : bool :=
  let d := Py.is_digit in
  let dash := fun c => Ascii.eqb c "-" in
  matches [d; d; d; d; dash; d; d; dash; d; d] s.

Definition parse_url (s : string) : option string :=
  if has_scheme s then Some s else None.

Definition parse_datetime (j : json) : option string :=
  match j with
  | JString s => if starts_with_date s then Some s else None
  | _ => None
  end.

Definition parse_int (s : string) : option Z :=
  option_map Z.of_int (NilZero.int_of_string s).

Definition parse_bool (s : string) : option bool :=
  if String.eqb s "true" then Some true
  else if String.eqb s "false" then Some false
  else None.

#[export] Instance core : pydantic_core := {|
  Url := string;
  Url_new := parse_url;
  unicode_string := fun u => u;
  datetime := string;
  datetime_validate := parse_datetime;
  isoformat := fun d => d;
  str_as_int := parse_int;
  float_as_int := fun _ => None;
  str_as_bool := parse_bool;
  float_as_bool := fun _ => None
|}.

End simple_core.

Module samples.

Definition download (sha1 : string) (size : Z) (url : string) : json :=
  JObject [("sha1", JString sha1); ("size", JInt size); ("url", JString url)].

Definition version_v1 (id : string) : json :=
  JObject
    [("id", JString id);
     ("type", JString "snapshot");
     ("url", JString "https://piston-meta.mojang.com/v1/packages/ab/23w40a.json");
     ("time", JString "2023-10-04T12:44:52+00:00");
     ("releaseTime", JString "2023-10-04T12:37:07+00:00")].

Definition version_v2 (id : string) : json :=
  JObject
    [("id", JString id);
     ("type", JString "snapshot");
     ("url", JString "https://piston-meta.mojang.com/v1/packages/ab/23w40a.json");
     ("time", JString "2023-10-04T12:44:52+00:00");
     ("releaseTime", JString "2023-10-04T12:37:07+00:00");
     ("sha1", JString "ab");
     ("complianceLevel", JInt 1)].

Definition manifest (versions : list json) : json :=
  JObject
    [("latest",
      JObject [("release", JString "1.20.2"); ("snapshot", JString "23w40a")]);
     ("versions", JArray versions)].

Definition manifest_v1 : json := manifest [version_v1 "23w40a"].

Definition manifest_v2 : json := manifest [version_v2 "23w40a"].

Definition arguments : json :=
  JObject
    [("game",
      JArray
        [JString "--username";
         JObject
           [("rules",
             JArray
               [JObject
                  [("action", JString "allow");
                   ("features", JObject [("is_demo_user", JBool true)])]]);
            ("value", JString "--demo")]]);
     ("jvm",
      JArray
        [JObject
           [("rules",
             JArray
               [JObject
                  [("action", JString "allow");
                   ("os", JObject [("name", JString "osx")])]]);
            ("value", JArray [JString "-XstartOnFirstThread"])];
         JString "-cp"])].

Definition library : json :=
  JObject
    [("downloads",
      JObject
        [("artifact",
          JObject
            [("path", JString "ca/weblite/java-objc-bridge-1.1.jar");
             ("sha1", JString "17");
             ("size", JInt 1330045);
             ("url", JString "https://libraries.minecraft.net/ca/weblite.jar")])]);
     ("name", JString "ca.weblite:java-objc-bridge:1.1");
     ("rules",
      JArray
        [JObject
           [("action", JString "allow");
            ("os", JObject [("name", JString "osx")])]])].

Definition logging : json :=
  JObject
    [("client",
      JObject
        [("argument", JString "-Dlog4j.configurationFile=${path}");
         ("file",
          JObject
            [("id", JString "client-1.12.xml");
             ("sha1", JString "bd");
             ("size", JInt 888);
             ("url", JString "https://piston-data.mojang.com/client-1.12.xml")]);
         ("type", JString "log4j2-xml")])].

(** A client descriptor, by its [assetIndex] sizes, its [downloads] object
    and its optional members. *)
Definition client (size total_size : Z) (downloads : json)
  (optional : list (string * json)) : json :=
  JObject
    ([("assetIndex",
       JObject
         [("id", JString "8");
          ("sha1", JString "a4");
          ("size", JInt size);
          ("totalSize", JInt total_size);
          ("url", JString "https://piston-meta.mojang.com/v1/packages/a4/8.json")]);
      ("assets", JString "8");
      ("complianceLevel", JInt 1);
      ("downloads", downloads);
      ("id", JString "1.20.2");
      ("javaVersion",
       JObject [("component", JString "java-runtime-gamma"); ("majorVersion", JInt 17)]);
      ("libraries", JArray [library]);
      ("mainClass", JString "net.minecraft.client.main.Main");
      ("minimumLauncherVersion", JInt 21);
      ("releaseTime", JString "2023-09-20T09:02:57+00:00");
      ("time", JString "2023-09-20T09:02:57+00:00");
      ("type", JString "release")] ++ optional)%list.

Definition downloads : json :=
  JObject
    [("client", download "0d" 22 "https://piston-data.mojang.com/v1/objects/0d/client.jar");
     ("client_mappings",
      download "1c" 33 "https://piston-data.mojang.com/v1/objects/1c/client.txt");
     ("server", download "5b" 44 "https://piston-data.mojang.com/v1/objects/5b/server.jar")].

Definition downloads_camel : json :=
  JObject
    [("client", download "0d" 22 "https://piston-data.mojang.com/v1/objects/0d/client.jar");
     ("clientMappings",
      download "1c" 33 "https://piston-data.mojang.com/v1/objects/1c/client.txt");
     ("server", download "5b" 44 "https://piston-data.mojang.com/v1/objects/5b/server.jar")].

Definition client_1_20_2 : json :=
  client 436400 626827712 downloads [("arguments", arguments); ("logging", logging)].

Definition client_without_logging : json :=
  client 436400 626827712 downloads [("arguments", arguments)].

Definition client_without_optional : json :=
  client 436400 626827712 downloads [("logging", JNull)].

Definition client_negative_sizes : json :=
  client (-1) (-626827712) downloads [("logging", logging)].

(** An unknown key two levels down, in [downloads.client]. *)
Definition client_nested_extra_key : json :=
  client 436400 626827712
    (JObject
       [("client",
         JObject
           [("sha1", JString "0d"); ("size", JInt 22);
            ("url", JString "https://piston-data.mojang.com/v1/objects/0d/client.jar");
            ("path", JString "client.jar")]);
        ("server",
         download "5b" 44 "https://piston-data.mojang.com/v1/objects/5b/server.jar")])
    [("logging", logging)].

End samples.

(** The documents of [samples] as the schemas read them on
    [simple_core.core]. *)
Module parsed.

Import simple_core.

Definition manifest_v1 : VersionManifestV1.t :=
  {|
    VersionManifestV1.latest :=
      {|
        VersionManifestV1.Latest.release := "1.20.2";
        VersionManifestV1.Latest.snapshot := "23w40a"
      |};
    VersionManifestV1.versions :=
      [{|
         VersionManifestV1.Version.id := "23w40a";
         VersionManifestV1.Version.type := "snapshot";
         VersionManifestV1.Version.url :=
           "https://piston-meta.mojang.com/v1/packages/ab/23w40a.json";
         VersionManifestV1.Version.time := "2023-10-04T12:44:52+00:00";
         VersionManifestV1.Version.release_time := "2023-10-04T12:37:07+00:00"
       |}]
  |}.

Definition manifest_v2 : VersionManifestV2.t :=
  {|
    VersionManifestV2.latest :=
      {|
        VersionManifestV2.Latest.release := "1.20.2";
        VersionManifestV2.Latest.snapshot := "23w40a"
      |};
    VersionManifestV2.versions :=
      [{|
         VersionManifestV2.Version.id := "23w40a";
         VersionManifestV2.Version.type := "snapshot";
         VersionManifestV2.Version.url :=
           "https://piston-meta.mojang.com/v1/packages/ab/23w40a.json";
         VersionManifestV2.Version.time := "2023-10-04T12:44:52+00:00";
         VersionManifestV2.Version.release_time := "2023-10-04T12:37:07+00:00";
         VersionManifestV2.Version.sha1 := "ab";
         VersionManifestV2.Version.compliance_level := 1
       |}]
  |}.

Definition client_1_20_2 : ClientV1.t :=
  {|
    ClientV1.arguments :=
      Some
        {|
          ClientV1.Arguments.game :=
            [inl "--username";
             inr
               {|
                 ClientV1.Arguments.ConditionalGameArgument.rules :=
                   [{|
                      ClientV1.Arguments.ConditionalGameArgument.Rule.action := "allow";
                      ClientV1.Arguments.ConditionalGameArgument.Rule.features :=
                        [("is_demo_user", true)]
                    |}];
                 ClientV1.Arguments.ConditionalGameArgument.value := inl "--demo"
               |}];
          ClientV1.Arguments.jvm :=
            [inr
               {|
                 ClientV1.Arguments.ConditionalJVMArgument.rules :=
                   [{|
                      ClientV1.Arguments.ConditionalJVMArgument.Rule.action := "allow";
                      ClientV1.Arguments.ConditionalJVMArgument.Rule.os :=
                        {|
                          ClientV1.Arguments.ConditionalJVMArgument.Rule.OS.name :=
                            Some "osx";
                          ClientV1.Arguments.ConditionalJVMArgument.Rule.OS.version := None;
                          ClientV1.Arguments.ConditionalJVMArgument.Rule.OS.arch := None
                        |}
                    |}];
                 ClientV1.Arguments.ConditionalJVMArgument.value :=
                   inr ["-XstartOnFirstThread"]
               |};
             inl "-cp"]
        |};
    ClientV1.asset_index :=
      {|
        ClientV1.AssetIndex.id := "8";
        ClientV1.AssetIndex.sha1 := "a4";
        ClientV1.AssetIndex.size := 436400;
        ClientV1.AssetIndex.total_size := 626827712;
        ClientV1.AssetIndex.url := "https://piston-meta.mojang.com/v1/packages/a4/8.json"
      |};
    ClientV1.assets := "8";
    ClientV1.compliance_level := 1;
    ClientV1.downloads :=
      {|
        ClientV1.Downloads.client :=
          {|
            ClientV1.Downloads.Download.sha1 := "0d";
            ClientV1.Downloads.Download.size := 22;
            ClientV1.Downloads.Download.url :=
              "https://piston-data.mojang.com/v1/objects/0d/client.jar"
          |};
        ClientV1.Downloads.client_mappings :=
          Some
            {|
              ClientV1.Downloads.Download.sha1 := "1c";
              ClientV1.Downloads.Download.size := 33;
              ClientV1.Downloads.Download.url :=
                "https://piston-data.mojang.com/v1/objects/1c/client.txt"
            |};
        ClientV1.Downloads.server :=
          {|
            ClientV1.Downloads.Download.sha1 := "5b";
            ClientV1.Downloads.Download.size := 44;
            ClientV1.Downloads.Download.url :=
              "https://piston-data.mojang.com/v1/objects/5b/server.jar"
          |};
        ClientV1.Downloads.server_mappings := None;
        ClientV1.Downloads.windows_server := None
      |};
    ClientV1.id := "1.20.2";
    ClientV1.java_version :=
      {|
        ClientV1.JavaVersion.component := "java-runtime-gamma";
        ClientV1.JavaVersion.major_version := 17
      |};
    ClientV1.libraries :=
      [{|
         ClientV1.Library.downloads :=
           {|
             ClientV1.Library.Downloads.artifact :=
               Some
                 {|
                   ClientV1.Library.Downloads.Artifact.path :=
                     "ca/weblite/java-objc-bridge-1.1.jar";
                   ClientV1.Library.Downloads.Artifact.sha1 := "17";
                   ClientV1.Library.Downloads.Artifact.size := 1330045;
                   ClientV1.Library.Downloads.Artifact.url :=
                     "https://libraries.minecraft.net/ca/weblite.jar"
                 |};
             ClientV1.Library.Downloads.classifiers := None
           |};
         ClientV1.Library.name := "ca.weblite:java-objc-bridge:1.1";
         ClientV1.Library.url := None;
         ClientV1.Library.natives := None;
         ClientV1.Library.extract := None;
         ClientV1.Library.rules :=
           Some
             [{|
                ClientV1.Library.Rule.action := "allow";
                ClientV1.Library.Rule.os :=
                  Some
                    {|
                      ClientV1.Library.Rule.OS.name := Some "osx";
                      ClientV1.Library.Rule.OS.version := None;
                      ClientV1.Library.Rule.OS.arch := None
                    |}
              |}]
       |}];
    ClientV1.logging :=
      Some
        {|
          ClientV1.Logging.client :=
            {|
              ClientV1.Logging.Client.argument := "-Dlog4j.configurationFile=${path}";
              ClientV1.Logging.Client.file :=
                {|
                  ClientV1.Logging.Client.File.id := "client-1.12.xml";
                  ClientV1.Logging.Client.File.sha1 := "bd";
                  ClientV1.Logging.Client.File.size := 888;
                  ClientV1.Logging.Client.File.url :=
                    "https://piston-data.mojang.com/client-1.12.xml"
                |};
              ClientV1.Logging.Client.type := "log4j2-xml"
            |}
        |};
    ClientV1.main_class := "net.minecraft.client.main.Main";
    ClientV1.minecraft_arguments := None;
    ClientV1.minimum_launcher_version := 21;
    ClientV1.release_time := "2023-09-20T09:02:57+00:00";
    ClientV1.time := "2023-09-20T09:02:57+00:00";
    ClientV1.type := "release"
  |}.

Definition client_without_optional : ClientV1.t :=
  {|
    ClientV1.arguments := None;
    ClientV1.asset_index :=
      {|
        ClientV1.AssetIndex.id := "8";
        ClientV1.AssetIndex.sha1 := "a4";
        ClientV1.AssetIndex.size := 436400;
        ClientV1.AssetIndex.total_size := 626827712;
        ClientV1.AssetIndex.url := "https://piston-meta.mojang.com/v1/packages/a4/8.json"
      |};
    ClientV1.assets := "8";
    ClientV1.compliance_level := 1;
    ClientV1.downloads :=
      {|
        ClientV1.Downloads.client :=
          {|
            ClientV1.Downloads.Download.sha1 := "0d";
            ClientV1.Downloads.Download.size := 22;
            ClientV1.Downloads.Download.url :=
              "https://piston-data.mojang.com/v1/objects/0d/client.jar"
          |};
        ClientV1.Downloads.client_mappings :=
          Some
            {|
              ClientV1.Downloads.Download.sha1 := "1c";
              ClientV1.Downloads.Download.size := 33;
              ClientV1.Downloads.Download.url :=
                "https://piston-data.mojang.com/v1/objects/1c/client.txt"
            |};
        ClientV1.Downloads.server :=
          {|
            ClientV1.Downloads.Download.sha1 := "5b";
            ClientV1.Downloads.Download.size := 44;
            ClientV1.Downloads.Download.url :=
              "https://piston-data.mojang.com/v1/objects/5b/server.jar"
          |};
        ClientV1.Downloads.server_mappings := None;
        ClientV1.Downloads.windows_server := None
      |};
    ClientV1.id := "1.20.2";
    ClientV1.java_version :=
      {|
        ClientV1.JavaVersion.component := "java-runtime-gamma";
        ClientV1.JavaVersion.major_version := 17
      |};
    ClientV1.libraries :=
      [{|
         ClientV1.Library.downloads :=
           {|
             ClientV1.Library.Downloads.artifact :=
               Some
                 {|
                   ClientV1.Library.Downloads.Artifact.path :=
                     "ca/weblite/java-objc-bridge-1.1.jar";
                   ClientV1.Library.Downloads.Artifact.sha1 := "17";
                   ClientV1.Library.Downloads.Artifact.size := 1330045;
                   ClientV1.Library.Downloads.Artifact.url :=
                     "https://libraries.minecraft.net/ca/weblite.jar"
                 |};
             ClientV1.Library.Downloads.classifiers := None
           |};
         ClientV1.Library.name := "ca.weblite:java-objc-bridge:1.1";
         ClientV1.Library.url := None;
         ClientV1.Library.natives := None;
         ClientV1.Library.extract := None;
         ClientV1.Library.rules :=
           Some
             [{|
                ClientV1.Library.Rule.action := "allow";
                ClientV1.Library.Rule.os :=
                  Some
                    {|
                      ClientV1.Library.Rule.OS.name := Some "osx";
                      ClientV1.Library.Rule.OS.version := None;
                      ClientV1.Library.Rule.OS.arch := None
                    |}
              |}]
       |}];
    ClientV1.logging := None;
    ClientV1.main_class := "net.minecraft.client.main.Main";
    ClientV1.minecraft_arguments := None;
    ClientV1.minimum_launcher_version := 21;
    ClientV1.release_time := "2023-09-20T09:02:57+00:00";
    ClientV1.time := "2023-09-20T09:02:57+00:00";
    ClientV1.type := "release"
  |}.

End parsed.

(* ================================================================== *)
(** ** The schemas of the system *)

Module system.

Section schemas.
Context {PC : pydantic_core}.

(** A schema class: its configuration, its declared fields, its validator
    and its serialiser. *)
Record schema : Type := schema_of {
  carrier : Type;
  config : pydantic.ConfigDict;
  fields : list string;
  validate : json -> result carrier;
  dump : pydantic.dump_options -> carrier -> json
}.

(** The classes configured with [alias_generator=to_camel]: the three
    documents and every subclass of [LauncherModel]. *)
Definition camel_schemas : list schema :=
  [schema_of VersionManifestV1.Latest.model_config
     VersionManifestV1.Latest.model_fields
     VersionManifestV1.Latest.model_validate
     VersionManifestV1.Latest.model_dump;
   schema_of VersionManifestV1.Version.model_config
     VersionManifestV1.Version.model_fields
     VersionManifestV1.Version.model_validate
     VersionManifestV1.Version.model_dump;
   schema_of VersionManifestV1.model_config
     VersionManifestV1.model_fields
     VersionManifestV1.model_validate
     VersionManifestV1.model_dump;
   schema_of VersionManifestV2.Latest.model_config
     VersionManifestV2.Latest.model_fields
     VersionManifestV2.Latest.model_validate
     VersionManifestV2.Latest.model_dump;
   schema_of VersionManifestV2.Version.model_config
     VersionManifestV2.Version.model_fields
     VersionManifestV2.Version.model_validate
     VersionManifestV2.Version.model_dump;
   schema_of VersionManifestV2.model_config
     VersionManifestV2.model_fields
     VersionManifestV2.model_validate
     VersionManifestV2.model_dump;
   schema_of ClientV1.Arguments.ConditionalGameArgument.Rule.model_config
     ClientV1.Arguments.ConditionalGameArgument.Rule.model_fields
     ClientV1.Arguments.ConditionalGameArgument.Rule.model_validate
     ClientV1.Arguments.ConditionalGameArgument.Rule.model_dump;
   schema_of ClientV1.Arguments.ConditionalGameArgument.model_config
     ClientV1.Arguments.ConditionalGameArgument.model_fields
     ClientV1.Arguments.ConditionalGameArgument.model_validate
     ClientV1.Arguments.ConditionalGameArgument.model_dump;
   schema_of ClientV1.Arguments.ConditionalJVMArgument.Rule.OS.model_config
     ClientV1.Arguments.ConditionalJVMArgument.Rule.OS.model_fields
     ClientV1.Arguments.ConditionalJVMArgument.Rule.OS.model_validate
     ClientV1.Arguments.ConditionalJVMArgument.Rule.OS.model_dump;
   schema_of ClientV1.Arguments.ConditionalJVMArgument.Rule.model_config
     ClientV1.Arguments.ConditionalJVMArgument.Rule.model_fields
     ClientV1.Arguments.ConditionalJVMArgument.Rule.model_validate
     ClientV1.Arguments.ConditionalJVMArgument.Rule.model_dump;
   schema_of ClientV1.Arguments.ConditionalJVMArgument.model_config
     ClientV1.Arguments.ConditionalJVMArgument.model_fields
     ClientV1.Arguments.ConditionalJVMArgument.model_validate
     ClientV1.Arguments.ConditionalJVMArgument.model_dump;
   schema_of ClientV1.Arguments.model_config
     ClientV1.Arguments.model_fields
     ClientV1.Arguments.model_validate
     ClientV1.Arguments.model_dump;
   schema_of ClientV1.AssetIndex.model_config
     ClientV1.AssetIndex.model_fields
     ClientV1.AssetIndex.model_validate
     ClientV1.AssetIndex.model_dump;
   schema_of ClientV1.Downloads.Download.model_config
     ClientV1.Downloads.Download.model_fields
     ClientV1.Downloads.Download.model_validate
     ClientV1.Downloads.Download.model_dump;
   schema_of ClientV1.JavaVersion.model_config
     ClientV1.JavaVersion.model_fields
     ClientV1.JavaVersion.model_validate
     ClientV1.JavaVersion.model_dump;
   schema_of ClientV1.Library.Downloads.Artifact.model_config
     ClientV1.Library.Downloads.Artifact.model_fields
     ClientV1.Library.Downloads.Artifact.model_validate
     ClientV1.Library.Downloads.Artifact.model_dump;
   schema_of ClientV1.Library.Downloads.model_config
     ClientV1.Library.Downloads.model_fields
     ClientV1.Library.Downloads.model_validate
     ClientV1.Library.Downloads.model_dump;
   schema_of ClientV1.Library.Extract.model_config
     ClientV1.Library.Extract.model_fields
     ClientV1.Library.Extract.model_validate
     ClientV1.Library.Extract.model_dump;
   schema_of ClientV1.Library.Rule.OS.model_config
     ClientV1.Library.Rule.OS.model_fields
     ClientV1.Library.Rule.OS.model_validate
     ClientV1.Library.Rule.OS.model_dump;
   schema_of ClientV1.Library.Rule.model_config
     ClientV1.Library.Rule.model_fields
     ClientV1.Library.Rule.model_validate
     ClientV1.Library.Rule.model_dump;
   schema_of ClientV1.Library.model_config
     ClientV1.Library.model_fields
     ClientV1.Library.model_validate
     ClientV1.Library.model_dump;
   schema_of ClientV1.Logging.Client.File.model_config
     ClientV1.Logging.Client.File.model_fields
     ClientV1.Logging.Client.File.model_validate
     ClientV1.Logging.Client.File.model_dump;
   schema_of ClientV1.Logging.Client.model_config
     ClientV1.Logging.Client.model_fields
     ClientV1.Logging.Client.model_validate
     ClientV1.Logging.Client.model_dump;
   schema_of ClientV1.Logging.model_config
     ClientV1.Logging.model_fields
     ClientV1.Logging.model_validate
     ClientV1.Logging.model_dump;
   schema_of ClientV1.model_config
     ClientV1.model_fields
     ClientV1.model_validate
     ClientV1.model_dump].

(** [ClientV1.Downloads], configured without alias generator. *)
Definition downloads_schema : schema :=
  schema_of ClientV1.Downloads.model_config ClientV1.Downloads.model_fields
    ClientV1.Downloads.model_validate ClientV1.Downloads.model_dump.

(** Every schema class of the repository. *)
Definition schemas : list schema := downloads_schema :: camel_schemas.

End schemas.

End system.

(* ================================================================== *)
(** ** Vocabulary of the properties *)

(** [x] is a value the validator [v] can return. *)
Definition validated {A : Type} (v : json -> result A) (x : A) : Prop :=
  exists j, v j = Ok x.

(** Validating the dump of a validated value gives the value back. *)
Definition roundtrips {A : Type} (v : json -> result A) (d : A -> json) : Prop :=
  forall x, validated v x -> v (d x) = Ok x.

(** [v] rejects whatever [d] writes. *)
Definition rejects {A B : Type} (v : json -> result A) (d : B -> json) : Prop :=
  forall x, exists e, v (d x) = Err e.

(** [d] never writes [null]. *)
Definition never_null {A : Type} (d : A -> json) : Prop :=
  forall x, is_null (d x) = false.

(** [j] is an object that has the key [k]. *)
Definition has_key (k : string) (j : json) : bool :=
  match j with
  | JObject o => mem k (keys o)
  | _ => false
  end.

(** The keys of an object. *)
Definition keys_of (j : json) : list string :=
  match j with
  | JObject o => keys o
  | _ => []
  end.

(** The value under [k] of an object. *)
Definition member (k : string) (j : json) : option json :=
  match j with
  | JObject o => get k o
  | _ => None
  end.

(** The elements of the [versions] array of a manifest document. *)
Definition version_entries (doc : json) : list json :=
  match member "versions" doc with
  | Some (JArray entries) => entries
  | _ => []
  end.

(** No [null] anywhere in [j]. *)
Fixpoint no_null (j : json) : bool :=
  match j with
  | JNull => false
  | JArray l => forallb no_null l
  | JObject o => forallb (fun kv => no_null (snd kv)) o
  | _ => true
  end.

(** [d] writes no [null] at any depth. *)
Definition clean {A : Type} (d : A -> json) : Prop :=
  forall x, no_null (d x) = true.

(** [d] writes [null] itself or no [null] at any depth. *)
Definition clean_or_null {A : Type} (d : A -> json) : Prop :=
  forall x, is_null (d x) = true \/ no_null (d x) = true.

(** The validator of an element of [Arguments.game]. *)
Definition game_argument {PC : pydantic_core} (j : json)
  : result (string + ClientV1.Arguments.ConditionalGameArgument.t) :=
  pydantic.union pydantic.validate_str
    ClientV1.Arguments.ConditionalGameArgument.model_validate j.

(** The validator of an element of [Arguments.jvm]. *)
Definition jvm_argument (j : json)
  : result (string + ClientV1.Arguments.ConditionalJVMArgument.t) :=
  pydantic.union pydantic.validate_str
    ClientV1.Arguments.ConditionalJVMArgument.model_validate j.

(* ================================================================== *)
(** ** The texts of the built URLs *)

(** The text each builder of [urls.py] hands to [Url]: the value of its
    f-string. *)
Module urls_text.

Definition package_url (hash file : string) (api_version : Z) : string :=
  "https://piston-meta.mojang.com/v" ++ Py.str_of_int api_version
    ++ "/packages/" ++ hash ++ "/" ++ file.

Definition resource_url (hash : string) : string :=
  "https://resources.download.minecraft.net/" ++ Py.slice_to 2 hash
    ++ "/" ++ hash.

Definition version_manifest_url (file_version : Z) : string :=
  "https://piston-meta.mojang.com/mc/game/version_manifest"
    ++ (if Z.eqb file_version 1 then "" else "_v" ++ Py.str_of_int file_version)
    ++ ".json".

End urls_text.

(** [c in s]. *)
Fixpoint contains (c : ascii) (s : string) : bool :=
  match s with
  | EmptyString => false
  | String c' s' => Ascii.eqb c c' || contains c s'
  end.

(* ================================================================== *)
(** ** Required fields *)

(** Every schema class with the fields it declares without a default
    (the fields with [= None] are the other ones). *)
Definition required_fields {PC : pydantic_core}
  : list (system.schema * list string) :=
  [(system.schema_of VersionManifestV1.Latest.model_config
      VersionManifestV1.Latest.model_fields
      VersionManifestV1.Latest.model_validate
      VersionManifestV1.Latest.model_dump,
    ["release"; "snapshot"]);
   (system.schema_of VersionManifestV1.Version.model_config
      VersionManifestV1.Version.model_fields
      VersionManifestV1.Version.model_validate
      VersionManifestV1.Version.model_dump,
    ["id"; "type"; "url"; "time"; "release_time"]);
   (system.schema_of VersionManifestV1.model_config
      VersionManifestV1.model_fields
      VersionManifestV1.model_validate
      VersionManifestV1.model_dump,
    ["latest"; "versions"]);
   (system.schema_of VersionManifestV2.Latest.model_config
      VersionManifestV2.Latest.model_fields
      VersionManifestV2.Latest.model_validate
      VersionManifestV2.Latest.model_dump,
    ["release"; "snapshot"]);
   (system.schema_of VersionManifestV2.Version.model_config
      VersionManifestV2.Version.model_fields
      VersionManifestV2.Version.model_validate
      VersionManifestV2.Version.model_dump,
    ["id"; "type"; "url"; "time"; "release_time"; "sha1"; "compliance_level"]);
   (system.schema_of VersionManifestV2.model_config
      VersionManifestV2.model_fields
      VersionManifestV2.model_validate
      VersionManifestV2.model_dump,
    ["latest"; "versions"]);
   (system.schema_of ClientV1.Arguments.ConditionalGameArgument.Rule.model_config
      ClientV1.Arguments.ConditionalGameArgument.Rule.model_fields
      ClientV1.Arguments.ConditionalGameArgument.Rule.model_validate
      ClientV1.Arguments.ConditionalGameArgument.Rule.model_dump,
    ["action"; "features"]);
   (system.schema_of ClientV1.Arguments.ConditionalGameArgument.model_config
      ClientV1.Arguments.ConditionalGameArgument.model_fields
      ClientV1.Arguments.ConditionalGameArgument.model_validate
      ClientV1.Arguments.ConditionalGameArgument.model_dump,
    ["rules"; "value"]);
   (system.schema_of ClientV1.Arguments.ConditionalJVMArgument.Rule.OS.model_config
      ClientV1.Arguments.ConditionalJVMArgument.Rule.OS.model_fields
      ClientV1.Arguments.ConditionalJVMArgument.Rule.OS.model_validate
      ClientV1.Arguments.ConditionalJVMArgument.Rule.OS.model_dump,
    []);
   (system.schema_of ClientV1.Arguments.ConditionalJVMArgument.Rule.model_config
      ClientV1.Arguments.ConditionalJVMArgument.Rule.model_fields
      ClientV1.Arguments.ConditionalJVMArgument.Rule.model_validate
      ClientV1.Arguments.ConditionalJVMArgument.Rule.model_dump,
    ["action"; "os"]);
   (system.schema_of ClientV1.Arguments.ConditionalJVMArgument.model_config
      ClientV1.Arguments.ConditionalJVMArgument.model_fields
      ClientV1.Arguments.ConditionalJVMArgument.model_validate
      ClientV1.Arguments.ConditionalJVMArgument.model_dump,
    ["rules"; "value"]);
   (system.schema_of ClientV1.Arguments.model_config
      ClientV1.Arguments.model_fields
      ClientV1.Arguments.model_validate
      ClientV1.Arguments.model_dump,
    ["game"; "jvm"]);
   (system.schema_of ClientV1.AssetIndex.model_config
      ClientV1.AssetIndex.model_fields
      ClientV1.AssetIndex.model_validate
      ClientV1.AssetIndex.model_dump,
    ["id"; "sha1"; "size"; "total_size"; "url"]);
   (system.schema_of ClientV1.Downloads.Download.model_config
      ClientV1.Downloads.Download.model_fields
      ClientV1.Downloads.Download.model_validate
      ClientV1.Downloads.Download.model_dump,
    ["sha1"; "size"; "url"]);
   (system.schema_of ClientV1.Downloads.model_config
      ClientV1.Downloads.model_fields
      ClientV1.Downloads.model_validate
      ClientV1.Downloads.model_dump,
    ["client"; "server"]);
   (system.schema_of ClientV1.JavaVersion.model_config
      ClientV1.JavaVersion.model_fields
      ClientV1.JavaVersion.model_validate
      ClientV1.JavaVersion.model_dump,
    ["component"; "major_version"]);
   (system.schema_of ClientV1.Library.Downloads.Artifact.model_config
      ClientV1.Library.Downloads.Artifact.model_fields
      ClientV1.Library.Downloads.Artifact.model_validate
      ClientV1.Library.Downloads.Artifact.model_dump,
    ["path"; "sha1"; "size"; "url"]);
   (system.schema_of ClientV1.Library.Downloads.model_config
      ClientV1.Library.Downloads.model_fields
      ClientV1.Library.Downloads.model_validate
      ClientV1.Library.Downloads.model_dump,
    []);
   (system.schema_of ClientV1.Library.Extract.model_config
      ClientV1.Library.Extract.model_fields
      ClientV1.Library.Extract.model_validate
      ClientV1.Library.Extract.model_dump,
    ["exclude"]);
   (system.schema_of ClientV1.Library.Rule.OS.model_config
      ClientV1.Library.Rule.OS.model_fields
      ClientV1.Library.Rule.OS.model_validate
      ClientV1.Library.Rule.OS.model_dump,
    []);
   (system.schema_of ClientV1.Library.Rule.model_config
      ClientV1.Library.Rule.model_fields
      ClientV1.Library.Rule.model_validate
      ClientV1.Library.Rule.model_dump,
    ["action"]);
   (system.schema_of ClientV1.Library.model_config
      ClientV1.Library.model_fields
      ClientV1.Library.model_validate
      ClientV1.Library.model_dump,
    ["downloads"; "name"]);
   (system.schema_of ClientV1.Logging.Client.File.model_config
      ClientV1.Logging.Client.File.model_fields
      ClientV1.Logging.Client.File.model_validate
      ClientV1.Logging.Client.File.model_dump,
    ["id"; "sha1"; "size"; "url"]);
   (system.schema_of ClientV1.Logging.Client.model_config
      ClientV1.Logging.Client.model_fields
      ClientV1.Logging.Client.model_validate
      ClientV1.Logging.Client.model_dump,
    ["argument"; "file"; "type"]);
   (system.schema_of ClientV1.Logging.model_config
      ClientV1.Logging.model_fields
      ClientV1.Logging.model_validate
      ClientV1.Logging.model_dump,
    ["client"]);
   (system.schema_of ClientV1.model_config
      ClientV1.model_fields
      ClientV1.model_validate
      ClientV1.model_dump,
    ["asset_index"; "assets"; "compliance_level"; "downloads"; "id";
     "java_version"; "libraries"; "logging"; "main_class";
     "minimum_launcher_version"; "release_time"; "time"; "type"])].

(* ================================================================== *)
(** ** Changing one member of a document *)

(** The object [o] with [v] under the key [k], wherever the key stands. *)
Definition replace_value (k : string) (v : json) (o : list (string * json))
  : list (string * json) :=
  map (fun kv => if String.eqb (fst kv) k then (fst kv, v) else kv) o.

(** The descriptor [D] with another [assets]
    ([D.model_copy(update={"assets": assets})]). *)
Definition with_assets {PC : pydantic_core} (D : ClientV1.t) (assets : string)
  : ClientV1.t :=
  {| ClientV1.arguments := ClientV1.arguments D;
     ClientV1.asset_index := ClientV1.asset_index D;
     ClientV1.assets := assets;
     ClientV1.compliance_level := ClientV1.compliance_level D;
     ClientV1.downloads := ClientV1.downloads D;
     ClientV1.id := ClientV1.id D;
     ClientV1.java_version := ClientV1.java_version D;
     ClientV1.libraries := ClientV1.libraries D;
     ClientV1.logging := ClientV1.logging D;
     ClientV1.main_class := ClientV1.main_class D;
     ClientV1.minecraft_arguments := ClientV1.minecraft_arguments D;
     ClientV1.minimum_launcher_version := ClientV1.minimum_launcher_version D;
     ClientV1.release_time := ClientV1.release_time D;
     ClientV1.time := ClientV1.time D;
     ClientV1.type := ClientV1.type D |}.

(** The members of an object. *)
Definition members (j : json) : list (string * json) :=
  match j with
  | JObject o => o
  | _ => []
  end.

(* ================================================================== *)
(** ** From a version-2 manifest to a version-1 manifest *)

(** The object [o] without the members under the keys [ks]. *)
Definition without_keys (ks : list string) (o : list (string * json))
  : list (string * json) :=
  filter (fun kv => negb (mem (fst kv) ks)) o.

(** A version entry without [sha1] and [complianceLevel]. *)
Definition entry_as_v1 (e : json) : json :=
  match e with
  | JObject o => JObject (without_keys ["sha1"; "complianceLevel"] o)
  | _ => e
  end.

(** A manifest document with every version entry so shortened. *)
Definition document_as_v1 (doc : json) : json :=
  match doc with
  | JObject o =>
      JObject
        (replace_value "versions"
           (JArray (map entry_as_v1 (version_entries doc))) o)
  | _ => doc
  end.

Section manifest_v1_of_v2.
Context {PC : pydantic_core}.

Definition Latest_as_v1 (l : VersionManifestV2.Latest.t)
  : VersionManifestV1.Latest.t :=
  {| VersionManifestV1.Latest.release := VersionManifestV2.Latest.release l;
     VersionManifestV1.Latest.snapshot := VersionManifestV2.Latest.snapshot l |}.

Definition Version_as_v1 (v : VersionManifestV2.Version.t)
  : VersionManifestV1.Version.t :=
  {| VersionManifestV1.Version.id := VersionManifestV2.Version.id v;
     VersionManifestV1.Version.type := VersionManifestV2.Version.type v;
     VersionManifestV1.Version.url := VersionManifestV2.Version.url v;
     VersionManifestV1.Version.time := VersionManifestV2.Version.time v;
     VersionManifestV1.Version.release_time :=
       VersionManifestV2.Version.release_time v |}.

(** The version-1 manifest with the data of [D]. *)
Definition manifest_as_v1 (D : VersionManifestV2.t) : VersionManifestV1.t :=
  {| VersionManifestV1.latest := Latest_as_v1 (VersionManifestV2.latest D);
     VersionManifestV1.versions := map Version_as_v1 (VersionManifestV2.versions D) |}.

End manifest_v1_of_v2.

(* ================================================================== *)
(** ** The rule of a JVM argument as the rule of a library *)

Definition Library_OS
  (os : ClientV1.Arguments.ConditionalJVMArgument.Rule.OS.t)
  : ClientV1.Library.Rule.OS.t :=
  {| ClientV1.Library.Rule.OS.name :=
       ClientV1.Arguments.ConditionalJVMArgument.Rule.OS.name os;
     ClientV1.Library.Rule.OS.version :=
       ClientV1.Arguments.ConditionalJVMArgument.Rule.OS.version os;
     ClientV1.Library.Rule.OS.arch :=
       ClientV1.Arguments.ConditionalJVMArgument.Rule.OS.arch os |}.

Definition Library_Rule
  (r : ClientV1.Arguments.ConditionalJVMArgument.Rule.t)
  : ClientV1.Library.Rule.t :=
  {| ClientV1.Library.Rule.action :=
       ClientV1.Arguments.ConditionalJVMArgument.Rule.action r;
     ClientV1.Library.Rule.os :=
       Some (Library_OS (ClientV1.Arguments.ConditionalJVMArgument.Rule.os r)) |}.

(* ================================================================== *)
(** ** Facts about results, lookup and mappings *)

Section result_facts.
Context {A B : Type}.

Lemma bind_Ok_inv (m : result A) (k : A -> result B) (b : B) :
  bind m k = Ok b -> exists a, m = Ok a /\ k a = Ok b.
Proof.
  destruct m as [a | e]; simpl; intros H; [ eauto | discriminate H ].
Qed.

Lemma bind_Err (m : result A) (k : A -> result B) :
  SchemaViolation m -> SchemaViolation (bind m k).
Proof.
  intros [e ->]. exists e. reflexivity.
Qed.

Lemma bind_Err_cont (m : result A) (k : A -> result B) :
  (forall a, SchemaViolation (k a)) -> SchemaViolation (bind m k).
Proof.
  intros H. destruct m as [a | e]; simpl; [ apply H | exists e; reflexivity ].
Qed.

End result_facts.

Section mapM_facts.
Context {A B : Type}.

Lemma mapM_Ok_Forall2 (f : A -> result B) (l : list A) (bs : list B) :
  mapM f l = Ok bs -> Forall2 (fun a b => f a = Ok b) l bs.
Proof.
  revert bs. induction l as [ | a l IH]; simpl; intros bs H.
  - injection H as <-. constructor.
  - destruct (f a) as [b | e] eqn:Ea; simpl in H; [ | discriminate H ].
    destruct (mapM f l) as [bs' | e] eqn:El; simpl in H; [ | discriminate H ].
    injection H as <-. constructor; auto.
Qed.

Lemma Forall2_mapM (f : A -> result B) (l : list A) (bs : list B) :
  Forall2 (fun a b => f a = Ok b) l bs -> mapM f l = Ok bs.
Proof.
  induction 1 as [ | a b l bs Hab _ IH]; simpl.
  - reflexivity.
  - rewrite Hab, IH. reflexivity.
Qed.

Lemma mapM_Err (f : A -> result B) (l : list A) (a : A) :
  In a l -> SchemaViolation (f a) -> SchemaViolation (mapM f l).
Proof.
  induction l as [ | a' l IH]; cbn [mapM In]; intros Hin Ha.
  - contradiction.
  - destruct Hin as [-> | Hin].
    + apply bind_Err. exact Ha.
    + apply bind_Err_cont. intros b. apply bind_Err. auto.
Qed.

End mapM_facts.

Lemma is_ok_false_SchemaViolation {A : Type} (m : result A) :
  is_ok m = false <-> SchemaViolation m.
Proof.
  destruct m as [a | e]; simpl; split; intros H.
  - discriminate H.
  - destruct H as [e H]. discriminate H.
  - exists e. reflexivity.
  - reflexivity.
Qed.

(** *** Lookup and the extra-key check *)

Section object_facts.
Context {A : Type}.

Lemma mem_In (k : string) (l : list string) : mem k l = true <-> In k l.
Proof.
  unfold mem. rewrite existsb_exists. split.
  - intros [k' [Hin Heq]]. apply String.eqb_eq in Heq. subst. exact Hin.
  - intros Hin. exists k. split; [ exact Hin | apply String.eqb_refl ].
Qed.

Lemma get_None (k : string) (o : list (string * A)) :
  get k o = None <-> ~ In k (keys o).
Proof.
  induction o as [ | [k' v] o IH]; simpl.
  - tauto.
  - destruct (get k o) as [v' | ].
    + split; [ discriminate | ]. intros H. exfalso. apply H. right.
      apply Decidable.not_not; [ | intros Hn; apply IH in Hn; discriminate Hn ].
      destruct (in_dec string_dec k (keys o)); [ left | right ]; assumption.
    + destruct (String.eqb_spec k k') as [-> | Hne].
      * split; [ discriminate | ]. intros H. exfalso. apply H. left. reflexivity.
      * split; [ | reflexivity ]. intros _ [Heq | Hin]; [ congruence | ].
        apply IH in Hin; [ exact Hin | reflexivity ].
Qed.

Lemma get_mem_false (k : string) (o : list (string * A)) :
  mem k (keys o) = false -> get k o = None.
Proof.
  intros H. apply get_None. intros Hin. apply mem_In in Hin. congruence.
Qed.

End object_facts.

(** *** Insertion-ordered mappings *)

Section dict_facts.
Context {A : Type}.

Lemma setitem_fresh (d : list (string * A)) (k : string) (v : A) :
  ~ In k (keys d) -> setitem d k v = (d ++ [(k, v)])%list.
Proof.
  induction d as [ | [k' v'] d IH]; simpl; intros Hk.
  - reflexivity.
  - destruct (String.eqb_spec k k') as [-> | Hne].
    + exfalso. apply Hk. left. reflexivity.
    + rewrite IH; [ reflexivity | ]. intros Hin. apply Hk. right. exact Hin.
Qed.

Lemma setitem_keys (d : list (string * A)) (k : string) (v : A) :
  keys (setitem d k v) = if mem k (keys d) then keys d else (keys d ++ [k])%list.
Proof.
  induction d as [ | [k' v'] d IH]; simpl.
  - reflexivity.
  - destruct (String.eqb k k') eqn:Ek; simpl.
    + reflexivity.
    + rewrite IH. unfold mem. destruct (existsb (String.eqb k) (keys d)); reflexivity.
Qed.

Lemma setitem_NoDup (d : list (string * A)) (k : string) (v : A) :
  NoDup (keys d) -> NoDup (keys (setitem d k v)).
Proof.
  intros Hd. rewrite setitem_keys. destruct (mem k (keys d)) eqn:Hm.
  - exact Hd.
  - apply NoDup_app; [ exact Hd | repeat constructor; simpl; tauto | ].
    intros k' Hin [<- | []]. apply mem_In in Hin. congruence.
Qed.

Lemma fold_setitem_NoDup (l d : list (string * A)) :
  NoDup (keys d) ->
  NoDup (keys (fold_left (fun d kv => setitem d (fst kv) (snd kv)) l d)).
Proof.
  revert d. induction l as [ | [k v] l IH]; simpl; intros d Hd.
  - exact Hd.
  - apply IH. apply setitem_NoDup. exact Hd.
Qed.

Lemma dict_of_NoDup (l : list (string * A)) : NoDup (keys (dict_of l)).
Proof.
  apply fold_setitem_NoDup. constructor.
Qed.

Lemma fold_setitem_fresh (l d : list (string * A)) :
  NoDup (keys (d ++ l)) ->
  fold_left (fun d kv => setitem d (fst kv) (snd kv)) l d = (d ++ l)%list.
Proof.
  revert d. induction l as [ | [k v] l IH]; simpl; intros d Hd.
  - rewrite app_nil_r. reflexivity.
  - unfold keys in Hd. rewrite map_app in Hd. simpl in Hd.
    rewrite setitem_fresh.
    + rewrite IH; rewrite <- app_assoc; [ reflexivity | ].
      unfold keys. rewrite map_app. exact Hd.
    + apply NoDup_remove_2 in Hd. intros Hin. apply Hd. apply in_or_app.
      left. exact Hin.
Qed.

(** Building a mapping from the items of a mapping changes nothing. *)
Lemma dict_of_items (d : list (string * A)) :
  NoDup (keys d) -> dict_of d = d.
Proof.
  intros Hd. unfold dict_of. rewrite fold_setitem_fresh; [ reflexivity | exact Hd ].
Qed.

Lemma setitem_In (d : list (string * A)) (k k' : string) (v v' : A) :
  In (k', v') (setitem d k v) -> In (k', v') d \/ (k', v') = (k, v).
Proof.
  induction d as [ | [k0 v0] d IH]; simpl.
  - intros [H | []]. right. symmetry. exact H.
  - destruct (String.eqb_spec k k0) as [-> | Hne]; simpl.
    + intros [H | H]; [ right; symmetry; exact H | left; right; exact H ].
    + intros [H | H]; [ left; left; exact H | ].
      destruct (IH H) as [H' | H']; [ left; right; exact H' | right; exact H' ].
Qed.

Lemma fold_setitem_In (l d : list (string * A)) (k : string) (v : A) :
  In (k, v) (fold_left (fun d kv => setitem d (fst kv) (snd kv)) l d) ->
  In (k, v) d \/ In (k, v) l.
Proof.
  revert d. induction l as [ | [k0 v0] l IH]; simpl; intros d H.
  - left. exact H.
  - destruct (IH _ H) as [H' | H']; [ | right; right; exact H' ].
    apply setitem_In in H'. destruct H' as [H'' | H''].
    + left. exact H''.
    + right. left. symmetry. exact H''.
Qed.

(** Every item of a mapping is one of the pairs it was built from. *)
Lemma dict_of_In (l : list (string * A)) (k : string) (v : A) :
  In (k, v) (dict_of l) -> In (k, v) l.
Proof.
  intros H. apply fold_setitem_In in H. destruct H as [[] | H']. exact H'.
Qed.

End dict_facts.

(** *** Round trips of the field validators *)

Lemma roundtrips_elim {A : Type} (v : json -> result A) (d : A -> json) (x : A) :
  roundtrips v d -> validated v x -> v (d x) = Ok x.
Proof.
  intros H Hx. apply H. exact Hx.
Qed.

Lemma roundtrips_str : roundtrips pydantic.validate_str pydantic.dump_str.
Proof.
  intros s _. reflexivity.
Qed.

Lemma roundtrips_int {PC : pydantic_core} :
  roundtrips pydantic.validate_int pydantic.dump_int.
Proof.
  intros z _. reflexivity.
Qed.

Lemma roundtrips_bool {PC : pydantic_core} :
  roundtrips pydantic.validate_bool pydantic.dump_bool.
Proof.
  intros b _. reflexivity.
Qed.

Lemma roundtrips_url {PC : pydantic_core} {L : pydantic_core_laws PC} :
  roundtrips pydantic.validate_url pydantic.dump_url.
Proof.
  intros u [j H]. destruct j; try discriminate H. simpl in H.
  destruct (Url_new s) as [u' | ] eqn:Hs; [ | discriminate H ].
  injection H as ->. simpl.
  rewrite (Url_new_unicode_string _ Hs). reflexivity.
Qed.

Lemma roundtrips_datetime {PC : pydantic_core} {L : pydantic_core_laws PC} :
  roundtrips pydantic.validate_datetime pydantic.dump_datetime.
Proof.
  intros d [j H]. unfold pydantic.validate_datetime in *.
  destruct (datetime_validate j) as [d' | ] eqn:Hj; [ | discriminate H ].
  injection H as ->. unfold pydantic.dump_datetime.
  rewrite (datetime_validate_isoformat _ Hj). reflexivity.
Qed.

Section container_roundtrips.
Context {A : Type} (v : json -> result A) (d : A -> json).
Hypothesis Hvd : roundtrips v d.

Lemma roundtrips_list :
  roundtrips (pydantic.validate_list v) (pydantic.dump_list d).
Proof.
  intros xs [j H]. destruct j; try discriminate H. simpl in H.
  apply mapM_Ok_Forall2 in H. simpl. apply Forall2_mapM.
  clear - H Hvd. induction H as [ | j x l xs Hjx _ IH]; simpl; constructor.
  - apply Hvd. exists j. exact Hjx.
  - exact IH.
Qed.

Lemma roundtrips_dict :
  roundtrips (pydantic.validate_dict v) (pydantic.dump_dict d).
Proof.
  intros m [j H]. destruct j; try discriminate H.
  unfold pydantic.validate_dict, fmap in H. apply bind_Ok_inv in H.
  destruct H as [items [Hitems Hm]]. injection Hm as Hm.
  assert (Hall : forall k x, In (k, x) m -> validated v x).
  { intros k x Hin. rewrite <- Hm in Hin. apply dict_of_In in Hin.
    apply mapM_Ok_Forall2 in Hitems. clear - Hitems Hin.
    induction Hitems as [ | [k' j] kx o items Hj _ IH]; simpl in *.
    - contradiction.
    - destruct Hin as [-> | Hin]; [ | auto ].
      destruct (v j) as [x' | ] eqn:Ej; simpl in Hj; [ | discriminate Hj ].
      injection Hj as _ <-. exists j. exact Ej. }
  assert (Hnd : NoDup (keys m)) by (rewrite <- Hm; apply dict_of_NoDup).
  unfold pydantic.validate_dict, pydantic.dump_dict, fmap.
  assert (Hmap : mapM (fun kv => x <- v (snd kv) ;; Ok (fst kv, x))
                   (map (fun kv => (fst kv, d (snd kv))) m) = Ok m).
  { clear - Hall Hvd. induction m as [ | [k x] m IH]; simpl.
    - reflexivity.
    - rewrite (Hvd (Hall k x (or_introl eq_refl))). simpl.
      rewrite IH; [ reflexivity | ]. intros k' x' Hin. apply (Hall k' x').
      right. exact Hin. }
  rewrite Hmap. simpl. rewrite dict_of_items; [ reflexivity | exact Hnd ].
Qed.

Lemma roundtrips_nullable :
  never_null d -> roundtrips (pydantic.nullable v) (pydantic.dump_option d).
Proof.
  intros Hd [x | ] [j H]; simpl; [ | reflexivity ].
  assert (Hx : validated v x).
  { destruct j; simpl in H; try discriminate H;
      match type of H with
      | fmap _ ?m = _ => destruct m as [x' | ] eqn:E; simpl in H;
                           [ injection H as -> | discriminate H ]
      end; eexists; exact E. }
  unfold pydantic.nullable. specialize (Hd x).
  destruct (d x) eqn:Edx; try discriminate Hd;
    rewrite <- Edx, (Hvd Hx); reflexivity.
Qed.

End container_roundtrips.

Lemma roundtrips_union {A B : Type} (va : json -> result A) (da : A -> json)
  (vb : json -> result B) (db : B -> json) :
  roundtrips va da -> roundtrips vb db -> rejects va db ->
  roundtrips (pydantic.union va vb) (pydantic.dump_union da db).
Proof.
  intros Ha Hb Hab [a | b] [j H]; unfold pydantic.union in *; simpl.
  - destruct (va j) as [a' | ] eqn:Ej.
    + injection H as ->. rewrite Ha; [ reflexivity | exists j; exact Ej ].
    + destruct (vb j); discriminate H.
  - destruct (Hab b) as [e ->].
    destruct (va j) as [a' | ] eqn:Ej; [ discriminate H | ].
    destruct (vb j) as [b' | ] eqn:Ebj; simpl in H; [ | discriminate H ].
    injection H as ->. rewrite Hb; [ reflexivity | exists j; exact Ebj ].
Qed.

(** *** Models *)

Section model_facts.
Context {A : Type}.

Lemma required_validated (cfg : pydantic.ConfigDict) (o : list (string * json))
  (name : string) (v : json -> result A) (x : A) :
  pydantic.required cfg o name v = Ok x -> validated v x.
Proof.
  unfold pydantic.required. destruct (get (pydantic.alias cfg name) o) as [j | ].
  - intros H. exists j. exact H.
  - discriminate.
Qed.

Lemma defaulted_validated (cfg : pydantic.ConfigDict) (o : list (string * json))
  (name : string) (v : json -> result A) (x : option A) :
  pydantic.defaulted cfg o name (pydantic.nullable v) None = Ok x ->
  validated (pydantic.nullable v) x.
Proof.
  unfold pydantic.defaulted. destruct (get (pydantic.alias cfg name) o) as [j | ].
  - intros H. exists j. exact H.
  - intros H. injection H as <-. exists JNull. reflexivity.
Qed.

Lemma required_get (cfg : pydantic.ConfigDict) (o : list (string * json))
  (name : string) (v : json -> result A) (j : json) :
  get (pydantic.alias cfg name) o = Some j -> pydantic.required cfg o name v = v j.
Proof.
  unfold pydantic.required. intros ->. reflexivity.
Qed.

Lemma defaulted_get (cfg : pydantic.ConfigDict) (o : list (string * json))
  (name : string) (v : json -> result A) (default : A) (j : json) :
  get (pydantic.alias cfg name) o = Some j ->
  pydantic.defaulted cfg o name v default = v j.
Proof.
  unfold pydantic.defaulted. intros ->. reflexivity.
Qed.

Lemma required_missing (cfg : pydantic.ConfigDict) (o : list (string * json))
  (name : string) (v : json -> result A) :
  mem (pydantic.alias cfg name) (keys o) = false ->
  pydantic.required cfg o name v = Err missing.
Proof.
  intros H. unfold pydantic.required. rewrite (get_mem_false _ _ H). reflexivity.
Qed.

(** [extra='forbid']: an object with a key that is the alias of no declared
    field is rejected, whatever the fields' validators say. *)
Lemma validate_model_forbid (cfg : pydantic.ConfigDict) (fields : list string)
  (body : list (string * json) -> result A) (o : list (string * json))
  (k : string) :
  pydantic.extra cfg = pydantic.forbid ->
  In k (keys o) -> ~ In k (map (pydantic.alias cfg) fields) ->
  SchemaViolation (pydantic.validate_model cfg fields body (JObject o)).
Proof.
  intros Hcfg Hk Hnot. unfold pydantic.validate_model.
  apply bind_Err_cont. intros x. rewrite Hcfg.
  assert (Hin : In k (pydantic.extra_keys cfg fields o)).
  { unfold pydantic.extra_keys. apply filter_In. split; [ exact Hk | ].
    destruct (mem k (map (pydantic.alias cfg) fields)) eqn:Hm; [ | reflexivity ].
    apply mem_In in Hm. contradiction. }
  destruct (pydantic.extra_keys cfg fields o); [ contradiction | ].
  exists extra_forbidden. reflexivity.
Qed.

(** A model accepts objects only. *)
Lemma validate_model_object (cfg : pydantic.ConfigDict) (fields : list string)
  (body : list (string * json) -> result A) (j : json) (x : A) :
  pydantic.validate_model cfg fields body j = Ok x ->
  exists o, j = JObject o /\ body o = Ok x.
Proof.
  destruct j; try discriminate. simpl. intros H. exists o. split; [ reflexivity | ].
  destruct (body o) as [x' | ]; simpl in H; [ | discriminate H ].
  destruct (pydantic.extra cfg), (pydantic.extra_keys cfg fields o);
    congruence.
Qed.

(** When the fields fail, the model fails. *)
Lemma validate_model_body_Err (cfg : pydantic.ConfigDict) (fields : list string)
  (body : list (string * json) -> result A) (o : list (string * json)) :
  SchemaViolation (body o) ->
  SchemaViolation (pydantic.validate_model cfg fields body (JObject o)).
Proof.
  intros H. unfold pydantic.validate_model. apply bind_Err. exact H.
Qed.

End model_facts.

Lemma dump_field_include_all (cfg : pydantic.ConfigDict) (name : string)
  (has_default : bool) (j : json) :
  pydantic.dump_field pydantic.by_alias_include_all cfg name has_default j
  = [(pydantic.alias cfg name, j)].
Proof.
  reflexivity.
Qed.

(** Splits [H : x1 <- m1 ;; ... = Ok x] into one equation per field. *)
Ltac model_inv H :=
  repeat match type of H with
         | bind ?m _ = Ok _ =>
             let E := fresh "E" in
             destruct m eqn:E; cbn [bind] in H; [ | discriminate H ]
         end.

Ltac fields_validated :=
  repeat match goal with
         | E : pydantic.required _ _ _ _ = Ok _ |- _ =>
             apply required_validated in E
         | E : pydantic.defaulted _ _ _ (pydantic.nullable _) None = Ok _ |- _ =>
             apply defaulted_validated in E
         end.

Create HintDb roundtrip.

#[export] Hint Resolve roundtrips_str roundtrips_int roundtrips_bool
  roundtrips_url roundtrips_datetime roundtrips_list roundtrips_dict
  roundtrips_nullable roundtrips_union : roundtrip.

(** Names the fields of [x], so that they stay folded, then replaces [x]
    by the record [H] says it is. *)
Ltac name_fields x H :=
  repeat match goal with
         | |- context [?p x] =>
             lazymatch type of (p x) with
             | result _ => fail
             | _ => let y := fresh "y" in remember (p x) as y
             end
         end;
  subst x;
  repeat match goal with
         | Hy : ?y = _ |- _ => is_var y; simpl in Hy; subst y
         end.

Ltac eval_aliases :=
  repeat match goal with
         | |- context [pydantic.alias ?cfg ?n] =>
             let a := eval vm_compute in (pydantic.alias cfg n) in
             change (pydantic.alias cfg n) with a
         end.

Lemma bind_step {A B : Type} (m : result A) (a : A) (k : A -> result B)
  (r : result B) :
  m = Ok a -> k a = r -> bind m k = r.
Proof.
  intros -> <-. reflexivity.
Qed.

(** Reads the dumped fields back, one after the other. *)
Ltac read_back :=
  repeat (
    cbn [get String.eqb Ascii.eqb Bool.eqb];
    eapply bind_step;
    [ eapply roundtrips_elim; [ eauto 6 with roundtrip | eassumption ]
    | cbn beta ]).

(** [H : model_validate j = Ok x |- model_validate (model_dump _ x) = Ok x],
    both unfolded. *)
Ltac model_roundtrip x H :=
  apply validate_model_object in H;
  let o := fresh "o" in
  destruct H as [o [-> H]];
  model_inv H; injection H as H; fields_validated;
  unfold pydantic.validate_model;
  rewrite !dump_field_include_all; cbn [app];
  name_fields x H;
  eapply bind_step;
  [ unfold pydantic.required, pydantic.defaulted; eval_aliases; read_back;
    reflexivity
  | reflexivity ].

(** *** Round trip of every schema *)

Section schema_roundtrips.
Context {PC : pydantic_core} {L : pydantic_core_laws PC}.

#[local] Hint Extern 1 (never_null _) => (intros ?; reflexivity) : roundtrip.
#[local] Hint Extern 1 (rejects _ _) =>
  (intros ?; eexists; reflexivity) : roundtrip.

Lemma roundtrips_VersionManifestV1_Latest :
  roundtrips VersionManifestV1.Latest.model_validate
    (VersionManifestV1.Latest.model_dump pydantic.by_alias_include_all).
Proof.
  intros x [j H].
  unfold VersionManifestV1.Latest.model_validate, VersionManifestV1.Latest.model_dump in *.
  model_roundtrip x H.
Qed.

#[local] Hint Resolve roundtrips_VersionManifestV1_Latest : roundtrip.

Lemma roundtrips_VersionManifestV1_Version :
  roundtrips VersionManifestV1.Version.model_validate
    (VersionManifestV1.Version.model_dump pydantic.by_alias_include_all).
Proof.
  intros x [j H].
  unfold VersionManifestV1.Version.model_validate, VersionManifestV1.Version.model_dump in *.
  model_roundtrip x H.
Qed.

#[local] Hint Resolve roundtrips_VersionManifestV1_Version : roundtrip.

Lemma roundtrips_VersionManifestV1 :
  roundtrips VersionManifestV1.model_validate
    (VersionManifestV1.model_dump pydantic.by_alias_include_all).
Proof.
  intros x [j H].
  unfold VersionManifestV1.model_validate, VersionManifestV1.model_dump in *.
  model_roundtrip x H.
Qed.

#[local] Hint Resolve roundtrips_VersionManifestV1 : roundtrip.

Lemma roundtrips_VersionManifestV2_Latest :
  roundtrips VersionManifestV2.Latest.model_validate
    (VersionManifestV2.Latest.model_dump pydantic.by_alias_include_all).
Proof.
  intros x [j H].
  unfold VersionManifestV2.Latest.model_validate, VersionManifestV2.Latest.model_dump in *.
  model_roundtrip x H.
Qed.

#[local] Hint Resolve roundtrips_VersionManifestV2_Latest : roundtrip.

Lemma roundtrips_VersionManifestV2_Version :
  roundtrips VersionManifestV2.Version.model_validate
    (VersionManifestV2.Version.model_dump pydantic.by_alias_include_all).
Proof.
  intros x [j H].
  unfold VersionManifestV2.Version.model_validate, VersionManifestV2.Version.model_dump in *.
  model_roundtrip x H.
Qed.

#[local] Hint Resolve roundtrips_VersionManifestV2_Version : roundtrip.

Lemma roundtrips_VersionManifestV2 :
  roundtrips VersionManifestV2.model_validate
    (VersionManifestV2.model_dump pydantic.by_alias_include_all).
Proof.
  intros x [j H].
  unfold VersionManifestV2.model_validate, VersionManifestV2.model_dump in *.
  model_roundtrip x H.
Qed.

#[local] Hint Resolve roundtrips_VersionManifestV2 : roundtrip.

Lemma roundtrips_ClientV1_Arguments_ConditionalGameArgument_Rule :
  roundtrips ClientV1.Arguments.ConditionalGameArgument.Rule.model_validate
    (ClientV1.Arguments.ConditionalGameArgument.Rule.model_dump pydantic.by_alias_include_all).
Proof.
  intros x [j H].
  unfold ClientV1.Arguments.ConditionalGameArgument.Rule.model_validate, ClientV1.Arguments.ConditionalGameArgument.Rule.model_dump in *.
  model_roundtrip x H.
Qed.

#[local] Hint Resolve roundtrips_ClientV1_Arguments_ConditionalGameArgument_Rule
  : roundtrip.

Lemma roundtrips_ClientV1_Arguments_ConditionalGameArgument :
  roundtrips ClientV1.Arguments.ConditionalGameArgument.model_validate
    (ClientV1.Arguments.ConditionalGameArgument.model_dump pydantic.by_alias_include_all).
Proof.
  intros x [j H].
  unfold ClientV1.Arguments.ConditionalGameArgument.model_validate, ClientV1.Arguments.ConditionalGameArgument.model_dump in *.
  model_roundtrip x H.
Qed.

#[local] Hint Resolve roundtrips_ClientV1_Arguments_ConditionalGameArgument
  : roundtrip.

Lemma roundtrips_ClientV1_Arguments_ConditionalJVMArgument_Rule_OS :
  roundtrips ClientV1.Arguments.ConditionalJVMArgument.Rule.OS.model_validate
    (ClientV1.Arguments.ConditionalJVMArgument.Rule.OS.model_dump pydantic.by_alias_include_all).
Proof.
  intros x [j H].
  unfold ClientV1.Arguments.ConditionalJVMArgument.Rule.OS.model_validate, ClientV1.Arguments.ConditionalJVMArgument.Rule.OS.model_dump in *.
  model_roundtrip x H.
Qed.

#[local] Hint Resolve roundtrips_ClientV1_Arguments_ConditionalJVMArgument_Rule_OS
  : roundtrip.

Lemma roundtrips_ClientV1_Arguments_ConditionalJVMArgument_Rule :
  roundtrips ClientV1.Arguments.ConditionalJVMArgument.Rule.model_validate
    (ClientV1.Arguments.ConditionalJVMArgument.Rule.model_dump pydantic.by_alias_include_all).
Proof.
  intros x [j H].
  unfold ClientV1.Arguments.ConditionalJVMArgument.Rule.model_validate, ClientV1.Arguments.ConditionalJVMArgument.Rule.model_dump in *.
  model_roundtrip x H.
Qed.

#[local] Hint Resolve roundtrips_ClientV1_Arguments_ConditionalJVMArgument_Rule
  : roundtrip.

Lemma roundtrips_ClientV1_Arguments_ConditionalJVMArgument :
  roundtrips ClientV1.Arguments.ConditionalJVMArgument.model_validate
    (ClientV1.Arguments.ConditionalJVMArgument.model_dump pydantic.by_alias_include_all).
Proof.
  intros x [j H].
  unfold ClientV1.Arguments.ConditionalJVMArgument.model_validate, ClientV1.Arguments.ConditionalJVMArgument.model_dump in *.
  model_roundtrip x H.
Qed.

#[local] Hint Resolve roundtrips_ClientV1_Arguments_ConditionalJVMArgument
  : roundtrip.

Lemma roundtrips_ClientV1_Arguments :
  roundtrips ClientV1.Arguments.model_validate
    (ClientV1.Arguments.model_dump pydantic.by_alias_include_all).
Proof.
  intros x [j H].
  unfold ClientV1.Arguments.model_validate, ClientV1.Arguments.model_dump in *.
  model_roundtrip x H.
Qed.

#[local] Hint Resolve roundtrips_ClientV1_Arguments : roundtrip.

Lemma roundtrips_ClientV1_AssetIndex :
  roundtrips ClientV1.AssetIndex.model_validate
    (ClientV1.AssetIndex.model_dump pydantic.by_alias_include_all).
Proof.
  intros x [j H].
  unfold ClientV1.AssetIndex.model_validate, ClientV1.AssetIndex.model_dump in *.
  model_roundtrip x H.
Qed.

#[local] Hint Resolve roundtrips_ClientV1_AssetIndex : roundtrip.

Lemma roundtrips_ClientV1_Downloads_Download :
  roundtrips ClientV1.Downloads.Download.model_validate
    (ClientV1.Downloads.Download.model_dump pydantic.by_alias_include_all).
Proof.
  intros x [j H].
  unfold ClientV1.Downloads.Download.model_validate, ClientV1.Downloads.Download.model_dump in *.
  model_roundtrip x H.
Qed.

#[local] Hint Resolve roundtrips_ClientV1_Downloads_Download : roundtrip.

Lemma roundtrips_ClientV1_Downloads :
  roundtrips ClientV1.Downloads.model_validate
    (ClientV1.Downloads.model_dump pydantic.by_alias_include_all).
Proof.
  intros x [j H].
  unfold ClientV1.Downloads.model_validate, ClientV1.Downloads.model_dump in *.
  model_roundtrip x H.
Qed.

#[local] Hint Resolve roundtrips_ClientV1_Downloads : roundtrip.

Lemma roundtrips_ClientV1_JavaVersion :
  roundtrips ClientV1.JavaVersion.model_validate
    (ClientV1.JavaVersion.model_dump pydantic.by_alias_include_all).
Proof.
  intros x [j H].
  unfold ClientV1.JavaVersion.model_validate, ClientV1.JavaVersion.model_dump in *.
  model_roundtrip x H.
Qed.

#[local] Hint Resolve roundtrips_ClientV1_JavaVersion : roundtrip.

Lemma roundtrips_ClientV1_Library_Downloads_Artifact :
  roundtrips ClientV1.Library.Downloads.Artifact.model_validate
    (ClientV1.Library.Downloads.Artifact.model_dump pydantic.by_alias_include_all).
Proof.
  intros x [j H].
  unfold ClientV1.Library.Downloads.Artifact.model_validate, ClientV1.Library.Downloads.Artifact.model_dump in *.
  model_roundtrip x H.
Qed.

#[local] Hint Resolve roundtrips_ClientV1_Library_Downloads_Artifact
  : roundtrip.

Lemma roundtrips_ClientV1_Library_Downloads :
  roundtrips ClientV1.Library.Downloads.model_validate
    (ClientV1.Library.Downloads.model_dump pydantic.by_alias_include_all).
Proof.
  intros x [j H].
  unfold ClientV1.Library.Downloads.model_validate, ClientV1.Library.Downloads.model_dump in *.
  model_roundtrip x H.
Qed.

#[local] Hint Resolve roundtrips_ClientV1_Library_Downloads : roundtrip.

Lemma roundtrips_ClientV1_Library_Extract :
  roundtrips ClientV1.Library.Extract.model_validate
    (ClientV1.Library.Extract.model_dump pydantic.by_alias_include_all).
Proof.
  intros x [j H].
  unfold ClientV1.Library.Extract.model_validate, ClientV1.Library.Extract.model_dump in *.
  model_roundtrip x H.
Qed.

#[local] Hint Resolve roundtrips_ClientV1_Library_Extract : roundtrip.

Lemma roundtrips_ClientV1_Library_Rule_OS :
  roundtrips ClientV1.Library.Rule.OS.model_validate
    (ClientV1.Library.Rule.OS.model_dump pydantic.by_alias_include_all).
Proof.
  intros x [j H].
  unfold ClientV1.Library.Rule.OS.model_validate, ClientV1.Library.Rule.OS.model_dump in *.
  model_roundtrip x H.
Qed.

#[local] Hint Resolve roundtrips_ClientV1_Library_Rule_OS : roundtrip.

Lemma roundtrips_ClientV1_Library_Rule :
  roundtrips ClientV1.Library.Rule.model_validate
    (ClientV1.Library.Rule.model_dump pydantic.by_alias_include_all).
Proof.
  intros x [j H].
  unfold ClientV1.Library.Rule.model_validate, ClientV1.Library.Rule.model_dump in *.
  model_roundtrip x H.
Qed.

#[local] Hint Resolve roundtrips_ClientV1_Library_Rule : roundtrip.

Lemma roundtrips_ClientV1_Library :
  roundtrips ClientV1.Library.model_validate
    (ClientV1.Library.model_dump pydantic.by_alias_include_all).
Proof.
  intros x [j H].
  unfold ClientV1.Library.model_validate, ClientV1.Library.model_dump in *.
  model_roundtrip x H.
Qed.

#[local] Hint Resolve roundtrips_ClientV1_Library : roundtrip.

Lemma roundtrips_ClientV1_Logging_Client_File :
  roundtrips ClientV1.Logging.Client.File.model_validate
    (ClientV1.Logging.Client.File.model_dump pydantic.by_alias_include_all).
Proof.
  intros x [j H].
  unfold ClientV1.Logging.Client.File.model_validate, ClientV1.Logging.Client.File.model_dump in *.
  model_roundtrip x H.
Qed.

#[local] Hint Resolve roundtrips_ClientV1_Logging_Client_File : roundtrip.

Lemma roundtrips_ClientV1_Logging_Client :
  roundtrips ClientV1.Logging.Client.model_validate
    (ClientV1.Logging.Client.model_dump pydantic.by_alias_include_all).
Proof.
  intros x [j H].
  unfold ClientV1.Logging.Client.model_validate, ClientV1.Logging.Client.model_dump in *.
  model_roundtrip x H.
Qed.

#[local] Hint Resolve roundtrips_ClientV1_Logging_Client : roundtrip.

Lemma roundtrips_ClientV1_Logging :
  roundtrips ClientV1.Logging.model_validate
    (ClientV1.Logging.model_dump pydantic.by_alias_include_all).
Proof.
  intros x [j H].
  unfold ClientV1.Logging.model_validate, ClientV1.Logging.model_dump in *.
  model_roundtrip x H.
Qed.

#[local] Hint Resolve roundtrips_ClientV1_Logging : roundtrip.

Lemma roundtrips_ClientV1 :
  roundtrips ClientV1.model_validate
    (ClientV1.model_dump pydantic.by_alias_include_all).
Proof.
  intros x [j H].
  unfold ClientV1.model_validate, ClientV1.model_dump in *.
  model_roundtrip x H.
Qed.

#[local] Hint Resolve roundtrips_ClientV1 : roundtrip.

End schema_roundtrips.

#[export] Hint Resolve roundtrips_VersionManifestV1_Latest
  roundtrips_VersionManifestV1_Version roundtrips_VersionManifestV1
  roundtrips_VersionManifestV2_Latest roundtrips_VersionManifestV2_Version
  roundtrips_VersionManifestV2
  roundtrips_ClientV1_Arguments_ConditionalGameArgument_Rule
  roundtrips_ClientV1_Arguments_ConditionalGameArgument
  roundtrips_ClientV1_Arguments_ConditionalJVMArgument_Rule_OS
  roundtrips_ClientV1_Arguments_ConditionalJVMArgument_Rule
  roundtrips_ClientV1_Arguments_ConditionalJVMArgument
  roundtrips_ClientV1_Arguments roundtrips_ClientV1_AssetIndex
  roundtrips_ClientV1_Downloads_Download roundtrips_ClientV1_Downloads
  roundtrips_ClientV1_JavaVersion
  roundtrips_ClientV1_Library_Downloads_Artifact
  roundtrips_ClientV1_Library_Downloads roundtrips_ClientV1_Library_Extract
  roundtrips_ClientV1_Library_Rule_OS roundtrips_ClientV1_Library_Rule
  roundtrips_ClientV1_Library roundtrips_ClientV1_Logging_Client_File
  roundtrips_ClientV1_Logging_Client roundtrips_ClientV1_Logging
  roundtrips_ClientV1 : roundtrip.

(* ================================================================== *)
(** ** urls.py *)

Lemma to_int_proper (z : Z) :
  Z.to_int z <> Decimal.Pos Decimal.Nil /\ Z.to_int z <> Decimal.Neg Decimal.Nil.
Proof.
  destruct z; simpl; split; try discriminate;
    intros H; injection H as H; exact (Unsigned.to_uint_nonnil _ H).
Qed.

(** [int(str(n)) == n]. *)
Lemma str_of_int_inv (z : Z) : simple_core.parse_int (Py.str_of_int z) = Some z.
Proof.
  unfold simple_core.parse_int, Py.str_of_int.
  destruct (to_int_proper z) as [Hp Hn].
  rewrite (NilZero.isi _ Hp Hn). simpl. rewrite DecimalZ.of_to. reflexivity.
Qed.

Lemma str_of_int_inj (a b : Z) : Py.str_of_int a = Py.str_of_int b -> a = b.
Proof.
  intros H. apply (f_equal simple_core.parse_int) in H.
  rewrite !str_of_int_inv in H. injection H as H. exact H.
Qed.

Lemma append_inj_l (p a b : string) : (p ++ a = p ++ b -> a = b)%string.
Proof.
  induction p as [ | c p IH]; simpl; intros H.
  - exact H.
  - injection H as H. apply IH. exact H.
Qed.

Lemma length_append (a b : string) :
  String.length (a ++ b) = (String.length a + String.length b)%nat.
Proof.
  induction a as [ | c a IH]; simpl; [ reflexivity | rewrite IH; reflexivity ].
Qed.

Lemma append_inj_r (a b s : string) : (a ++ s = b ++ s -> a = b)%string.
Proof.
  intros H.
  assert (Hlen : String.length a = String.length b).
  { apply (f_equal String.length) in H. rewrite !length_append in H. lia. }
  revert b H Hlen. induction a as [ | c a IH]; intros [ | c' b] H Hlen;
    simpl in *; try discriminate Hlen.
  - reflexivity.
  - injection Hlen as Hlen.
    assert (Hc : c = c').
    { destruct a, b; simpl in *; try discriminate Hlen; congruence. }
    subst c'. f_equal. apply IH; [ congruence | exact Hlen ].
Qed.

Lemma slice_to_short (n : nat) (s : string) :
  (String.length s <= n)%nat -> Py.slice_to n s = s.
Proof.
  revert s. induction n as [ | n IH]; intros [ | c s] H; simpl in *;
    try reflexivity; try lia.
  f_equal. apply IH. lia.
Qed.

Lemma simple_core_laws : pydantic_core_laws simple_core.core.
Proof.
  split; simpl.
  - intros s u H. unfold simple_core.parse_url in *.
    destruct (simple_core.has_scheme s) eqn:Hs; [ | discriminate H ].
    injection H as <-. rewrite Hs. reflexivity.
  - intros j d H. destruct j; try discriminate H. simpl in *.
    destruct (simple_core.starts_with_date s) eqn:Hs; [ | discriminate H ].
    injection H as <-. rewrite Hs. reflexivity.
Qed.

(** C5 (as stated, refuted): for [file_version = 3] the builder returns the
    [version_manifest_v3.json] URL, not the [version_manifest_v2.json] one. *)
Lemma version_manifest_url_3_is_not_v2 :
  urls.version_manifest_url (PC := simple_core.core) 3
  = Some "https://piston-meta.mojang.com/mc/game/version_manifest_v3.json"
  /\ urls.version_manifest_url (PC := simple_core.core) 3
     <> Url_new (pydantic_core := simple_core.core)
          "https://piston-meta.mojang.com/mc/game/version_manifest_v2.json".
Proof.
  split; [ reflexivity | discriminate ].
Qed.

(** C5 (amended): [version_manifest_url] builds [version_manifest.json] for
    [file_version = 1] and [version_manifest_v<file_version>.json], with the
    decimal digits of [file_version], for every other integer; this is the
    [version_manifest_v2.json] URL for 2, the default, and for no other
    value. *)
Theorem version_manifest_url_spec {PC : pydantic_core} (file_version : Z) :
  urls.version_manifest_url 1
  = Url_new "https://piston-meta.mojang.com/mc/game/version_manifest.json"
  /\ urls.version_manifest_url 2
     = Url_new "https://piston-meta.mojang.com/mc/game/version_manifest_v2.json"
  /\ (file_version <> 1%Z ->
      urls.version_manifest_url file_version
      = Url_new ("https://piston-meta.mojang.com/mc/game/version_manifest_v"
                   ++ Py.str_of_int file_version ++ ".json")
      /\ ("https://piston-meta.mojang.com/mc/game/version_manifest_v"
            ++ Py.str_of_int file_version ++ ".json"
          = "https://piston-meta.mojang.com/mc/game/version_manifest_v2.json"
          <-> file_version = 2%Z)).
Proof.
  split; [ reflexivity | ]. split; [ reflexivity | ]. intros Hne. split.
  - unfold urls.version_manifest_url.
    destruct (Z.eqb_spec file_version 1) as [H1 | _]; [ contradiction | ].
    reflexivity.
  - split.
    + intros H.
      apply (append_inj_l
               "https://piston-meta.mojang.com/mc/game/version_manifest_v"
               _ (Py.str_of_int 2 ++ ".json")) in H.
      apply append_inj_r in H. apply str_of_int_inj. exact H.
    + intros ->. reflexivity.
Qed.

Lemma version_manifest_url_spec_witness :
  urls.version_manifest_url (PC := simple_core.core) (-7)
  = Some "https://piston-meta.mojang.com/mc/game/version_manifest_v-7.json".
Proof.
  destruct (version_manifest_url_spec (PC := simple_core.core) (-7))
    as [_ [_ H]].
  destruct H as [H _]; [ discriminate | ]. rewrite H. reflexivity.
Defined.

(** C10: [resource_url] returns a URL for every hash, provided [Url] accepts
    every text that continues the fixed [https] origin; for a hash of
    fewer than two characters the slice [hash[:2]] is the whole hash, so
    the first path segment of the URL is the hash itself. *)
Theorem resource_url_total {PC : pydantic_core} (hash : string) :
  (forall path,
      Url_new ("https://resources.download.minecraft.net/" ++ path) <> None) ->
  (exists u, urls.resource_url hash = Some u)
  /\ ((String.length hash < 2)%nat ->
      Py.slice_to 2 hash = hash
      /\ urls.resource_url hash
         = Url_new ("https://resources.download.minecraft.net/" ++ hash ++ "/"
                      ++ hash)).
Proof.
  intros Hurl. split.
  - unfold urls.resource_url.
    destruct (Url_new _) as [u | ] eqn:Hu; [ exists u; reflexivity | ].
    exfalso. exact (Hurl _ Hu).
  - intros Hlen.
    assert (Hs : Py.slice_to 2 hash = hash) by (apply slice_to_short; lia).
    split; [ exact Hs | ]. unfold urls.resource_url. rewrite Hs. reflexivity.
Qed.

Lemma resource_url_total_witness :
  urls.resource_url (PC := simple_core.core) "a"
  = Some "https://resources.download.minecraft.net/a/a".
Proof.
  assert (Hurl : forall path,
             Url_new (pydantic_core := simple_core.core)
               ("https://resources.download.minecraft.net/" ++ path) <> None)
    by (intros path; discriminate).
  destruct (resource_url_total (PC := simple_core.core) "a" Hurl) as [_ H].
  destruct H as [_ H]; [ simpl; lia | ]. rewrite H. reflexivity.
Defined.

(* ================================================================== *)
(** ** Strictness *)

(** Failure of a field is failure of the model. *)
Lemma required_Err {A : Type} (cfg : pydantic.ConfigDict)
  (o : list (string * json)) (name : string) (v : json -> result A) (j : json) :
  get (pydantic.alias cfg name) o = Some j -> SchemaViolation (v j) ->
  SchemaViolation (pydantic.required cfg o name v).
Proof.
  intros Hget Hj. unfold pydantic.required. rewrite Hget. exact Hj.
Qed.

Lemma validate_list_Err {A : Type} (v : json -> result A) (l : list json)
  (j : json) :
  In j l -> SchemaViolation (v j) ->
  SchemaViolation (pydantic.validate_list v (JArray l)).
Proof.
  intros Hin Hj. simpl. apply (mapM_Err v l j Hin Hj).
Qed.

(** C3: every schema class of the system forbids extra keys, and rejects an
    object that has a key which is the wire name of none of its declared
    fields. *)
Theorem strictness {PC : pydantic_core} (S : system.schema)
  (o : list (string * json)) (k : string) :
  In S system.schemas ->
  In k (keys o) ->
  ~ In k (map (pydantic.alias (system.config S)) (system.fields S)) ->
  pydantic.extra (system.config S) = pydantic.forbid
  /\ SchemaViolation (system.validate S (JObject o)).
Proof.
  intros HS Hk Hnot. unfold system.schemas, system.camel_schemas in HS.
  simpl in HS.
  repeat (destruct HS as [<- | HS];
          [ split; [ reflexivity | ];
            apply (validate_model_forbid _ _ _ _ k); [ reflexivity | exact Hk | exact Hnot ]
          | ]).
  contradiction.
Qed.

Lemma strictness_witness :
  SchemaViolation
    (ClientV1.model_validate (PC := simple_core.core)
       (JObject [("id", JString "1.20.2"); ("patchNotes", JNull)])).
Proof.
  apply (@strictness simple_core.core
           (system.schema_of ClientV1.model_config ClientV1.model_fields
              ClientV1.model_validate ClientV1.model_dump)
           [("id", JString "1.20.2"); ("patchNotes", JNull)] "patchNotes").
  - unfold system.schemas, system.camel_schemas. simpl. tauto.
  - simpl. tauto.
  - vm_compute. intuition discriminate.
Defined.

(** Strictness reaches nested objects: an unknown key inside
    [downloads.client] makes the whole descriptor fail. *)
Example nested_extra_key_is_rejected :
  ClientV1.model_validate_json (PC := simple_core.core)
    samples.client_nested_extra_key = Err extra_forbidden.
Proof.
  vm_compute. reflexivity.
Qed.

(* ================================================================== *)
(** ** The two manifest schemas *)

(** A v2 version entry without [sha1] or without [complianceLevel] is
    rejected. *)
Lemma v2_Version_requires {PC : pydantic_core} (entry : json) :
  has_key "sha1" entry = false \/ has_key "complianceLevel" entry = false ->
  SchemaViolation (VersionManifestV2.Version.model_validate entry).
Proof.
  intros H. destruct entry as [ | | | | | | o];
    try (exists model_type; reflexivity).
  unfold VersionManifestV2.Version.model_validate.
  apply validate_model_body_Err.
  do 5 (apply bind_Err_cont; intros ?).
  destruct H as [H | H].
  - apply bind_Err. exists missing. apply required_missing. exact H.
  - apply bind_Err_cont; intros ?.
    apply bind_Err. exists missing. apply required_missing. exact H.
Qed.

(** A v1 version entry with [sha1] or [complianceLevel] is rejected. *)
Lemma v1_Version_forbids {PC : pydantic_core} (entry : json) :
  has_key "sha1" entry = true \/ has_key "complianceLevel" entry = true ->
  SchemaViolation (VersionManifestV1.Version.model_validate entry).
Proof.
  intros H. destruct entry as [ | | | | | | o];
    try (exists model_type; reflexivity).
  simpl in H. rewrite !mem_In in H.
  destruct H as [H | H];
    (eapply validate_model_forbid;
     [ reflexivity | exact H | vm_compute; intuition discriminate ]).
Qed.

(** C7: a manifest one of whose version entries lacks [sha1] or
    [complianceLevel] is rejected by the v2 schema, and a manifest one of
    whose version entries has [sha1] or [complianceLevel] is rejected by
    the v1 schema. *)
Theorem manifests_reject_each_other {PC : pydantic_core} (doc entry : json) :
  In entry (version_entries doc) ->
  (has_key "sha1" entry = false \/ has_key "complianceLevel" entry = false ->
   SchemaViolation (VersionManifestV2.model_validate_json doc))
  /\ (has_key "sha1" entry = true \/ has_key "complianceLevel" entry = true ->
      SchemaViolation (VersionManifestV1.model_validate_json doc)).
Proof.
  intros Hin. split; intros H.
  - unfold VersionManifestV2.model_validate_json, VersionManifestV2.model_validate.
    destruct doc as [ | | | | | | o];
      try (exists model_type; reflexivity).
    unfold version_entries, member in Hin.
    destruct (get "versions" o) as [[ | | | | | entries | ] | ] eqn:Hget;
      try contradiction.
    apply validate_model_body_Err. apply bind_Err_cont; intros ?.
    apply bind_Err. eapply required_Err; [ exact Hget | ].
    eapply validate_list_Err; [ exact Hin | ].
    apply v2_Version_requires. exact H.
  - unfold VersionManifestV1.model_validate_json, VersionManifestV1.model_validate.
    destruct doc as [ | | | | | | o];
      try (exists model_type; reflexivity).
    unfold version_entries, member in Hin.
    destruct (get "versions" o) as [[ | | | | | entries | ] | ] eqn:Hget;
      try contradiction.
    apply validate_model_body_Err. apply bind_Err_cont; intros ?.
    apply bind_Err. eapply required_Err; [ exact Hget | ].
    eapply validate_list_Err; [ exact Hin | ].
    apply v1_Version_forbids. exact H.
Qed.

Lemma manifests_reject_each_other_witness :
  SchemaViolation
    (VersionManifestV2.model_validate_json (PC := simple_core.core)
       samples.manifest_v1)
  /\ SchemaViolation
       (VersionManifestV1.model_validate_json (PC := simple_core.core)
          samples.manifest_v2).
Proof.
  split.
  - apply (manifests_reject_each_other (PC := simple_core.core)
             samples.manifest_v1 (samples.version_v1 "23w40a")).
    + simpl. tauto.
    + left. reflexivity.
  - apply (manifests_reject_each_other (PC := simple_core.core)
             samples.manifest_v2 (samples.version_v2 "23w40a")).
    + simpl. tauto.
    + left. reflexivity.
Defined.

(* ================================================================== *)
(** ** The client descriptor *)

(** The sample documents are read as [parsed] says. *)
Lemma samples_are_parsed :
  VersionManifestV1.model_validate_json samples.manifest_v1
  = Ok parsed.manifest_v1
  /\ VersionManifestV2.model_validate_json samples.manifest_v2
     = Ok parsed.manifest_v2
  /\ ClientV1.model_validate_json samples.client_1_20_2
     = Ok parsed.client_1_20_2
  /\ ClientV1.model_validate_json samples.client_without_optional
     = Ok parsed.client_without_optional.
Proof.
  repeat split; vm_compute; reflexivity.
Qed.

(** Without a [logging] key no object is a client descriptor. *)
Lemma logging_key_is_required {PC : pydantic_core} (o : list (string * json)) :
  has_key "logging" (JObject o) = false ->
  SchemaViolation (ClientV1.model_validate_json (JObject o)).
Proof.
  intros H. unfold ClientV1.model_validate_json, ClientV1.model_validate.
  apply validate_model_body_Err.
  do 8 (apply bind_Err_cont; intros ?).
  apply bind_Err. exists missing. apply required_missing. exact H.
Qed.

(** [arguments] and [minecraft_arguments] default to [None]: a descriptor
    without these keys is accepted. *)
Lemma arguments_keys_are_optional :
  has_key "arguments" samples.client_without_optional = false
  /\ has_key "minecraftArguments" samples.client_without_optional = false
  /\ fmap (fun D => (ClientV1.arguments D, ClientV1.minecraft_arguments D))
       (ClientV1.model_validate_json (PC := simple_core.core)
          samples.client_without_optional)
     = Ok (None, None).
Proof.
  repeat split; vm_compute; reflexivity.
Qed.

(** C4 (the code at the failing input): a descriptor that is valid but for
    the absent [logging] key is rejected, the [logging] field being reported
    missing; the same descriptor with the key is accepted, also when the
    value under the key is [null]. *)
Theorem client_without_logging_is_rejected :
  has_key "logging" samples.client_without_logging = false
  /\ ClientV1.model_validate_json (PC := simple_core.core)
       samples.client_without_logging = Err missing
  /\ is_ok (ClientV1.model_validate_json (PC := simple_core.core)
              samples.client_1_20_2) = true
  /\ is_ok (ClientV1.model_validate_json (PC := simple_core.core)
              samples.client_without_optional) = true.
Proof.
  repeat split; vm_compute; reflexivity.
Qed.

(** C9 (as stated, refuted): a descriptor whose [assetIndex] carries a
    negative [size] and a negative [totalSize] is accepted, and the parsed
    fields hold the negative numbers. *)
Lemma negative_sizes_are_accepted :
  fmap (fun D => (ClientV1.AssetIndex.size (ClientV1.asset_index D),
                  ClientV1.AssetIndex.total_size (ClientV1.asset_index D)))
    (ClientV1.model_validate_json (PC := simple_core.core)
       samples.client_negative_sizes)
  = Ok ((-1)%Z, (-626827712)%Z).
Proof.
  vm_compute. reflexivity.
Qed.

(** C9 (amended): [size] and [total_size] of [AssetIndex] are integers
    without a bound: an [assetIndex] object with valid [id], [sha1] and
    [url] is accepted for every integer [size] and [totalSize], and the
    parsed fields hold these integers. *)
Theorem AssetIndex_sizes_are_unbounded {PC : pydantic_core}
  (id sha1 url : string) (u : Url) (size total_size : Z) :
  Url_new url = Some u ->
  ClientV1.AssetIndex.model_validate
    (JObject
       [("id", JString id); ("sha1", JString sha1); ("size", JInt size);
        ("totalSize", JInt total_size); ("url", JString url)])
  = Ok {| ClientV1.AssetIndex.id := id;
          ClientV1.AssetIndex.sha1 := sha1;
          ClientV1.AssetIndex.size := size;
          ClientV1.AssetIndex.total_size := total_size;
          ClientV1.AssetIndex.url := u |}.
Proof.
  intros Hu. unfold ClientV1.AssetIndex.model_validate, pydantic.validate_model.
  unfold pydantic.required. eval_aliases.
  cbn [get String.eqb Ascii.eqb Bool.eqb pydantic.validate_str
         pydantic.validate_int pydantic.validate_url bind].
  rewrite Hu. reflexivity.
Qed.

Lemma AssetIndex_sizes_are_unbounded_witness :
  ClientV1.AssetIndex.model_validate (PC := simple_core.core)
    (JObject
       [("id", JString "8"); ("sha1", JString "a4"); ("size", JInt (-1));
        ("totalSize", JInt (-626827712));
        ("url", JString "https://piston-meta.mojang.com/v1/packages/a4/8.json")])
  = Ok (@ClientV1.AssetIndex.Build_t simple_core.core "8" "a4" (-1)
          (-626827712) "https://piston-meta.mojang.com/v1/packages/a4/8.json").
Proof.
  apply (AssetIndex_sizes_are_unbounded (PC := simple_core.core)).
  reflexivity.
Defined.

(* ================================================================== *)
(** ** Union resolution *)

Lemma union_str_model {A : Type}
  (v : json -> result A) (j : json) (x : string + A) :
  (forall j' c, v j' = Ok c -> exists o, j' = JObject o) ->
  pydantic.union pydantic.validate_str v j = Ok x ->
  match x with
  | inl s => j = JString s
  | inr c => (exists o, j = JObject o) /\ v j = Ok c
  end.
Proof.
  intros Hobj H. unfold pydantic.union in H.
  destruct (pydantic.validate_str j) as [s | e] eqn:Es.
  - injection H as <-. destruct j; try discriminate Es.
    injection Es as ->. reflexivity.
  - destruct (v j) as [c | e'] eqn:Ec; simpl in H; [ | discriminate H ].
    injection H as <-. split; [ exact (Hobj _ _ Ec) | reflexivity ].
Qed.

(** The elements of [game] and [jvm] are validated one by one, by
    [game_argument] and [jvm_argument]. *)
Lemma Arguments_elements {PC : pydantic_core} (j : json)
  (x : ClientV1.Arguments.t) :
  ClientV1.Arguments.model_validate j = Ok x ->
  exists game jvm,
    member "game" j = Some (JArray game)
    /\ member "jvm" j = Some (JArray jvm)
    /\ Forall2 (fun e a => game_argument e = Ok a) game
         (ClientV1.Arguments.game x)
    /\ Forall2 (fun e a => jvm_argument e = Ok a) jvm
         (ClientV1.Arguments.jvm x).
Proof.
  intros H. unfold ClientV1.Arguments.model_validate in H.
  apply validate_model_object in H. destruct H as [o [-> H]].
  model_inv H. injection H as <-. simpl.
  unfold pydantic.required in E, E0.
  change (pydantic.alias ClientV1.Arguments.model_config "game")
    with "game" in E.
  change (pydantic.alias ClientV1.Arguments.model_config "jvm")
    with "jvm" in E0.
  destruct (get "game" o) as [[ | | | | | game | ] | ]; try discriminate E.
  destruct (get "jvm" o) as [[ | | | | | jvm | ] | ]; try discriminate E0.
  exists game, jvm. repeat split; try reflexivity.
  - exact (mapM_Ok_Forall2 _ _ E).
  - exact (mapM_Ok_Forall2 _ _ E0).
Qed.

(** C6: the elements of [game] and [jvm] are resolved one by one; an
    element that is a JSON string becomes a plain string, whatever the
    string; an element that is an object is validated as a conditional
    argument and becomes one; a plain string comes from a JSON string only,
    a conditional argument from an object only. *)
Theorem union_resolution {PC : pydantic_core} :
  (forall j x,
      ClientV1.Arguments.model_validate j = Ok x ->
      exists game jvm,
        member "game" j = Some (JArray game)
        /\ member "jvm" j = Some (JArray jvm)
        /\ Forall2 (fun e a => game_argument e = Ok a) game
             (ClientV1.Arguments.game x)
        /\ Forall2 (fun e a => jvm_argument e = Ok a) jvm
             (ClientV1.Arguments.jvm x))
  /\ (forall s, game_argument (JString s) = Ok (inl s))
  /\ (forall s, jvm_argument (JString s) = Ok (inl s))
  /\ (forall o,
        game_argument (JObject o)
        = fmap inr
            (ClientV1.Arguments.ConditionalGameArgument.model_validate
               (JObject o)))
  /\ (forall o,
        jvm_argument (JObject o)
        = fmap inr
            (ClientV1.Arguments.ConditionalJVMArgument.model_validate
               (JObject o)))
  /\ (forall j x, game_argument j = Ok x ->
        match x with
        | inl s => j = JString s
        | inr c =>
            (exists o, j = JObject o)
            /\ ClientV1.Arguments.ConditionalGameArgument.model_validate j
               = Ok c
        end)
  /\ (forall j x, jvm_argument j = Ok x ->
        match x with
        | inl s => j = JString s
        | inr c =>
            (exists o, j = JObject o)
            /\ ClientV1.Arguments.ConditionalJVMArgument.model_validate j
               = Ok c
        end).
Proof.
  split; [ exact Arguments_elements | ].
  repeat split; try reflexivity.
  - intros j x H.
    apply (@union_str_model _
             ClientV1.Arguments.ConditionalGameArgument.model_validate j x);
      [ | exact H ].
    intros j' c Hc. apply validate_model_object in Hc.
    destruct Hc as [o [-> _]]. eauto.
  - intros j x H.
    apply (@union_str_model _
             ClientV1.Arguments.ConditionalJVMArgument.model_validate j x);
      [ | exact H ].
    intros j' c Hc. apply validate_model_object in Hc.
    destruct Hc as [o [-> _]]. eauto.
Qed.

Lemma union_resolution_witness :
  game_argument (PC := simple_core.core) (JString "--username")
  = Ok (inl "--username")
  /\ is_ok
       (ClientV1.Arguments.ConditionalGameArgument.model_validate
          (PC := simple_core.core)
          (JObject
             [("rules",
               JArray
                 [JObject
                    [("action", JString "allow");
                     ("features", JObject [("is_demo_user", JBool true)])]]);
              ("value", JString "--demo")])) = true
  /\ exists c,
       game_argument (PC := simple_core.core)
         (JObject
            [("rules",
              JArray
                [JObject
                   [("action", JString "allow");
                    ("features", JObject [("is_demo_user", JBool true)])]]);
             ("value", JString "--demo")])
       = Ok (inr c).
Proof.
  destruct (union_resolution (PC := simple_core.core))
    as [_ [Hstr [_ [Hobj _]]]].
  split; [ apply Hstr | ]. split; [ reflexivity | ].
  rewrite Hobj. eexists. reflexivity.
Defined.

(* ================================================================== *)
(** ** Serialisation without [None] *)

Lemma clean_str : clean pydantic.dump_str.
Proof.
  intros x. reflexivity.
Qed.

Lemma clean_int : clean pydantic.dump_int.
Proof.
  intros x. reflexivity.
Qed.

Lemma clean_bool : clean pydantic.dump_bool.
Proof.
  intros x. reflexivity.
Qed.

Lemma clean_url {PC : pydantic_core} : clean pydantic.dump_url.
Proof.
  intros x. reflexivity.
Qed.

Section clean_containers.
Context {A : Type} (d : A -> json).
Hypothesis Hd : clean d.

Lemma clean_list : clean (pydantic.dump_list d).
Proof.
  intros l. simpl. induction l as [ | x l IH]; simpl.
  - reflexivity.
  - rewrite Hd, IH. reflexivity.
Qed.

Lemma clean_dict : clean (pydantic.dump_dict d).
Proof.
  intros m. simpl. induction m as [ | [k x] m IH]; simpl.
  - reflexivity.
  - rewrite Hd, IH. reflexivity.
Qed.

Lemma clean_or_null_option : clean_or_null (pydantic.dump_option d).
Proof.
  intros [x | ]; simpl; [ right; apply Hd | left; reflexivity ].
Qed.

Lemma clean_or_null_clean : clean_or_null d.
Proof.
  intros x. right. apply Hd.
Qed.

End clean_containers.

Lemma clean_union {A B : Type} (da : A -> json) (db : B -> json) :
  clean da -> clean db -> clean (pydantic.dump_union da db).
Proof.
  intros Ha Hb [a | b]; simpl; [ apply Ha | apply Hb ].
Qed.

(** With [exclude_none] a dumped field holds no [null]. *)
Lemma no_null_dump_field {A : Type} (opts : pydantic.dump_options)
  (cfg : pydantic.ConfigDict) (name : string) (has_default : bool)
  (d : A -> json) (x : A) :
  pydantic.exclude_none opts = true -> clean_or_null d ->
  forallb (fun kv => no_null (snd kv))
    (pydantic.dump_field opts cfg name has_default (d x)) = true.
Proof.
  intros Hopts Hd. unfold pydantic.dump_field. rewrite Hopts. simpl.
  destruct (Hd x) as [Hnull | Hclean].
  - rewrite Hnull. reflexivity.
  - destruct (is_null (d x)); simpl; [ reflexivity | ].
    rewrite Hclean. reflexivity.
Qed.

Create HintDb clean.

#[export] Hint Resolve clean_str clean_int clean_bool clean_url clean_list
  clean_dict clean_union clean_or_null_option clean_or_null_clean : clean.

(** [|- no_null (model_dump opts x) = true], the dump unfolded. *)
Ltac model_clean :=
  cbn [no_null]; rewrite ?forallb_app;
  repeat (apply andb_true_intro; split);
  (apply no_null_dump_field; [ assumption | eauto 6 with clean ]).

Section schema_clean.
Context {PC : pydantic_core} (opts : pydantic.dump_options).
Hypothesis Hopts : pydantic.exclude_none opts = true.

Lemma clean_ClientV1_Arguments_ConditionalGameArgument_Rule :
  clean (ClientV1.Arguments.ConditionalGameArgument.Rule.model_dump opts).
Proof.
  intros x. unfold ClientV1.Arguments.ConditionalGameArgument.Rule.model_dump.
  model_clean.
Qed.

#[local] Hint Resolve clean_ClientV1_Arguments_ConditionalGameArgument_Rule
  : clean.

Lemma clean_ClientV1_Arguments_ConditionalGameArgument :
  clean (ClientV1.Arguments.ConditionalGameArgument.model_dump opts).
Proof.
  intros x. unfold ClientV1.Arguments.ConditionalGameArgument.model_dump.
  model_clean.
Qed.

#[local] Hint Resolve clean_ClientV1_Arguments_ConditionalGameArgument : clean.

Lemma clean_ClientV1_Arguments_ConditionalJVMArgument_Rule_OS :
  clean (ClientV1.Arguments.ConditionalJVMArgument.Rule.OS.model_dump opts).
Proof.
  intros x. unfold ClientV1.Arguments.ConditionalJVMArgument.Rule.OS.model_dump.
  model_clean.
Qed.

#[local] Hint Resolve clean_ClientV1_Arguments_ConditionalJVMArgument_Rule_OS
  : clean.

Lemma clean_ClientV1_Arguments_ConditionalJVMArgument_Rule :
  clean (ClientV1.Arguments.ConditionalJVMArgument.Rule.model_dump opts).
Proof.
  intros x. unfold ClientV1.Arguments.ConditionalJVMArgument.Rule.model_dump.
  model_clean.
Qed.

#[local] Hint Resolve clean_ClientV1_Arguments_ConditionalJVMArgument_Rule
  : clean.

Lemma clean_ClientV1_Arguments_ConditionalJVMArgument :
  clean (ClientV1.Arguments.ConditionalJVMArgument.model_dump opts).
Proof.
  intros x. unfold ClientV1.Arguments.ConditionalJVMArgument.model_dump.
  model_clean.
Qed.

#[local] Hint Resolve clean_ClientV1_Arguments_ConditionalJVMArgument : clean.

Lemma clean_ClientV1_Arguments : clean (ClientV1.Arguments.model_dump opts).
Proof.
  intros x. unfold ClientV1.Arguments.model_dump. model_clean.
Qed.

#[local] Hint Resolve clean_ClientV1_Arguments : clean.

Lemma clean_ClientV1_AssetIndex : clean (ClientV1.AssetIndex.model_dump opts).
Proof.
  intros x. unfold ClientV1.AssetIndex.model_dump. model_clean.
Qed.

#[local] Hint Resolve clean_ClientV1_AssetIndex : clean.

Lemma clean_ClientV1_Downloads_Download :
  clean (ClientV1.Downloads.Download.model_dump opts).
Proof.
  intros x. unfold ClientV1.Downloads.Download.model_dump. model_clean.
Qed.

#[local] Hint Resolve clean_ClientV1_Downloads_Download : clean.

Lemma clean_ClientV1_Downloads : clean (ClientV1.Downloads.model_dump opts).
Proof.
  intros x. unfold ClientV1.Downloads.model_dump. model_clean.
Qed.

#[local] Hint Resolve clean_ClientV1_Downloads : clean.

Lemma clean_ClientV1_JavaVersion : clean (ClientV1.JavaVersion.model_dump opts).
Proof.
  intros x. unfold ClientV1.JavaVersion.model_dump. model_clean.
Qed.

#[local] Hint Resolve clean_ClientV1_JavaVersion : clean.

Lemma clean_ClientV1_Library_Downloads_Artifact :
  clean (ClientV1.Library.Downloads.Artifact.model_dump opts).
Proof.
  intros x. unfold ClientV1.Library.Downloads.Artifact.model_dump. model_clean.
Qed.

#[local] Hint Resolve clean_ClientV1_Library_Downloads_Artifact : clean.

Lemma clean_ClientV1_Library_Downloads :
  clean (ClientV1.Library.Downloads.model_dump opts).
Proof.
  intros x. unfold ClientV1.Library.Downloads.model_dump. model_clean.
Qed.

#[local] Hint Resolve clean_ClientV1_Library_Downloads : clean.

Lemma clean_ClientV1_Library_Extract :
  clean (ClientV1.Library.Extract.model_dump opts).
Proof.
  intros x. unfold ClientV1.Library.Extract.model_dump. model_clean.
Qed.

#[local] Hint Resolve clean_ClientV1_Library_Extract : clean.

Lemma clean_ClientV1_Library_Rule_OS :
  clean (ClientV1.Library.Rule.OS.model_dump opts).
Proof.
  intros x. unfold ClientV1.Library.Rule.OS.model_dump. model_clean.
Qed.

#[local] Hint Resolve clean_ClientV1_Library_Rule_OS : clean.

Lemma clean_ClientV1_Library_Rule :
  clean (ClientV1.Library.Rule.model_dump opts).
Proof.
  intros x. unfold ClientV1.Library.Rule.model_dump. model_clean.
Qed.

#[local] Hint Resolve clean_ClientV1_Library_Rule : clean.

Lemma clean_ClientV1_Library : clean (ClientV1.Library.model_dump opts).
Proof.
  intros x. unfold ClientV1.Library.model_dump. model_clean.
Qed.

#[local] Hint Resolve clean_ClientV1_Library : clean.

Lemma clean_ClientV1_Logging_Client_File :
  clean (ClientV1.Logging.Client.File.model_dump opts).
Proof.
  intros x. unfold ClientV1.Logging.Client.File.model_dump. model_clean.
Qed.

#[local] Hint Resolve clean_ClientV1_Logging_Client_File : clean.

Lemma clean_ClientV1_Logging_Client :
  clean (ClientV1.Logging.Client.model_dump opts).
Proof.
  intros x. unfold ClientV1.Logging.Client.model_dump. model_clean.
Qed.

#[local] Hint Resolve clean_ClientV1_Logging_Client : clean.

Lemma clean_ClientV1_Logging : clean (ClientV1.Logging.model_dump opts).
Proof.
  intros x. unfold ClientV1.Logging.model_dump. model_clean.
Qed.

#[local] Hint Resolve clean_ClientV1_Logging : clean.

Lemma clean_ClientV1 : clean (ClientV1.model_dump opts).
Proof.
  intros x. unfold ClientV1.model_dump. model_clean.
Qed.

#[local] Hint Resolve clean_ClientV1 : clean.

End schema_clean.

(** C8: with the default options of [ClientV1.model_dump_json] the output
    holds no [null] at any depth, and an optional field that is [None]
    ([arguments], [minecraft_arguments], [logging], and [client_mappings]
    inside [downloads]) has no key in it. *)
Theorem unset_optionals_are_omitted {PC : pydantic_core} (D : ClientV1.t) :
  let opts := ClientV1.model_dump_json_defaults in
  let out := ClientV1.model_dump_json opts D in
  no_null out = true
  /\ (ClientV1.arguments D = None -> has_key "arguments" out = false)
  /\ (ClientV1.minecraft_arguments D = None ->
      has_key "minecraft_arguments" out = false)
  /\ (ClientV1.logging D = None -> has_key "logging" out = false)
  /\ member "downloads" out
     = Some (ClientV1.Downloads.model_dump opts (ClientV1.downloads D))
  /\ (ClientV1.Downloads.client_mappings (ClientV1.downloads D) = None ->
      has_key "client_mappings"
        (ClientV1.Downloads.model_dump opts (ClientV1.downloads D)) = false).
Proof.
  intros opts out. split.
  - apply (clean_ClientV1 opts). reflexivity.
  - destruct D as [arguments asset_index assets compliance_level downloads id
                     java_version libraries logging main_class
                     minecraft_arguments minimum_launcher_version release_time
                     time type].
    unfold out, ClientV1.model_dump_json, ClientV1.model_dump. simpl.
    repeat split.
    + intros ->. destruct logging, minecraft_arguments; reflexivity.
    + intros ->. destruct logging, arguments; reflexivity.
    + intros ->. destruct arguments, minecraft_arguments; reflexivity.
    + destruct arguments, logging, minecraft_arguments; reflexivity.
    + destruct downloads as [client client_mappings server server_mappings
                               windows_server].
      simpl. intros ->. destruct server_mappings, windows_server; reflexivity.
Qed.

Lemma unset_optionals_are_omitted_witness :
  ClientV1.logging parsed.client_without_optional = None
  /\ no_null
       (ClientV1.model_dump_json ClientV1.model_dump_json_defaults
          parsed.client_without_optional) = true
  /\ has_key "logging"
       (ClientV1.model_dump_json ClientV1.model_dump_json_defaults
          parsed.client_without_optional) = false.
Proof.
  destruct (unset_optionals_are_omitted parsed.client_without_optional)
    as [Hclean [_ [_ [Hlogging _]]]].
  split; [ reflexivity | ].
  split; [ exact Hclean | apply Hlogging; reflexivity ].
Defined.

(* ================================================================== *)
(** ** Wire names and round trip *)

(** C1 (as stated, refuted): [ClientV1.Downloads] has no alias generator.
    The [downloads] object keyed by [clientMappings] is rejected, the one
    keyed by [client_mappings] is accepted, and serialising it with
    external names writes [client_mappings]. *)
Lemma Downloads_wire_names_are_snake_case :
  ClientV1.Downloads.model_validate (PC := simple_core.core)
    samples.downloads_camel = Err extra_forbidden
  /\ fmap (fun D =>
             keys_of
               (ClientV1.Downloads.model_dump pydantic.by_alias_include_all D))
       (ClientV1.Downloads.model_validate (PC := simple_core.core)
          samples.downloads)
     = Ok ["client"; "client_mappings"; "server"; "server_mappings";
           "windows_server"].
Proof.
  split; vm_compute; reflexivity.
Qed.

(** The camel-case name of a declared field that differs from the field's
    name is the wire name of no field of the schema. *)
Ltac snake_key_is_extra :=
  let f := fresh "f" in
  let o := fresh "o" in
  let Hf := fresh "Hf" in
  let Hne := fresh "Hne" in
  let Hin := fresh "Hin" in
  intros f o Hf Hne Hin; cbn [system.validate system.fields] in *;
  simpl in Hf;
  repeat (destruct Hf as [<- | Hf];
          [ first
              [ exfalso; apply Hne; reflexivity
              | eapply validate_model_forbid;
                [ reflexivity | exact Hin | vm_compute; intuition discriminate ] ]
          | ]);
  contradiction.

(** C1 (amended): every schema class other than [ClientV1.Downloads] has
    the alias generator [to_camel]: the wire name of a declared field is
    its camel-case name, serialising with external names writes exactly
    the camel-case names, what is written is read back, and an object
    keyed by a declared name that differs from its camel-case name is
    rejected.  [ClientV1.Downloads] has no alias generator: its wire names
    are [client], [client_mappings], [server], [server_mappings] and
    [windows_server], and an object with the key [clientMappings],
    [serverMappings] or [windowsServer] is rejected. *)
Theorem wire_names {PC : pydantic_core} {L : pydantic_core_laws PC} :
  (forall S, In S system.camel_schemas ->
     (forall f, pydantic.alias (system.config S) f = pydantic.to_camel f)
     /\ (forall x,
           keys_of (system.dump S pydantic.by_alias_include_all x)
           = map pydantic.to_camel (system.fields S))
     /\ (forall x, validated (system.validate S) x ->
           system.validate S (system.dump S pydantic.by_alias_include_all x)
           = Ok x)
     /\ (forall f o,
           In f (system.fields S) -> pydantic.to_camel f <> f ->
           In f (keys o) ->
           SchemaViolation (system.validate S (JObject o))))
  /\ map (pydantic.alias ClientV1.model_config) ClientV1.model_fields
     = ["arguments"; "assetIndex"; "assets"; "complianceLevel"; "downloads";
        "id"; "javaVersion"; "libraries"; "logging"; "mainClass";
        "minecraftArguments"; "minimumLauncherVersion"; "releaseTime"; "time";
        "type"]
  /\ map (pydantic.alias ClientV1.AssetIndex.model_config)
       ClientV1.AssetIndex.model_fields
     = ["id"; "sha1"; "size"; "totalSize"; "url"]
  /\ map (pydantic.alias VersionManifestV2.Version.model_config)
       VersionManifestV2.Version.model_fields
     = ["id"; "type"; "url"; "time"; "releaseTime"; "sha1"; "complianceLevel"]
  /\ (forall f, pydantic.alias ClientV1.Downloads.model_config f = f)
  /\ (forall x,
        keys_of (ClientV1.Downloads.model_dump pydantic.by_alias_include_all x)
        = ["client"; "client_mappings"; "server"; "server_mappings";
           "windows_server"])
  /\ (forall x, validated ClientV1.Downloads.model_validate x ->
        ClientV1.Downloads.model_validate
          (ClientV1.Downloads.model_dump pydantic.by_alias_include_all x)
        = Ok x)
  /\ (forall k o,
        In k ["clientMappings"; "serverMappings"; "windowsServer"] ->
        In k (keys o) ->
        SchemaViolation (ClientV1.Downloads.model_validate (JObject o))).
Proof.
  split; [ | repeat split; try reflexivity ].
  - intros S HS. unfold system.camel_schemas in HS. simpl in HS.
    repeat (destruct HS as [<- | HS];
            [ split; [ intros f; reflexivity | ];
              split; [ intros x; reflexivity | ];
              split;
              [ intros x Hx; cbn [system.validate system.dump] in *;
                apply roundtrips_elim; [ eauto with roundtrip | exact Hx ]
              | ];
              snake_key_is_extra
            | ]).
    contradiction.
  - intros x Hx. apply roundtrips_elim; [ eauto with roundtrip | exact Hx ].
  - intros k o Hk Hin. simpl in Hk.
    repeat (destruct Hk as [<- | Hk];
            [ eapply validate_model_forbid;
              [ reflexivity | exact Hin | vm_compute; intuition discriminate ]
            | ]).
    contradiction.
Qed.

Lemma wire_names_witness :
  keys_of (ClientV1.model_dump pydantic.by_alias_include_all parsed.client_1_20_2)
  = ["arguments"; "assetIndex"; "assets"; "complianceLevel"; "downloads";
     "id"; "javaVersion"; "libraries"; "logging"; "mainClass";
     "minecraftArguments"; "minimumLauncherVersion"; "releaseTime"; "time";
     "type"]
  /\ ClientV1.model_validate
       (ClientV1.model_dump pydantic.by_alias_include_all parsed.client_1_20_2)
     = Ok parsed.client_1_20_2
  /\ SchemaViolation
       (ClientV1.model_validate (PC := simple_core.core)
          (JObject [("asset_index", JNull)])).
Proof.
  destruct (wire_names (L := simple_core_laws)) as [Hcamel _].
  destruct (Hcamel
              (system.schema_of ClientV1.model_config ClientV1.model_fields
                 (ClientV1.model_validate (PC := simple_core.core))
                 ClientV1.model_dump))
    as [_ [Hkeys [Hread Hsnake]]].
  { unfold system.camel_schemas. simpl. tauto. }
  cbn [system.validate system.dump system.fields system.carrier] in *.
  split; [ exact (Hkeys parsed.client_1_20_2) | ]. split.
  - refine (Hread parsed.client_1_20_2 _). exists samples.client_1_20_2.
    exact (proj1 (proj2 (proj2 samples_are_parsed))).
  - apply (Hsnake "asset_index").
    + simpl. tauto.
    + discriminate.
    + simpl. tauto.
Defined.

(** C2: for each of the three document schemas, a successfully parsed
    document, serialised with external names and every field included and
    parsed again, is the same document. *)
Theorem round_trip {PC : pydantic_core} {L : pydantic_core_laws PC} :
  (forall doc D,
      VersionManifestV1.model_validate_json doc = Ok D ->
      VersionManifestV1.model_validate_json
        (VersionManifestV1.model_dump_json pydantic.by_alias_include_all D)
      = Ok D)
  /\ (forall doc D,
        VersionManifestV2.model_validate_json doc = Ok D ->
        VersionManifestV2.model_validate_json
          (VersionManifestV2.model_dump_json pydantic.by_alias_include_all D)
        = Ok D)
  /\ (forall doc D,
        ClientV1.model_validate_json doc = Ok D ->
        ClientV1.model_validate_json
          (ClientV1.model_dump_json pydantic.by_alias_include_all D)
        = Ok D).
Proof.
  repeat split; intros doc D H.
  - apply roundtrips_VersionManifestV1. exists doc. exact H.
  - apply roundtrips_VersionManifestV2. exists doc. exact H.
  - apply roundtrips_ClientV1. exists doc. exact H.
Qed.

Lemma round_trip_witness :
  VersionManifestV1.model_validate_json
    (VersionManifestV1.model_dump_json pydantic.by_alias_include_all
       parsed.manifest_v1)
  = Ok parsed.manifest_v1
  /\ VersionManifestV2.model_validate_json
       (VersionManifestV2.model_dump_json pydantic.by_alias_include_all
          parsed.manifest_v2)
     = Ok parsed.manifest_v2
  /\ ClientV1.model_validate_json
       (ClientV1.model_dump_json pydantic.by_alias_include_all
          parsed.client_1_20_2)
     = Ok parsed.client_1_20_2.
Proof.
  destruct (round_trip (L := simple_core_laws)) as [H1 [H2 H3]].
  destruct samples_are_parsed as [P1 [P2 [P3 _]]].
  split; [ exact (H1 _ _ P1) | ]. split; [ exact (H2 _ _ P2) | exact (H3 _ _ P3) ].
Defined.

(** The round trip needs every field: with the default [exclude_none=True]
    of [ClientV1.model_dump_json] a descriptor whose [logging] is [None] is
    written without the key, and is not read back. *)
Remark dump_without_none_is_not_read_back :
  ClientV1.model_validate_json (PC := simple_core.core)
    (ClientV1.model_dump_json
       {| pydantic.by_alias := true;
          pydantic.exclude_defaults := false;
          pydantic.exclude_none := true |}
       parsed.client_without_optional)
  = Err missing.
Proof.
  vm_compute. reflexivity.
Qed.

(* ================================================================== *)
(** ** More on urls.py *)

Lemma append_assoc (a b c : string) : (a ++ b) ++ c = a ++ b ++ c.
Proof.
  induction a as [ | x a IH]; simpl; [ reflexivity | rewrite IH; reflexivity ].
Qed.

(** Two texts split at their first [sep] agree part by part. *)
Lemma split_at_first (sep : ascii) (a b x y : string) :
  contains sep a = false -> contains sep b = false ->
  a ++ String sep x = b ++ String sep y -> a = b /\ x = y.
Proof.
  revert b. induction a as [ | c a IH]; intros [ | c' b] Ha Hb H; simpl in *.
  - injection H as ->. split; reflexivity.
  - injection H as Hc _. subst c'. rewrite Ascii.eqb_refl in Hb. discriminate Hb.
  - injection H as Hc _. subst c. rewrite Ascii.eqb_refl in Ha. discriminate Ha.
  - injection H as -> H. apply orb_false_elim in Ha, Hb.
    destruct (IH b (proj2 Ha) (proj2 Hb) H) as [-> ->]. split; reflexivity.
Qed.

(** Two texts with suffixes of the same length agree part by part. *)
Lemma split_at_length (a b x y : string) :
  String.length x = String.length y -> a ++ x = b ++ y -> a = b /\ x = y.
Proof.
  intros Hlen H.
  assert (Hab : String.length a = String.length b).
  { apply (f_equal String.length) in H. rewrite !length_append in H. lia. }
  revert b H Hab. induction a as [ | c a IH]; intros [ | c' b] H Hab;
    simpl in *; try discriminate Hab.
  - split; [ reflexivity | exact H ].
  - injection H as -> H. injection Hab as Hab.
    destruct (IH b H Hab) as [-> ->]. split; reflexivity.
Qed.

Lemma string_of_uint_no_slash (d : Decimal.uint) :
  contains "/" (NilEmpty.string_of_uint d) = false.
Proof.
  induction d; simpl; auto.
Qed.

(** The decimal text of an integer holds no slash. *)
Lemma str_of_int_no_slash (n : Z) : contains "/" (Py.str_of_int n) = false.
Proof.
  unfold Py.str_of_int, NilZero.string_of_int, NilZero.string_of_uint.
  destruct (Z.to_int n) as [d | d]; simpl.
  - destruct d; try reflexivity; simpl; apply string_of_uint_no_slash.
  - destruct d; try reflexivity; simpl; apply string_of_uint_no_slash.
Qed.

(** X1: [package_url] builds [Url] from
    [https://piston-meta.mojang.com/v<api_version>/packages/<hash>/<file>];
    when the hashes hold no slash, the text determines the API version,
    the hash and the file. *)
Theorem package_url_determines_its_parts {PC : pydantic_core}
  (hash1 file1 hash2 file2 : string) (api1 api2 : Z) :
  contains "/" hash1 = false -> contains "/" hash2 = false ->
  urls.package_url hash1 file1 api1
  = Url_new (urls_text.package_url hash1 file1 api1)
  /\ (urls_text.package_url hash1 file1 api1
      = urls_text.package_url hash2 file2 api2 ->
      api1 = api2 /\ hash1 = hash2 /\ file1 = file2).
Proof.
  intros H1 H2. split; [ reflexivity | ]. unfold urls_text.package_url.
  intros H. apply append_inj_l in H.
  change "/packages/" with (String "/" "packages/") in H.
  rewrite <- !append_assoc in H. rewrite !append_assoc in H.
  simpl in H.
  apply split_at_first in H; try apply str_of_int_no_slash.
  destruct H as [Hapi H]. apply str_of_int_inj in Hapi.
  apply (append_inj_l "packages/") in H.
  apply split_at_first in H; try assumption.
  destruct H as [-> ->]. auto.
Qed.

Lemma package_url_determines_its_parts_witness :
  urls.package_url (PC := simple_core.core)
    "9ead053b2dea80522c19f1f0e2dcb437d3392d7f" "1.20.2.json" 1
  = Some
      "https://piston-meta.mojang.com/v1/packages/9ead053b2dea80522c19f1f0e2dcb437d3392d7f/1.20.2.json".
Proof.
  destruct (package_url_determines_its_parts (PC := simple_core.core)
              "9ead053b2dea80522c19f1f0e2dcb437d3392d7f" "1.20.2.json"
              "9ead053b2dea80522c19f1f0e2dcb437d3392d7f" "1.20.2.json" 1 1
              eq_refl eq_refl) as [H _].
  rewrite H. reflexivity.
Defined.

(** X2: [resource_url] builds [Url] from
    [https://resources.download.minecraft.net/<p>/<hash>], where [p] is
    the prefix of [hash] of length [min 2 (len hash)]; hashes that differ
    give texts that differ. *)
Theorem resource_url_separates_hashes {PC : pydantic_core}
  (hash1 hash2 : string) :
  urls.resource_url hash1 = Url_new (urls_text.resource_url hash1)
  /\ String.length (Py.slice_to 2 hash1) = Nat.min 2 (String.length hash1)
  /\ (exists rest, hash1 = Py.slice_to 2 hash1 ++ rest)
  /\ (urls_text.resource_url hash1 = urls_text.resource_url hash2 <->
      hash1 = hash2).
Proof.
  split; [ reflexivity | ]. split; [ | split ].
  - generalize 2%nat. intros n. revert hash1.
    induction n as [ | n IH]; intros [ | c s]; simpl; try reflexivity.
    rewrite IH. reflexivity.
  - generalize 2%nat. intros n. revert hash1.
    induction n as [ | n IH]; intros [ | c s]; simpl.
    + exists "". reflexivity.
    + exists (String c s). reflexivity.
    + exists "". reflexivity.
    + destruct (IH s) as [rest Hrest]. exists rest. rewrite <- Hrest.
      reflexivity.
  - split; [ | intros ->; reflexivity ].
    unfold urls_text.resource_url. intros H. apply append_inj_l in H.
    assert (Hlen : forall h,
               String.length (Py.slice_to 2 h ++ "/" ++ h)
               = (Nat.min 2 (String.length h) + 1 + String.length h)%nat).
    { intros h. rewrite !length_append.
      assert (Hs : String.length (Py.slice_to 2 h)
                   = Nat.min 2 (String.length h)).
      { destruct h as [ | c [ | c' h]]; reflexivity. }
      rewrite Hs. simpl. lia. }
    assert (Hh : String.length hash1 = String.length hash2).
    { apply (f_equal String.length) in H. rewrite !Hlen in H. lia. }
    rewrite <- !append_assoc in H.
    apply split_at_length in H; [ apply H | exact Hh ].
Qed.

(** X3: [version_manifest_url] builds [Url] from a text that is different
    for different values of [file_version]. *)
Theorem version_manifest_url_separates_versions {PC : pydantic_core}
  (v1 v2 : Z) :
  urls.version_manifest_url v1 = Url_new (urls_text.version_manifest_url v1)
  /\ (urls_text.version_manifest_url v1 = urls_text.version_manifest_url v2
      <-> v1 = v2).
Proof.
  split.
  - unfold urls.version_manifest_url, urls_text.version_manifest_url.
    destruct (Z.eqb v1 1); reflexivity.
  - split; [ | intros ->; reflexivity ].
    unfold urls_text.version_manifest_url. intros H.
    apply append_inj_l in H.
    destruct (Z.eqb_spec v1 1) as [E1 | E1];
      destruct (Z.eqb_spec v2 1) as [E2 | E2];
      simpl in H; try discriminate H.
    + congruence.
    + injection H as H. apply append_inj_r in H. apply str_of_int_inj.
      exact H.
Qed.

(* ================================================================== *)
(** ** Documents that are no objects, and serialisation by field name *)



Lemma mem_app (k : string) (l1 l2 : list string) :
  mem k (l1 ++ l2) = mem k l1 || mem k l2.
Proof.
  unfold mem. apply existsb_app.
Qed.

Lemma keys_app {A : Type} (l1 l2 : list (string * A)) :
  keys (l1 ++ l2) = (keys l1 ++ keys l2)%list.
Proof.
  unfold keys. apply map_app.
Qed.

(** Written by field name, a field is under no other key than its name. *)
Lemma mem_dump_field_by_name (opts : pydantic.dump_options)
  (cfg : pydantic.ConfigDict) (name : string) (has_default : bool) (j : json)
  (k : string) :
  pydantic.by_alias opts = false -> String.eqb k name = false ->
  mem k (keys (pydantic.dump_field opts cfg name has_default j)) = false.
Proof.
  intros Hopts Hk. unfold pydantic.dump_field. rewrite Hopts.
  destruct (_ && _); simpl; [ reflexivity | ]. rewrite Hk. reflexivity.
Qed.

(** [|- mem k (keys (dump_field .. ++ .. ++ dump_field ..)) = false]. *)
Ltac key_is_not_written Hopts :=
  rewrite ?keys_app, ?mem_app;
  repeat (apply orb_false_intro);
  (apply mem_dump_field_by_name; [ exact Hopts | reflexivity ]).

(** X5: without [by_alias] a model is written under its declared field
    names; a client descriptor written so is never read back, whatever
    [exclude_defaults] and [exclude_none] are, because [assetIndex] is then
    missing. *)
Theorem dump_by_field_name {PC : pydantic_core} :
  (forall S, In S system.schemas ->
     forall x,
       keys_of (system.dump S pydantic.BaseModel_dump_defaults x)
       = system.fields S)
  /\ (forall opts D,
        pydantic.by_alias opts = false ->
        has_key "assetIndex" (ClientV1.model_dump_json opts D) = false
        /\ SchemaViolation
             (ClientV1.model_validate_json (ClientV1.model_dump_json opts D))).
Proof.
  split.
  - intros S HS. unfold system.schemas, system.camel_schemas in HS.
    simpl in HS.
    repeat (destruct HS as [<- | HS]; [ intros x; reflexivity | ]).
    contradiction.
  - intros opts D Hopts.
    assert (Hkey : has_key "assetIndex" (ClientV1.model_dump_json opts D)
                   = false).
    { unfold ClientV1.model_dump_json, ClientV1.model_dump, has_key.
      key_is_not_written Hopts. }
    split; [ exact Hkey | ].
    unfold ClientV1.model_validate_json, ClientV1.model_validate.
    unfold ClientV1.model_dump_json, ClientV1.model_dump in *.
    apply validate_model_body_Err.
    apply bind_Err_cont; intros ?.
    apply bind_Err. exists missing. apply required_missing. exact Hkey.
Qed.

Lemma dump_by_field_name_witness :
  SchemaViolation
    (ClientV1.model_validate_json (PC := simple_core.core)
       (ClientV1.model_dump_json ClientV1.model_dump_json_defaults
          parsed.client_1_20_2)).
Proof.
  exact (proj2 (proj2 (dump_by_field_name (PC := simple_core.core))
                  ClientV1.model_dump_json_defaults parsed.client_1_20_2
                  eq_refl)).
Defined.

(* ================================================================== *)
(** ** Required and optional keys *)

Lemma required_missing_key {A : Type} (cfg : pydantic.ConfigDict)
  (o : list (string * json)) (name : string) (v : json -> result A)
  (k : string) :
  pydantic.alias cfg name = k -> mem k (keys o) = false ->
  pydantic.required cfg o name v = Err missing.
Proof.
  intros <-. apply required_missing.
Qed.

(** Looks for the field whose alias [H] says is absent. *)
Ltac field_is_missing H :=
  cbn [has_key] in H;
  match type of H with
  | mem ?a _ = _ =>
      let a' := eval vm_compute in a in change a with a' in H
  end;
  apply validate_model_body_Err; cbv beta;
  repeat first
    [ solve [ apply bind_Err; exists missing;
              eapply required_missing_key;
              [ vm_compute; reflexivity | exact H ] ]
    | apply bind_Err_cont; intros ? ].

(** X6: in every schema class a field declared without a default is
    required: an object without the field's wire name is rejected. *)
Theorem required_keys {PC : pydantic_core} (S : system.schema)
  (required : list string) (f : string) (o : list (string * json)) :
  In (S, required) required_fields ->
  In f required ->
  has_key (pydantic.alias (system.config S) f) (JObject o) = false ->
  In f (system.fields S)
  /\ SchemaViolation (system.validate S (JObject o)).
Proof.
  intros HS Hf H. unfold required_fields in HS. simpl in HS.
  repeat (destruct HS as [HS | HS];
          [ injection HS as <- <-; simpl in Hf;
            repeat (destruct Hf as [<- | Hf];
                    [ split; [ simpl; tauto | ];
                      cbn [system.validate system.config] in *;
                      field_is_missing H
                    | ]);
            contradiction
          | ]).
  contradiction.
Qed.

Lemma required_keys_witness :
  SchemaViolation
    (ClientV1.Downloads.model_validate (PC := simple_core.core)
       (JObject
          [("client",
            samples.download "0d" 22
              "https://piston-data.mojang.com/v1/objects/0d/client.jar")])).
Proof.
  assert (Hin : In "server" ["client"; "server"]) by (simpl; tauto).
  assert (HS : In (system.schema_of ClientV1.Downloads.model_config
                     ClientV1.Downloads.model_fields
                     (ClientV1.Downloads.model_validate (PC := simple_core.core))
                     ClientV1.Downloads.model_dump,
                   ["client"; "server"])
                 (required_fields (PC := simple_core.core)))
    by (unfold required_fields; simpl; tauto).
  exact (proj2
           (@required_keys simple_core.core _ _ "server"
              [("client",
                samples.download "0d" 22
                  "https://piston-data.mojang.com/v1/objects/0d/client.jar")]
              HS Hin eq_refl)).
Defined.

(** [null] and nothing else is read as [None]. *)
Lemma nullable_None {A : Type} (v : json -> result A) (j : json)
  (a : option A) :
  pydantic.nullable v j = Ok a -> (a = None <-> j = JNull).
Proof.
  intros H. destruct j; simpl in H;
    try (injection H as <-; split; reflexivity);
    match type of H with
    | fmap _ ?m = _ =>
        destruct m; simpl in H; [ injection H as <- | discriminate H ]
    end; split; discriminate.
Qed.

Lemma defaulted_None {A : Type} (cfg : pydantic.ConfigDict)
  (o : list (string * json)) (name k : string) (v : json -> result A)
  (a : option A) :
  pydantic.alias cfg name = k ->
  pydantic.defaulted cfg o name (pydantic.nullable v) None = Ok a ->
  (a = None <-> get k o = None \/ get k o = Some JNull).
Proof.
  intros <- H. unfold pydantic.defaulted in H.
  destruct (get (pydantic.alias cfg name) o) as [j | ].
  - apply nullable_None in H. rewrite H. split.
    + intros ->. right. reflexivity.
    + intros [Hn | Hs]; [ discriminate Hn | injection Hs as ->; reflexivity ].
  - injection H as <-. split; auto.
Qed.

Lemma required_nullable_None {A : Type} (cfg : pydantic.ConfigDict)
  (o : list (string * json)) (name k : string) (v : json -> result A)
  (a : option A) :
  pydantic.alias cfg name = k ->
  pydantic.required cfg o name (pydantic.nullable v) = Ok a ->
  (a = None <-> get k o = Some JNull).
Proof.
  intros <- H. unfold pydantic.required in H.
  destruct (get (pydantic.alias cfg name) o) as [j | ]; [ | discriminate H ].
  apply nullable_None in H. rewrite H. split.
  - intros ->. reflexivity.
  - intros Hs. injection Hs as ->. reflexivity.
Qed.

(** [|- a = None <-> ...], for the field read into [a]. *)
Ltac none_iff :=
  match goal with
  | E : pydantic.defaulted _ _ ?n _ _ = Ok ?a |- (?a = None <-> _) =>
      exact (@defaulted_None _ _ _ n _ _ _ eq_refl E)
  | E : pydantic.required _ _ ?n _ = Ok ?a |- (?a = None <-> _) =>
      exact (@required_nullable_None _ _ _ n _ _ _ eq_refl E)
  end.

(** X7: in a parsed client descriptor [arguments] and [minecraft_arguments]
    are [None] exactly when the document has no such key or has [null]
    under it; [logging] is [None] exactly when the document has [null]
    under [logging].  The optional members of [downloads] are [None]
    exactly when their key is absent or [null]. *)
Theorem None_is_absent_or_null {PC : pydantic_core} :
  (forall o D,
      ClientV1.model_validate_json (JObject o) = Ok D ->
      (ClientV1.arguments D = None <->
       get "arguments" o = None \/ get "arguments" o = Some JNull)
      /\ (ClientV1.minecraft_arguments D = None <->
          get "minecraftArguments" o = None
          \/ get "minecraftArguments" o = Some JNull)
      /\ (ClientV1.logging D = None <-> get "logging" o = Some JNull))
  /\ (forall o D,
        ClientV1.Downloads.model_validate (JObject o) = Ok D ->
        (ClientV1.Downloads.client_mappings D = None <->
         get "client_mappings" o = None \/ get "client_mappings" o = Some JNull)
        /\ (ClientV1.Downloads.server_mappings D = None <->
            get "server_mappings" o = None
            \/ get "server_mappings" o = Some JNull)
        /\ (ClientV1.Downloads.windows_server D = None <->
            get "windows_server" o = None
            \/ get "windows_server" o = Some JNull)).
Proof.
  split; intros o D H.
  - unfold ClientV1.model_validate_json, ClientV1.model_validate in H.
    apply validate_model_object in H. destruct H as [o' [Ho H]].
    injection Ho as <-. model_inv H. injection H as <-. simpl.
    split; [ | split ]; none_iff.
  - unfold ClientV1.Downloads.model_validate in H.
    apply validate_model_object in H. destruct H as [o' [Ho H]].
    injection Ho as <-. model_inv H. injection H as <-. simpl.
    split; [ | split ]; none_iff.
Qed.

Lemma None_is_absent_or_null_witness :
  ClientV1.logging parsed.client_without_optional = None
  /\ member "logging" samples.client_without_optional = Some JNull.
Proof.
  destruct (None_is_absent_or_null (PC := simple_core.core)) as [H _].
  split; [ reflexivity | ].
  refine (proj1 (proj2 (proj2 (H _ parsed.client_without_optional _))) eq_refl).
  exact (proj2 (proj2 (proj2 samples_are_parsed))).
Defined.

(* ================================================================== *)
(** ** Lists and unions *)

Lemma validate_list_Forall2 {A : Type} (v : json -> result A) (j : json)
  (xs : list A) :
  pydantic.validate_list v j = Ok xs ->
  exists l, j = JArray l /\ Forall2 (fun e x => v e = Ok x) l xs.
Proof.
  destruct j; try discriminate. simpl. intros H. exists l.
  split; [ reflexivity | exact (mapM_Ok_Forall2 _ _ H) ].
Qed.

Lemma required_get_Ok {A : Type} (cfg : pydantic.ConfigDict)
  (o : list (string * json)) (name k : string) (v : json -> result A) (x : A) :
  pydantic.alias cfg name = k ->
  pydantic.required cfg o name v = Ok x ->
  exists j, get k o = Some j /\ v j = Ok x.
Proof.
  intros <- H. unfold pydantic.required in H.
  destruct (get (pydantic.alias cfg name) o) as [j | ]; [ | discriminate H ].
  exists j. split; [ reflexivity | exact H ].
Qed.

(** From [E : required cfg o name v = Ok x], the value under the key [k],
    the alias of [name]. *)
Ltac read_field E k :=
  match type of E with
  | pydantic.required ?cfg ?o ?n ?v = Ok ?x =>
      apply (@required_get_Ok _ cfg o n k v x eq_refl) in E
  end.

(** X8: the [versions] of a manifest and the [libraries] of a client
    descriptor are read element by element, in the order of the document:
    the parsed list has the length of the array and its i-th element is
    what the element schema reads from the i-th entry. *)
Theorem lists_are_read_in_order {PC : pydantic_core} :
  (forall doc D,
      VersionManifestV1.model_validate_json doc = Ok D ->
      Forall2 (fun e v => VersionManifestV1.Version.model_validate e = Ok v)
        (version_entries doc) (VersionManifestV1.versions D)
      /\ length (VersionManifestV1.versions D) = length (version_entries doc))
  /\ (forall doc D,
        VersionManifestV2.model_validate_json doc = Ok D ->
        Forall2 (fun e v => VersionManifestV2.Version.model_validate e = Ok v)
          (version_entries doc) (VersionManifestV2.versions D)
        /\ length (VersionManifestV2.versions D)
           = length (version_entries doc))
  /\ (forall doc D,
        ClientV1.model_validate_json doc = Ok D ->
        exists libraries,
          member "libraries" doc = Some (JArray libraries)
          /\ Forall2 (fun e l => ClientV1.Library.model_validate e = Ok l)
               libraries (ClientV1.libraries D)
          /\ length (ClientV1.libraries D) = length libraries).
Proof.
  split; [ | split ]; intros doc D H.
  - unfold VersionManifestV1.model_validate_json,
      VersionManifestV1.model_validate in H.
    apply validate_model_object in H. destruct H as [o [-> H]].
    model_inv H. injection H as <-. simpl.
    read_field E0 "versions".
    destruct E0 as [j [Hget Hj]]. apply validate_list_Forall2 in Hj.
    destruct Hj as [l [-> Hl]]. unfold version_entries, member.
    rewrite Hget. split; [ exact Hl | ].
    symmetry. exact (Forall2_length Hl).
  - unfold VersionManifestV2.model_validate_json,
      VersionManifestV2.model_validate in H.
    apply validate_model_object in H. destruct H as [o [-> H]].
    model_inv H. injection H as <-. simpl.
    read_field E0 "versions".
    destruct E0 as [j [Hget Hj]]. apply validate_list_Forall2 in Hj.
    destruct Hj as [l [-> Hl]]. unfold version_entries, member.
    rewrite Hget. split; [ exact Hl | ].
    symmetry. exact (Forall2_length Hl).
  - unfold ClientV1.model_validate_json, ClientV1.model_validate in H.
    apply validate_model_object in H. destruct H as [o [-> H]].
    model_inv H. injection H as <-. simpl.
    read_field E6 "libraries".
    destruct E6 as [j [Hget Hj]]. apply validate_list_Forall2 in Hj.
    destruct Hj as [l [-> Hl]]. exists l.
    split; [ exact Hget | ]. split; [ exact Hl | ].
    symmetry. exact (Forall2_length Hl).
Qed.

Lemma lists_are_read_in_order_witness :
  length (VersionManifestV2.versions parsed.manifest_v2)
  = length (version_entries samples.manifest_v2).
Proof.
  destruct (lists_are_read_in_order (PC := simple_core.core)) as [_ [H _]].
  exact (proj2 (H samples.manifest_v2 parsed.manifest_v2
                  (proj1 (proj2 samples_are_parsed)))).
Defined.

Lemma mapM_validate_str (l : list json) (xs : list string) :
  mapM pydantic.validate_str l = Ok xs -> l = map JString xs.
Proof.
  revert xs. induction l as [ | j l IH]; simpl; intros xs H.
  - injection H as <-. reflexivity.
  - destruct j; try discriminate H. simpl in H.
    destruct (mapM pydantic.validate_str l) as [ys | ]; simpl in H;
      [ | discriminate H ].
    injection H as <-. simpl. rewrite (IH ys eq_refl). reflexivity.
Qed.

(** [str | list[str]] reads a string or an array of strings. *)
Lemma str_or_list (j : json) (x : string + list string) :
  pydantic.union pydantic.validate_str
    (pydantic.validate_list pydantic.validate_str) j = Ok x ->
  j = match x with
      | inl s => JString s
      | inr l => JArray (map JString l)
      end.
Proof.
  unfold pydantic.union. destruct j; simpl; try discriminate.
  - intros H. injection H as <-. reflexivity.
  - intros H. destruct (mapM pydantic.validate_str l) as [xs | ] eqn:E;
      simpl in H; [ | discriminate H ].
    injection H as <-. rewrite (mapM_validate_str _ E). reflexivity.
Qed.

(** X9: the [value] of a conditional argument ([str | list[str]]) is a plain
    string exactly when the document has a JSON string under [value], and
    a list of strings exactly when it has an array of JSON strings; the
    strings are kept as they are, in order. *)
Theorem value_is_string_or_list {PC : pydantic_core} :
  (forall o c,
      ClientV1.Arguments.ConditionalGameArgument.model_validate (JObject o)
      = Ok c ->
      get "value" o
      = Some match ClientV1.Arguments.ConditionalGameArgument.value c with
             | inl s => JString s
             | inr l => JArray (map JString l)
             end)
  /\ (forall o c,
        ClientV1.Arguments.ConditionalJVMArgument.model_validate (JObject o)
        = Ok c ->
        get "value" o
        = Some match ClientV1.Arguments.ConditionalJVMArgument.value c with
               | inl s => JString s
               | inr l => JArray (map JString l)
               end).
Proof.
  split; intros o c H.
  - unfold ClientV1.Arguments.ConditionalGameArgument.model_validate in H.
    apply validate_model_object in H. destruct H as [o' [Ho H]].
    injection Ho as <-. model_inv H. injection H as <-. simpl.
    read_field E0 "value".
    destruct E0 as [j [Hget Hj]]. rewrite Hget.
    rewrite (str_or_list _ Hj). reflexivity.
  - unfold ClientV1.Arguments.ConditionalJVMArgument.model_validate in H.
    apply validate_model_object in H. destruct H as [o' [Ho H]].
    injection Ho as <-. model_inv H. injection H as <-. simpl.
    read_field E0 "value".
    destruct E0 as [j [Hget Hj]]. rewrite Hget.
    rewrite (str_or_list _ Hj). reflexivity.
Qed.

Lemma value_is_string_or_list_witness :
  get (A := json) "value"
    [("rules", JArray []); ("value", JArray [JString "-Xss1M"; JString "-Xmx2G"])]
  = Some (JArray (map JString ["-Xss1M"; "-Xmx2G"])).
Proof.
  refine (proj2 (value_is_string_or_list (PC := simple_core.core))
            [("rules", JArray []);
             ("value", JArray [JString "-Xss1M"; JString "-Xmx2G"])]
            {| ClientV1.Arguments.ConditionalJVMArgument.rules := [];
               ClientV1.Arguments.ConditionalJVMArgument.value :=
                 inr ["-Xss1M"; "-Xmx2G"] |} _).
  vm_compute. reflexivity.
Defined.

(* ================================================================== *)
(** ** What validation does not check *)

Section replace_facts.
Variables (k : string) (v : json).

Lemma keys_replace_value (o : list (string * json)) :
  keys (replace_value k v o) = keys o.
Proof.
  induction o as [ | [k' j] o IH]; simpl; [ reflexivity | ].
  rewrite <- IH. destruct (String.eqb k' k); reflexivity.
Qed.

Lemma get_replace_value_other (k' : string) (o : list (string * json)) :
  k' <> k -> get k' (replace_value k v o) = get k' o.
Proof.
  intros Hne. induction o as [ | [k0 j] o IH]; simpl; [ reflexivity | ].
  rewrite <- IH.
  destruct (String.eqb_spec k0 k) as [-> | Hk0]; simpl; [ | reflexivity ].
  destruct (String.eqb_spec k' k) as [Heq | _]; [ contradiction | ].
  reflexivity.
Qed.

Lemma get_replace_value_same (o : list (string * json)) :
  get k o <> None -> get k (replace_value k v o) = Some v.
Proof.
  induction o as [ | [k0 j] o IH]; simpl; [ congruence | ].
  destruct (get k o) as [j' | ] eqn:Hget.
  - intros _. destruct (String.eqb k0 k); simpl; rewrite IH by discriminate;
      reflexivity.
  - destruct (String.eqb_spec k k0) as [<- | Hne]; [ | congruence ].
    intros _. rewrite String.eqb_refl. simpl.
    destruct (get k (replace_value k v o)) as [j' | ] eqn:Hget'.
    + apply get_None in Hget. exfalso. apply Hget.
      rewrite <- keys_replace_value.
      assert (Hn : get k (replace_value k v o) <> None) by congruence.
      apply Decidable.not_not; [ | intros Habs; apply get_None in Habs;
                                    contradiction ].
      destruct (in_dec string_dec k (keys (replace_value k v o)));
        [ left | right ]; assumption.
    + rewrite String.eqb_refl. reflexivity.
Qed.

End replace_facts.

Section model_inversion.
Context {A : Type} (cfg : pydantic.ConfigDict) (fields : list string)
  (body : list (string * json) -> result A).

(** What an accepted document is: an object whose fields are accepted and
    which, when extra keys are forbidden, has none. *)
Lemma validate_model_inv (j : json) (x : A) :
  pydantic.validate_model cfg fields body j = Ok x ->
  exists o, j = JObject o /\ body o = Ok x
            /\ (pydantic.extra cfg = pydantic.forbid ->
                pydantic.extra_keys cfg fields o = []).
Proof.
  destruct j; try discriminate. simpl. intros H. exists o.
  destruct (body o) as [x' | ]; simpl in H; [ | discriminate H ].
  destruct (pydantic.extra cfg) eqn:Hextra;
    destruct (pydantic.extra_keys cfg fields o) eqn:Hkeys;
    try discriminate H; injection H as <-;
    (split; [ reflexivity | split; [ reflexivity | ] ]);
    congruence.
Qed.

Lemma validate_model_intro (o : list (string * json)) (x : A) :
  body o = Ok x ->
  (pydantic.extra cfg = pydantic.forbid ->
   pydantic.extra_keys cfg fields o = []) ->
  pydantic.validate_model cfg fields body (JObject o) = Ok x.
Proof.
  intros Hbody Hextra. simpl. rewrite Hbody. simpl.
  destruct (pydantic.extra cfg); try reflexivity.
  rewrite Hextra; reflexivity.
Qed.

End model_inversion.

Lemma extra_keys_replace_value (cfg : pydantic.ConfigDict)
  (fields : list string) (k : string) (v : json) (o : list (string * json)) :
  pydantic.extra_keys cfg fields (replace_value k v o)
  = pydantic.extra_keys cfg fields o.
Proof.
  unfold pydantic.extra_keys. rewrite keys_replace_value. reflexivity.
Qed.

Section replace_fields.
Context {A : Type} (cfg : pydantic.ConfigDict) (o : list (string * json))
  (name : string) (val : json -> result A) (k : string) (v : json).

Lemma required_replace_other :
  pydantic.alias cfg name <> k ->
  pydantic.required cfg (replace_value k v o) name val
  = pydantic.required cfg o name val.
Proof.
  intros Hne. unfold pydantic.required.
  rewrite get_replace_value_other by exact Hne. reflexivity.
Qed.

Lemma defaulted_replace_other (default : A) :
  pydantic.alias cfg name <> k ->
  pydantic.defaulted cfg (replace_value k v o) name val default
  = pydantic.defaulted cfg o name val default.
Proof.
  intros Hne. unfold pydantic.defaulted.
  rewrite get_replace_value_other by exact Hne. reflexivity.
Qed.

Lemma required_replace_same (x : A) :
  pydantic.alias cfg name = k ->
  pydantic.required cfg o name val = Ok x ->
  pydantic.required cfg (replace_value k v o) name val = val v.
Proof.
  intros <- H. unfold pydantic.required in *.
  rewrite get_replace_value_same; [ reflexivity | ].
  destruct (get (pydantic.alias cfg name) o); [ discriminate | discriminate H ].
Qed.

End replace_fields.

(** X10: validation checks each member on its own and nothing across
    members.  An accepted client descriptor stays accepted when the value
    under [assets] is replaced by any other string, and differs in [assets]
    only: [assets] is not compared with [assetIndex.id].  A manifest with
    an empty [versions] array is accepted whatever [latest] names. *)
Theorem members_are_not_compared {PC : pydantic_core} :
  (forall o D assets,
      ClientV1.model_validate_json (JObject o) = Ok D ->
      ClientV1.model_validate_json
        (JObject (replace_value "assets" (JString assets) o))
      = Ok (with_assets D assets))
  /\ (forall release snapshot,
        VersionManifestV1.model_validate_json
          (JObject
             [("latest",
               JObject [("release", JString release);
                        ("snapshot", JString snapshot)]);
              ("versions", JArray [])])
        = Ok {| VersionManifestV1.latest :=
                  {| VersionManifestV1.Latest.release := release;
                     VersionManifestV1.Latest.snapshot := snapshot |};
                VersionManifestV1.versions := [] |})
  /\ (forall release snapshot,
        VersionManifestV2.model_validate_json
          (JObject
             [("latest",
               JObject [("release", JString release);
                        ("snapshot", JString snapshot)]);
              ("versions", JArray [])])
        = Ok {| VersionManifestV2.latest :=
                  {| VersionManifestV2.Latest.release := release;
                     VersionManifestV2.Latest.snapshot := snapshot |};
                VersionManifestV2.versions := [] |}).
Proof.
  split; [ | split; intros release snapshot; vm_compute; reflexivity ].
  intros o D assets H.
  unfold ClientV1.model_validate_json, ClientV1.model_validate in *.
  apply validate_model_inv in H. destruct H as [o' [Ho [H Hextra]]].
  injection Ho as <-. model_inv H. injection H as <-.
  apply validate_model_intro;
    [ | rewrite extra_keys_replace_value; exact Hextra ].
  repeat (eapply bind_step;
          [ first
              [ rewrite required_replace_other by (vm_compute; discriminate);
                eassumption
              | rewrite defaulted_replace_other by (vm_compute; discriminate);
                eassumption
              | erewrite required_replace_same by (reflexivity || eassumption);
                reflexivity ]
          | cbn beta ]).
  reflexivity.
Qed.

Lemma members_are_not_compared_witness :
  ClientV1.model_validate_json
    (JObject
       (replace_value "assets" (JString "17")
          (members samples.client_without_optional)))
  = Ok (with_assets parsed.client_without_optional "17")
  /\ ClientV1.AssetIndex.id
       (ClientV1.asset_index (with_assets parsed.client_without_optional "17"))
     = "8".
Proof.
  split; [ | reflexivity ].
  refine (proj1 (members_are_not_compared (PC := simple_core.core))
            (members samples.client_without_optional)
            parsed.client_without_optional "17" _).
  exact (proj2 (proj2 (proj2 samples_are_parsed))).
Defined.

(* ================================================================== *)
(** ** Round trip under the other dump options *)

Lemma dump_field_written (opts : pydantic.dump_options)
  (cfg : pydantic.ConfigDict) (name : string) (has_default : bool) (j : json) :
  pydantic.by_alias opts = true -> is_null j = false ->
  pydantic.dump_field opts cfg name has_default j = [(pydantic.alias cfg name, j)].
Proof.
  intros Hba Hj. unfold pydantic.dump_field. rewrite Hba, Hj, andb_false_r.
  reflexivity.
Qed.

Lemma dump_field_null (opts : pydantic.dump_options)
  (cfg : pydantic.ConfigDict) (name : string) (has_default : bool) (j : json) :
  pydantic.by_alias opts = true -> is_null j = true ->
  pydantic.dump_field opts cfg name has_default j
  = if pydantic.exclude_none opts || (pydantic.exclude_defaults opts && has_default)
    then []
    else [(pydantic.alias cfg name, j)].
Proof.
  intros Hba Hj. unfold pydantic.dump_field. rewrite Hba, Hj, andb_true_r.
  reflexivity.
Qed.

(** Settles which fields [opts] writes: an optional field is [None] or
    not, a union field is one alternative or the other. *)
Ltac written_fields opts Hba :=
  repeat match goal with
         | |- context [pydantic.dump_option _ ?y] => is_var y; destruct y
         | |- context [pydantic.dump_union _ _ ?y] => is_var y; destruct y
         end;
  repeat match goal with
         | |- context [pydantic.dump_field opts ?cfg ?n ?hd ?j] =>
             first
               [ rewrite (@dump_field_written opts cfg n hd j Hba eq_refl)
               | rewrite (@dump_field_null opts cfg n hd j Hba eq_refl) ]
         end.

(** Reads the written fields back; a field that was left out reads as its
    default. *)
Ltac read_back_written :=
  repeat (
    cbn [get String.eqb Ascii.eqb Bool.eqb];
    eapply bind_step;
    [ first [ eapply roundtrips_elim;
              [ solve [ eauto 6 with roundtrip ] | eassumption ]
            | reflexivity ]
    | cbn beta ]).

(** [H : model_validate j = Ok x |- model_validate (model_dump opts x) = Ok x],
    both unfolded: one goal for each set of fields that [opts] writes. *)
Ltac written_cases opts Hba x H :=
  apply validate_model_object in H;
  let o := fresh "o" in
  destruct H as [o [-> H]];
  model_inv H; injection H as H; fields_validated;
  unfold pydantic.validate_model;
  name_fields x H;
  written_fields opts Hba;
  repeat match goal with
         | |- context [pydantic.exclude_none opts] =>
             destruct (pydantic.exclude_none opts); cbn [orb andb]
         | |- context [pydantic.exclude_defaults opts] =>
             destruct (pydantic.exclude_defaults opts); cbn [orb andb]
         end;
  cbn [app].

Ltac read_written :=
  eapply bind_step;
  [ unfold pydantic.required, pydantic.defaulted; eval_aliases;
    read_back_written; reflexivity
  | reflexivity ].

Ltac model_roundtrip_written opts Hba x H :=
  written_cases opts Hba x H; read_written.

(** Whatever the options, a field is written under its name or its alias. *)
Lemma mem_dump_field_other (opts : pydantic.dump_options)
  (cfg : pydantic.ConfigDict) (name : string) (has_default : bool) (j : json)
  (k : string) :
  String.eqb k (pydantic.alias cfg name) = false -> String.eqb k name = false ->
  mem k (keys (pydantic.dump_field opts cfg name has_default j)) = false.
Proof.
  intros Ha Hn. unfold pydantic.dump_field.
  destruct (_ && _); simpl; [ reflexivity | ].
  destruct (pydantic.by_alias opts); [ rewrite Ha | rewrite Hn ]; reflexivity.
Qed.

Section written_roundtrips.
Context {PC : pydantic_core} {L : pydantic_core_laws PC}.
Variable opts : pydantic.dump_options.
Hypothesis Hba : pydantic.by_alias opts = true.

#[local] Hint Extern 1 (never_null _) => (intros ?; reflexivity) : roundtrip.
#[local] Hint Extern 1 (rejects _ _) =>
  (intros ?; eexists; reflexivity) : roundtrip.

Lemma written_VersionManifestV1_Latest :
  roundtrips VersionManifestV1.Latest.model_validate
    (VersionManifestV1.Latest.model_dump opts).
Proof.
  intros x [j H].
  unfold VersionManifestV1.Latest.model_validate,
    VersionManifestV1.Latest.model_dump in *.
  model_roundtrip_written opts Hba x H.
Qed.

#[local] Hint Resolve written_VersionManifestV1_Latest : roundtrip.

Lemma written_VersionManifestV1_Version :
  roundtrips VersionManifestV1.Version.model_validate
    (VersionManifestV1.Version.model_dump opts).
Proof.
  intros x [j H].
  unfold VersionManifestV1.Version.model_validate,
    VersionManifestV1.Version.model_dump in *.
  model_roundtrip_written opts Hba x H.
Qed.

#[local] Hint Resolve written_VersionManifestV1_Version : roundtrip.

Lemma written_VersionManifestV1 :
  roundtrips VersionManifestV1.model_validate
    (VersionManifestV1.model_dump opts).
Proof.
  intros x [j H].
  unfold VersionManifestV1.model_validate,
    VersionManifestV1.model_dump in *.
  model_roundtrip_written opts Hba x H.
Qed.

#[local] Hint Resolve written_VersionManifestV1 : roundtrip.

Lemma written_VersionManifestV2_Latest :
  roundtrips VersionManifestV2.Latest.model_validate
    (VersionManifestV2.Latest.model_dump opts).
Proof.
  intros x [j H].
  unfold VersionManifestV2.Latest.model_validate,
    VersionManifestV2.Latest.model_dump in *.
  model_roundtrip_written opts Hba x H.
Qed.

#[local] Hint Resolve written_VersionManifestV2_Latest : roundtrip.

Lemma written_VersionManifestV2_Version :
  roundtrips VersionManifestV2.Version.model_validate
    (VersionManifestV2.Version.model_dump opts).
Proof.
  intros x [j H].
  unfold VersionManifestV2.Version.model_validate,
    VersionManifestV2.Version.model_dump in *.
  model_roundtrip_written opts Hba x H.
Qed.

#[local] Hint Resolve written_VersionManifestV2_Version : roundtrip.

Lemma written_VersionManifestV2 :
  roundtrips VersionManifestV2.model_validate
    (VersionManifestV2.model_dump opts).
Proof.
  intros x [j H].
  unfold VersionManifestV2.model_validate,
    VersionManifestV2.model_dump in *.
  model_roundtrip_written opts Hba x H.
Qed.

#[local] Hint Resolve written_VersionManifestV2 : roundtrip.

Lemma written_ClientV1_Arguments_ConditionalGameArgument_Rule :
  roundtrips ClientV1.Arguments.ConditionalGameArgument.Rule.model_validate
    (ClientV1.Arguments.ConditionalGameArgument.Rule.model_dump opts).
Proof.
  intros x [j H].
  unfold ClientV1.Arguments.ConditionalGameArgument.Rule.model_validate,
    ClientV1.Arguments.ConditionalGameArgument.Rule.model_dump in *.
  model_roundtrip_written opts Hba x H.
Qed.

#[local] Hint Resolve written_ClientV1_Arguments_ConditionalGameArgument_Rule : roundtrip.

Lemma written_ClientV1_Arguments_ConditionalGameArgument :
  roundtrips ClientV1.Arguments.ConditionalGameArgument.model_validate
    (ClientV1.Arguments.ConditionalGameArgument.model_dump opts).
Proof.
  intros x [j H].
  unfold ClientV1.Arguments.ConditionalGameArgument.model_validate,
    ClientV1.Arguments.ConditionalGameArgument.model_dump in *.
  model_roundtrip_written opts Hba x H.
Qed.

#[local] Hint Resolve written_ClientV1_Arguments_ConditionalGameArgument : roundtrip.

Lemma written_ClientV1_Arguments_ConditionalJVMArgument_Rule_OS :
  roundtrips ClientV1.Arguments.ConditionalJVMArgument.Rule.OS.model_validate
    (ClientV1.Arguments.ConditionalJVMArgument.Rule.OS.model_dump opts).
Proof.
  intros x [j H].
  unfold ClientV1.Arguments.ConditionalJVMArgument.Rule.OS.model_validate,
    ClientV1.Arguments.ConditionalJVMArgument.Rule.OS.model_dump in *.
  model_roundtrip_written opts Hba x H.
Qed.

#[local] Hint Resolve written_ClientV1_Arguments_ConditionalJVMArgument_Rule_OS : roundtrip.

Lemma written_ClientV1_Arguments_ConditionalJVMArgument_Rule :
  roundtrips ClientV1.Arguments.ConditionalJVMArgument.Rule.model_validate
    (ClientV1.Arguments.ConditionalJVMArgument.Rule.model_dump opts).
Proof.
  intros x [j H].
  unfold ClientV1.Arguments.ConditionalJVMArgument.Rule.model_validate,
    ClientV1.Arguments.ConditionalJVMArgument.Rule.model_dump in *.
  model_roundtrip_written opts Hba x H.
Qed.

#[local] Hint Resolve written_ClientV1_Arguments_ConditionalJVMArgument_Rule : roundtrip.

Lemma written_ClientV1_Arguments_ConditionalJVMArgument :
  roundtrips ClientV1.Arguments.ConditionalJVMArgument.model_validate
    (ClientV1.Arguments.ConditionalJVMArgument.model_dump opts).
Proof.
  intros x [j H].
  unfold ClientV1.Arguments.ConditionalJVMArgument.model_validate,
    ClientV1.Arguments.ConditionalJVMArgument.model_dump in *.
  model_roundtrip_written opts Hba x H.
Qed.

#[local] Hint Resolve written_ClientV1_Arguments_ConditionalJVMArgument : roundtrip.

Lemma written_ClientV1_Arguments :
  roundtrips ClientV1.Arguments.model_validate
    (ClientV1.Arguments.model_dump opts).
Proof.
  intros x [j H].
  unfold ClientV1.Arguments.model_validate,
    ClientV1.Arguments.model_dump in *.
  model_roundtrip_written opts Hba x H.
Qed.

#[local] Hint Resolve written_ClientV1_Arguments : roundtrip.

Lemma written_ClientV1_AssetIndex :
  roundtrips ClientV1.AssetIndex.model_validate
    (ClientV1.AssetIndex.model_dump opts).
Proof.
  intros x [j H].
  unfold ClientV1.AssetIndex.model_validate,
    ClientV1.AssetIndex.model_dump in *.
  model_roundtrip_written opts Hba x H.
Qed.

#[local] Hint Resolve written_ClientV1_AssetIndex : roundtrip.

Lemma written_ClientV1_Downloads_Download :
  roundtrips ClientV1.Downloads.Download.model_validate
    (ClientV1.Downloads.Download.model_dump opts).
Proof.
  intros x [j H].
  unfold ClientV1.Downloads.Download.model_validate,
    ClientV1.Downloads.Download.model_dump in *.
  model_roundtrip_written opts Hba x H.
Qed.

#[local] Hint Resolve written_ClientV1_Downloads_Download : roundtrip.

Lemma written_ClientV1_Downloads :
  roundtrips ClientV1.Downloads.model_validate
    (ClientV1.Downloads.model_dump opts).
Proof.
  intros x [j H].
  unfold ClientV1.Downloads.model_validate,
    ClientV1.Downloads.model_dump in *.
  model_roundtrip_written opts Hba x H.
Qed.

#[local] Hint Resolve written_ClientV1_Downloads : roundtrip.

Lemma written_ClientV1_JavaVersion :
  roundtrips ClientV1.JavaVersion.model_validate
    (ClientV1.JavaVersion.model_dump opts).
Proof.
  intros x [j H].
  unfold ClientV1.JavaVersion.model_validate,
    ClientV1.JavaVersion.model_dump in *.
  model_roundtrip_written opts Hba x H.
Qed.

#[local] Hint Resolve written_ClientV1_JavaVersion : roundtrip.

Lemma written_ClientV1_Library_Downloads_Artifact :
  roundtrips ClientV1.Library.Downloads.Artifact.model_validate
    (ClientV1.Library.Downloads.Artifact.model_dump opts).
Proof.
  intros x [j H].
  unfold ClientV1.Library.Downloads.Artifact.model_validate,
    ClientV1.Library.Downloads.Artifact.model_dump in *.
  model_roundtrip_written opts Hba x H.
Qed.

#[local] Hint Resolve written_ClientV1_Library_Downloads_Artifact : roundtrip.

Lemma written_ClientV1_Library_Downloads :
  roundtrips ClientV1.Library.Downloads.model_validate
    (ClientV1.Library.Downloads.model_dump opts).
Proof.
  intros x [j H].
  unfold ClientV1.Library.Downloads.model_validate,
    ClientV1.Library.Downloads.model_dump in *.
  model_roundtrip_written opts Hba x H.
Qed.

#[local] Hint Resolve written_ClientV1_Library_Downloads : roundtrip.

Lemma written_ClientV1_Library_Extract :
  roundtrips ClientV1.Library.Extract.model_validate
    (ClientV1.Library.Extract.model_dump opts).
Proof.
  intros x [j H].
  unfold ClientV1.Library.Extract.model_validate,
    ClientV1.Library.Extract.model_dump in *.
  model_roundtrip_written opts Hba x H.
Qed.

#[local] Hint Resolve written_ClientV1_Library_Extract : roundtrip.

Lemma written_ClientV1_Library_Rule_OS :
  roundtrips ClientV1.Library.Rule.OS.model_validate
    (ClientV1.Library.Rule.OS.model_dump opts).
Proof.
  intros x [j H].
  unfold ClientV1.Library.Rule.OS.model_validate,
    ClientV1.Library.Rule.OS.model_dump in *.
  model_roundtrip_written opts Hba x H.
Qed.

#[local] Hint Resolve written_ClientV1_Library_Rule_OS : roundtrip.

Lemma written_ClientV1_Library_Rule :
  roundtrips ClientV1.Library.Rule.model_validate
    (ClientV1.Library.Rule.model_dump opts).
Proof.
  intros x [j H].
  unfold ClientV1.Library.Rule.model_validate,
    ClientV1.Library.Rule.model_dump in *.
  model_roundtrip_written opts Hba x H.
Qed.

#[local] Hint Resolve written_ClientV1_Library_Rule : roundtrip.

Lemma written_ClientV1_Library :
  roundtrips ClientV1.Library.model_validate
    (ClientV1.Library.model_dump opts).
Proof.
  intros x [j H].
  unfold ClientV1.Library.model_validate,
    ClientV1.Library.model_dump in *.
  model_roundtrip_written opts Hba x H.
Qed.

#[local] Hint Resolve written_ClientV1_Library : roundtrip.

Lemma written_ClientV1_Logging_Client_File :
  roundtrips ClientV1.Logging.Client.File.model_validate
    (ClientV1.Logging.Client.File.model_dump opts).
Proof.
  intros x [j H].
  unfold ClientV1.Logging.Client.File.model_validate,
    ClientV1.Logging.Client.File.model_dump in *.
  model_roundtrip_written opts Hba x H.
Qed.

#[local] Hint Resolve written_ClientV1_Logging_Client_File : roundtrip.

Lemma written_ClientV1_Logging_Client :
  roundtrips ClientV1.Logging.Client.model_validate
    (ClientV1.Logging.Client.model_dump opts).
Proof.
  intros x [j H].
  unfold ClientV1.Logging.Client.model_validate,
    ClientV1.Logging.Client.model_dump in *.
  model_roundtrip_written opts Hba x H.
Qed.

#[local] Hint Resolve written_ClientV1_Logging_Client : roundtrip.

Lemma written_ClientV1_Logging :
  roundtrips ClientV1.Logging.model_validate
    (ClientV1.Logging.model_dump opts).
Proof.
  intros x [j H].
  unfold ClientV1.Logging.model_validate,
    ClientV1.Logging.model_dump in *.
  model_roundtrip_written opts Hba x H.
Qed.

#[local] Hint Resolve written_ClientV1_Logging : roundtrip.

Lemma written_ClientV1 (D : ClientV1.t) :
  validated ClientV1.model_validate D ->
  (pydantic.exclude_none opts = true -> ClientV1.logging D <> None) ->
  ClientV1.model_validate (ClientV1.model_dump opts D) = Ok D.
Proof.
  intros [j H] Hlog.
  unfold ClientV1.model_validate, ClientV1.model_dump in *.
  written_cases opts Hba D H;
    try (exfalso; apply Hlog; reflexivity);
    read_written.
Qed.

End written_roundtrips.

(** With [exclude_none] a [logging] that is [None] is not written, and the
    key is required. *)
Lemma unwritten_logging {PC : pydantic_core} (opts : pydantic.dump_options)
  (D : ClientV1.t) :
  pydantic.exclude_none opts = true -> ClientV1.logging D = None ->
  SchemaViolation
    (ClientV1.model_validate_json (ClientV1.model_dump_json opts D)).
Proof.
  intros Hen Hlog. unfold ClientV1.model_dump_json, ClientV1.model_dump.
  apply (logging_key_is_required (PC := PC)).
  cbn [has_key]. rewrite Hlog. rewrite ?keys_app, ?mem_app.
  repeat (apply orb_false_intro);
    first [ apply mem_dump_field_other; reflexivity
          | unfold pydantic.dump_field; rewrite Hen; reflexivity ].
Qed.

(** X11: round trip under any dump options.  Written under the external
    names, whatever [exclude_defaults] and [exclude_none] are, a parsed
    manifest is read back as it was; a parsed client descriptor is read
    back as it was unless [exclude_none] is set and its [logging] is
    [None], and is rejected then.  ([exclude_none] is the default of
    [ClientV1.model_dump_json].) *)
Theorem round_trip_by_alias {PC : pydantic_core} {L : pydantic_core_laws PC}
  (opts : pydantic.dump_options) :
  pydantic.by_alias opts = true ->
  (forall doc D,
      VersionManifestV1.model_validate_json doc = Ok D ->
      VersionManifestV1.model_validate_json
        (VersionManifestV1.model_dump_json opts D)
      = Ok D)
  /\ (forall doc D,
        VersionManifestV2.model_validate_json doc = Ok D ->
        VersionManifestV2.model_validate_json
          (VersionManifestV2.model_dump_json opts D)
        = Ok D)
  /\ (forall doc D,
        ClientV1.model_validate_json doc = Ok D ->
        (pydantic.exclude_none opts = true /\ ClientV1.logging D = None ->
         SchemaViolation
           (ClientV1.model_validate_json (ClientV1.model_dump_json opts D)))
        /\ (~ (pydantic.exclude_none opts = true /\ ClientV1.logging D = None) ->
            ClientV1.model_validate_json (ClientV1.model_dump_json opts D)
            = Ok D)).
Proof.
  intros Hba. repeat split.
  - intros doc D H. apply written_VersionManifestV1; [ exact Hba | ].
    exists doc. exact H.
  - intros doc D H. apply written_VersionManifestV2; [ exact Hba | ].
    exists doc. exact H.
  - intros [Hen Hlog]. apply unwritten_logging; assumption.
  - intros Hnot. apply written_ClientV1; [ exact Hba | exists doc; exact H | ].
    intros Hen Hlog. apply Hnot. split; assumption.
Qed.

Lemma round_trip_by_alias_witness :
  ClientV1.model_validate_json
    (ClientV1.model_dump_json
       {| pydantic.by_alias := true;
          pydantic.exclude_defaults := false;
          pydantic.exclude_none := true |}
       parsed.client_1_20_2)
  = Ok parsed.client_1_20_2
  /\ SchemaViolation
       (ClientV1.model_validate_json (PC := simple_core.core)
          (ClientV1.model_dump_json
             {| pydantic.by_alias := true;
                pydantic.exclude_defaults := false;
                pydantic.exclude_none := true |}
             parsed.client_without_optional)).
Proof.
  pose proof (round_trip_by_alias (PC := simple_core.core)
                (L := simple_core_laws)
                {| pydantic.by_alias := true;
                   pydantic.exclude_defaults := false;
                   pydantic.exclude_none := true |} eq_refl) as [_ [_ H]].
  split.
  - refine (proj2 (H samples.client_1_20_2 parsed.client_1_20_2 _) _).
    + exact (proj1 (proj2 (proj2 samples_are_parsed))).
    + intros [_ Hlog]. discriminate Hlog.
  - refine (proj1 (H samples.client_without_optional
                     parsed.client_without_optional _) _).
    + exact (proj2 (proj2 (proj2 samples_are_parsed))).
    + split; reflexivity.
Defined.

(* ================================================================== *)
(** ** Manifests written by field name *)

Lemma dump_field_by_name (opts : pydantic.dump_options)
  (cfg : pydantic.ConfigDict) (name : string) (has_default : bool) (j : json) :
  pydantic.by_alias opts = false -> is_null j = false ->
  pydantic.dump_field opts cfg name has_default j = [(name, j)].
Proof.
  intros Hba Hj. unfold pydantic.dump_field. rewrite Hba, Hj, andb_false_r.
  reflexivity.
Qed.

Ltac fields_by_name opts Hopts :=
  repeat match goal with
         | |- context [pydantic.dump_field opts ?cfg ?n ?hd ?j] =>
             rewrite (@dump_field_by_name opts cfg n hd j Hopts eq_refl)
         end.

(** A version entry written by field name has [release_time], not
    [releaseTime]. *)
Lemma VersionManifestV1_Version_by_field_name {PC : pydantic_core}
  (opts : pydantic.dump_options) (v : VersionManifestV1.Version.t) :
  pydantic.by_alias opts = false ->
  SchemaViolation
    (VersionManifestV1.Version.model_validate
       (VersionManifestV1.Version.model_dump opts v)).
Proof.
  intros Hopts.
  unfold VersionManifestV1.Version.model_validate,
    VersionManifestV1.Version.model_dump.
  match goal with
  | |- SchemaViolation (pydantic.validate_model _ _ _ (JObject ?o)) =>
      assert (Hk : has_key "releaseTime" (JObject o) = false)
  end.
  { cbn [has_key]. key_is_not_written Hopts. }
  field_is_missing Hk.
Qed.

Lemma VersionManifestV1_by_field_name {PC : pydantic_core}
  (opts : pydantic.dump_options) (D : VersionManifestV1.t) :
  pydantic.by_alias opts = false ->
  (VersionManifestV1.model_validate_json
     (VersionManifestV1.model_dump_json opts D) = Ok D
   <-> VersionManifestV1.versions D = []).
Proof.
  intros Hopts.
  unfold VersionManifestV1.model_validate_json, VersionManifestV1.model_dump_json,
    VersionManifestV1.model_validate, VersionManifestV1.model_dump.
  fields_by_name opts Hopts. cbn [app].
  split.
  - intros H. destruct (VersionManifestV1.versions D) as [ | v l]; [ reflexivity | ].
    exfalso.
    match type of H with
    | ?m = Ok _ => assert (He : SchemaViolation m)
    end.
    { apply validate_model_body_Err.
      apply bind_Err_cont; intros ?.
      apply bind_Err.
      apply required_Err
        with (j := pydantic.dump_list (VersionManifestV1.Version.model_dump opts)
                     (v :: l));
        [ reflexivity | ].
      apply validate_list_Err
        with (j := VersionManifestV1.Version.model_dump opts v);
        [ left; reflexivity | ].
      apply VersionManifestV1_Version_by_field_name. exact Hopts. }
    destruct He as [e He]. rewrite He in H. discriminate H.
  - intros H. destruct D as [[release snapshot] versions].
    cbn [VersionManifestV1.versions] in H. subst versions.
    unfold VersionManifestV1.Latest.model_dump.
    fields_by_name opts Hopts.
    reflexivity.
Qed.

(** A version entry written by field name has [release_time], not
    [releaseTime]. *)
Lemma VersionManifestV2_Version_by_field_name {PC : pydantic_core}
  (opts : pydantic.dump_options) (v : VersionManifestV2.Version.t) :
  pydantic.by_alias opts = false ->
  SchemaViolation
    (VersionManifestV2.Version.model_validate
       (VersionManifestV2.Version.model_dump opts v)).
Proof.
  intros Hopts.
  unfold VersionManifestV2.Version.model_validate,
    VersionManifestV2.Version.model_dump.
  match goal with
  | |- SchemaViolation (pydantic.validate_model _ _ _ (JObject ?o)) =>
      assert (Hk : has_key "releaseTime" (JObject o) = false)
  end.
  { cbn [has_key]. key_is_not_written Hopts. }
  field_is_missing Hk.
Qed.

Lemma VersionManifestV2_by_field_name {PC : pydantic_core}
  (opts : pydantic.dump_options) (D : VersionManifestV2.t) :
  pydantic.by_alias opts = false ->
  (VersionManifestV2.model_validate_json
     (VersionManifestV2.model_dump_json opts D) = Ok D
   <-> VersionManifestV2.versions D = []).
Proof.
  intros Hopts.
  unfold VersionManifestV2.model_validate_json, VersionManifestV2.model_dump_json,
    VersionManifestV2.model_validate, VersionManifestV2.model_dump.
  fields_by_name opts Hopts. cbn [app].
  split.
  - intros H. destruct (VersionManifestV2.versions D) as [ | v l]; [ reflexivity | ].
    exfalso.
    match type of H with
    | ?m = Ok _ => assert (He : SchemaViolation m)
    end.
    { apply validate_model_body_Err.
      apply bind_Err_cont; intros ?.
      apply bind_Err.
      apply required_Err
        with (j := pydantic.dump_list (VersionManifestV2.Version.model_dump opts)
                     (v :: l));
        [ reflexivity | ].
      apply validate_list_Err
        with (j := VersionManifestV2.Version.model_dump opts v);
        [ left; reflexivity | ].
      apply VersionManifestV2_Version_by_field_name. exact Hopts. }
    destruct He as [e He]. rewrite He in H. discriminate H.
  - intros H. destruct D as [[release snapshot] versions].
    cbn [VersionManifestV2.versions] in H. subst versions.
    unfold VersionManifestV2.Latest.model_dump.
    fields_by_name opts Hopts.
    reflexivity.
Qed.

(** X12: written by field name (the default of [BaseModel.model_dump_json],
    which the manifests inherit), a manifest is read back exactly when it
    has no version entry: an entry is written with [release_time], and is
    read under [releaseTime]. *)
Theorem manifests_by_field_name {PC : pydantic_core}
  (opts : pydantic.dump_options) :
  pydantic.by_alias opts = false ->
  (forall D,
      VersionManifestV1.model_validate_json
        (VersionManifestV1.model_dump_json opts D) = Ok D
      <-> VersionManifestV1.versions D = [])
  /\ (forall D,
        VersionManifestV2.model_validate_json
          (VersionManifestV2.model_dump_json opts D) = Ok D
        <-> VersionManifestV2.versions D = []).
Proof.
  intros Hopts. split; intros D.
  - apply VersionManifestV1_by_field_name. exact Hopts.
  - apply VersionManifestV2_by_field_name. exact Hopts.
Qed.

Lemma manifests_by_field_name_witness :
  VersionManifestV1.model_validate_json (PC := simple_core.core)
    (VersionManifestV1.model_dump_json pydantic.BaseModel_dump_defaults
       parsed.manifest_v1)
  <> Ok parsed.manifest_v1
  /\ VersionManifestV2.model_validate_json (PC := simple_core.core)
       (VersionManifestV2.model_dump_json pydantic.BaseModel_dump_defaults
          (@VersionManifestV2.Build_t simple_core.core
             (VersionManifestV2.latest parsed.manifest_v2) []))
     = Ok (@VersionManifestV2.Build_t simple_core.core
             (VersionManifestV2.latest parsed.manifest_v2) []).
Proof.
  pose proof (manifests_by_field_name (PC := simple_core.core)
                pydantic.BaseModel_dump_defaults eq_refl) as [H1 H2].
  split.
  - intros H. apply (H1 parsed.manifest_v1) in H. discriminate H.
  - apply (H2 (@VersionManifestV2.Build_t simple_core.core
                  (VersionManifestV2.latest parsed.manifest_v2) [])).
    reflexivity.
Defined.

(* ================================================================== *)
(** ** The keys of a written object *)

Lemma In_keys_dump_field (opts : pydantic.dump_options)
  (cfg : pydantic.ConfigDict) (name : string) (has_default : bool) (j : json)
  (k : string) :
  In k (keys (pydantic.dump_field opts cfg name has_default j)) ->
  k = (if pydantic.by_alias opts then pydantic.alias cfg name else name).
Proof.
  unfold pydantic.dump_field. destruct (_ && _); simpl; [ contradiction | ].
  intros [H | H]; [ symmetry; exact H | contradiction ].
Qed.

Lemma NoDup_keys_dump_field (opts : pydantic.dump_options)
  (cfg : pydantic.ConfigDict) (name : string) (has_default : bool) (j : json) :
  NoDup (keys (pydantic.dump_field opts cfg name has_default j)).
Proof.
  unfold pydantic.dump_field. destruct (_ && _); simpl.
  - constructor.
  - constructor; [ intros H; exact H | constructor ].
Qed.

(** A field before fields that are written under other keys. *)
Lemma NoDup_dump_field_app (opts : pydantic.dump_options)
  (cfg : pydantic.ConfigDict) (name : string) (has_default : bool) (j : json)
  (rest : list string) :
  mem (pydantic.alias cfg name) rest = false -> mem name rest = false ->
  NoDup rest ->
  NoDup (keys (pydantic.dump_field opts cfg name has_default j) ++ rest).
Proof.
  intros Ha Hn Hrest. unfold pydantic.dump_field.
  destruct (_ && _); simpl; [ exact Hrest | ].
  constructor; [ | exact Hrest ].
  intros Hin. apply mem_In in Hin.
  destruct (pydantic.by_alias opts); congruence.
Qed.

(** [|- mem k (keys (dump_field .. ++ .. ++ dump_field ..)) = false], for
    any options. *)
Ltac key_of_no_other_field :=
  rewrite ?keys_app, ?mem_app;
  repeat (apply orb_false_intro);
  (apply mem_dump_field_other; reflexivity).

(** [|- NoDup (keys (dump_field .. ++ .. ++ dump_field ..))]. *)
Ltac keys_are_distinct :=
  repeat (rewrite keys_app;
          apply NoDup_dump_field_app;
          [ key_of_no_other_field | key_of_no_other_field | ]);
  apply NoDup_keys_dump_field.

(** [H : In k (keys (dump_field .. ++ .. ++ dump_field ..))
     |- exists f, In f fields /\ k = ..]. *)
Ltac key_is_of_a_field H :=
  rewrite ?keys_app, ?in_app_iff in H;
  repeat (destruct H as [H | H];
          [ apply In_keys_dump_field in H;
            eexists; split; [ | exact H ]; simpl; tauto | ]);
  apply In_keys_dump_field in H;
  eexists; split; [ | exact H ]; simpl; tauto.

(** X13: whatever the options and the value, the object a schema class
    writes has no key twice, and each of its keys is the name of a declared
    field (its alias under [by_alias]). *)
Theorem written_keys {PC : pydantic_core} (S : system.schema)
  (opts : pydantic.dump_options) (x : system.carrier S) :
  In S system.schemas ->
  NoDup (keys_of (system.dump S opts x))
  /\ (forall k,
         In k (keys_of (system.dump S opts x)) ->
         exists f,
           In f (system.fields S)
           /\ k = (if pydantic.by_alias opts
                   then pydantic.alias (system.config S) f
                   else f)).
Proof.
  intros HS.
  unfold system.schemas, system.camel_schemas, system.downloads_schema in HS.
  simpl in HS.
  repeat (destruct HS as [<- | HS];
          [ split;
            [ simpl; keys_are_distinct
            | intros k H; simpl in *; key_is_of_a_field H ]
          | ]).
  contradiction.
Qed.

Lemma written_keys_witness :
  NoDup
    (keys_of
       (ClientV1.model_dump_json ClientV1.model_dump_json_defaults
          parsed.client_without_optional)).
Proof.
  refine (proj1
            (@written_keys simple_core.core
               (system.schema_of ClientV1.model_config ClientV1.model_fields
                  (ClientV1.model_validate (PC := simple_core.core))
                  ClientV1.model_dump)
               ClientV1.model_dump_json_defaults
               parsed.client_without_optional _)).
  unfold system.schemas, system.camel_schemas. simpl. tauto.
Defined.

(* ================================================================== *)
(** ** The order of the keys of a document *)

From Stdlib Require Import Permutation.

Section key_order.
Context {A : Type}.

Lemma get_In (k : string) (v : A) (o : list (string * A)) :
  NoDup (keys o) -> (get k o = Some v <-> In (k, v) o).
Proof.
  induction o as [ | [k' v'] o IH]; simpl; intros Hnd.
  - split; [ discriminate | contradiction ].
  - inversion Hnd as [ | ? ? Hk' Hnd']; subst.
    specialize (IH Hnd'). split.
    + destruct (get k o) as [w | ].
      * intros H. right. apply IH. exact H.
      * destruct (String.eqb_spec k k') as [-> | _]; [ | discriminate ].
        intros H. injection H as ->. left. reflexivity.
    + intros [H | H].
      * injection H as -> ->.
        rewrite (proj2 (get_None k o) Hk'), String.eqb_refl. reflexivity.
      * rewrite (proj2 IH H). reflexivity.
Qed.

(** With no key twice, what is under a key does not depend on the order
    of the members. *)
Lemma get_Permutation (k : string) (o o' : list (string * A)) :
  NoDup (keys o) -> Permutation o o' -> get k o' = get k o.
Proof.
  intros Hnd Hperm.
  assert (Hnd' : NoDup (keys o')).
  { apply (Permutation_NoDup (l := keys o)); [ | exact Hnd ].
    unfold keys. apply Permutation_map. exact Hperm. }
  destruct (get k o) as [v | ] eqn:Hget.
  - apply (get_In k v o' Hnd').
    apply (Permutation_in _ Hperm). apply (get_In k v o Hnd). exact Hget.
  - apply get_None. intros Hin. apply (proj1 (get_None k o) Hget).
    unfold keys in *. apply Permutation_map with (f := fst) in Hperm.
    apply (Permutation_in _ (Permutation_sym Hperm)). exact Hin.
Qed.

End key_order.

Lemma extra_keys_Permutation (cfg : pydantic.ConfigDict) (fields : list string)
  (o o' : list (string * json)) :
  Permutation o o' ->
  pydantic.extra_keys cfg fields o = [] ->
  pydantic.extra_keys cfg fields o' = [].
Proof.
  intros Hperm H. unfold pydantic.extra_keys in *.
  destruct (filter _ (keys o')) as [ | k l] eqn:E; [ reflexivity | ].
  exfalso.
  assert (Hin : In k (filter
                        (fun k => negb (mem k (map (pydantic.alias cfg) fields)))
                        (keys o'))) by (rewrite E; left; reflexivity).
  apply filter_In in Hin. destruct Hin as [Hin Hk].
  assert (Hin' : In k (keys o)).
  { unfold keys in *. apply Permutation_map with (f := fst) in Hperm.
    apply (Permutation_in _ (Permutation_sym Hperm)). exact Hin. }
  assert (Hf : In k (filter
                       (fun k => negb (mem k (map (pydantic.alias cfg) fields)))
                       (keys o))) by (apply filter_In; split; assumption).
  rewrite H in Hf. exact Hf.
Qed.

(** A model whose fields read the same from [o] and [o'] validates the two
    alike. *)
Lemma validate_model_Permutation {A : Type} (cfg : pydantic.ConfigDict)
  (fields : list string) (body : list (string * json) -> result A)
  (o o' : list (string * json)) :
  Permutation o o' -> body o' = body o ->
  pydantic.validate_model cfg fields body (JObject o')
  = pydantic.validate_model cfg fields body (JObject o).
Proof.
  intros Hperm Hbody. unfold pydantic.validate_model. rewrite Hbody.
  destruct (body o) as [x | e]; [ | reflexivity ]. cbn [bind].
  destruct (pydantic.extra_keys cfg fields o) as [ | k l] eqn:E;
    destruct (pydantic.extra_keys cfg fields o') as [ | k' l'] eqn:E';
    try reflexivity.
  - rewrite (extra_keys_Permutation cfg fields Hperm E) in E'.
    discriminate E'.
  - rewrite (extra_keys_Permutation cfg fields (Permutation_sym Hperm) E') in E.
    discriminate E.
Qed.

(** X14: with no key twice, the order of the members of a document is
    irrelevant: every schema class gives the same result, value or error,
    on an object and on each of its rearrangements. *)
Theorem key_order_is_irrelevant {PC : pydantic_core} (S : system.schema)
  (o o' : list (string * json)) :
  In S system.schemas ->
  NoDup (keys o) ->
  Permutation o o' ->
  system.validate S (JObject o') = system.validate S (JObject o).
Proof.
  intros HS Hnd Hperm.
  assert (Hget : forall k, get k o' = get k o)
    by (intros k; apply get_Permutation; assumption).
  unfold system.schemas, system.camel_schemas, system.downloads_schema in HS.
  simpl in HS.
  repeat (destruct HS as [<- | HS];
          [ cbn [system.validate];
            apply validate_model_Permutation; [ exact Hperm | ];
            unfold pydantic.required, pydantic.defaulted;
            rewrite !Hget; reflexivity
          | ]).
  contradiction.
Qed.

Lemma key_order_is_irrelevant_witness :
  VersionManifestV1.Latest.model_validate
    (JObject [("snapshot", JString "23w40a"); ("release", JString "1.20.2")])
  = VersionManifestV1.Latest.model_validate
      (JObject [("release", JString "1.20.2"); ("snapshot", JString "23w40a")]).
Proof.
  refine (@key_order_is_irrelevant simple_core.core
            (system.schema_of VersionManifestV1.Latest.model_config
               VersionManifestV1.Latest.model_fields
               VersionManifestV1.Latest.model_validate
               VersionManifestV1.Latest.model_dump)
            [("release", JString "1.20.2"); ("snapshot", JString "23w40a")]
            [("snapshot", JString "23w40a"); ("release", JString "1.20.2")]
            _ _ _).
  - unfold system.schemas, system.camel_schemas. simpl. tauto.
  - simpl. constructor.
    + simpl. intros [H | H]; [ discriminate H | exact H ].
    + constructor; [ intros H; exact H | constructor ].
  - apply perm_swap.
Defined.

(* ================================================================== *)
(** ** A version-2 manifest holds a version-1 manifest *)

Lemma get_without_keys (ks : list string) (k : string)
  (o : list (string * json)) :
  mem k ks = false -> get k (without_keys ks o) = get k o.
Proof.
  intros Hk. induction o as [ | [k' j] o IH]; simpl; [ reflexivity | ].
  destruct (mem k' ks) eqn:Hk'; simpl; rewrite IH; [ | reflexivity ].
  destruct (get k o); [ reflexivity | ].
  destruct (String.eqb_spec k k') as [-> | _]; [ congruence | reflexivity ].
Qed.

Lemma In_keys_without_keys (ks : list string) (k : string)
  (o : list (string * json)) :
  In k (keys (without_keys ks o)) -> In k (keys o) /\ mem k ks = false.
Proof.
  unfold keys, without_keys. intros H. apply in_map_iff in H.
  destruct H as [[k' j] [Hk H]]. simpl in Hk. subst k'.
  apply filter_In in H. destruct H as [Hin Hmem]. simpl in Hmem.
  split; [ apply in_map_iff; exists (k, j); split; [ reflexivity | exact Hin ] | ].
  destruct (mem k ks); [ discriminate Hmem | reflexivity ].
Qed.

Lemma required_without_keys {A : Type} (cfg : pydantic.ConfigDict)
  (ks : list string) (o : list (string * json)) (name : string)
  (v : json -> result A) :
  mem (pydantic.alias cfg name) ks = false ->
  pydantic.required cfg (without_keys ks o) name v = pydantic.required cfg o name v.
Proof.
  intros H. unfold pydantic.required. rewrite get_without_keys by exact H.
  reflexivity.
Qed.

(** No extra key: every key is the alias of a field. *)
Lemma extra_keys_nil (cfg : pydantic.ConfigDict) (fields : list string)
  (o : list (string * json)) :
  pydantic.extra_keys cfg fields o = []
  <-> (forall k, In k (keys o) ->
                 mem k (map (pydantic.alias cfg) fields) = true).
Proof.
  unfold pydantic.extra_keys. split.
  - intros H k Hin.
    destruct (mem k (map (pydantic.alias cfg) fields)) eqn:Hk; [ reflexivity | ].
    assert (Hf : In k (filter
                         (fun k => negb (mem k (map (pydantic.alias cfg) fields)))
                         (keys o)))
      by (apply filter_In; split; [ exact Hin | rewrite Hk; reflexivity ]).
    rewrite H in Hf. contradiction.
  - intros H.
    destruct (filter _ (keys o)) as [ | k l] eqn:E; [ reflexivity | ].
    assert (Hf : In k (filter
                         (fun k => negb (mem k (map (pydantic.alias cfg) fields)))
                         (keys o)))
      by (rewrite E; left; reflexivity).
    apply filter_In in Hf. destruct Hf as [Hin Hk].
    rewrite (H k Hin) in Hk. discriminate Hk.
Qed.

Section downgrade.
Context {PC : pydantic_core}.

Lemma Latest_v1_of_v2 (j : json) (l : VersionManifestV2.Latest.t) :
  VersionManifestV2.Latest.model_validate j = Ok l ->
  VersionManifestV1.Latest.model_validate j = Ok (Latest_as_v1 l).
Proof.
  unfold VersionManifestV2.Latest.model_validate,
    VersionManifestV1.Latest.model_validate.
  intros H. apply validate_model_inv in H.
  destruct H as [o [-> [Hbody Hextra]]].
  apply validate_model_intro; [ | exact Hextra ].
  model_inv Hbody. injection Hbody as <-.
  unfold VersionManifestV1.Latest.model_config,
    VersionManifestV2.Latest.model_config in *.
  rewrite E, E0. reflexivity.
Qed.

Lemma Version_v1_of_v2 (e : json) (v : VersionManifestV2.Version.t) :
  VersionManifestV2.Version.model_validate e = Ok v ->
  VersionManifestV1.Version.model_validate (entry_as_v1 e)
  = Ok (Version_as_v1 v).
Proof.
  unfold VersionManifestV2.Version.model_validate,
    VersionManifestV1.Version.model_validate.
  intros H. apply validate_model_inv in H.
  destruct H as [o [-> [Hbody Hextra]]]. cbn [entry_as_v1].
  apply validate_model_intro.
  - model_inv Hbody. injection Hbody as <-.
    unfold VersionManifestV1.Version.model_config,
      VersionManifestV2.Version.model_config in *.
    rewrite !required_without_keys by reflexivity.
    rewrite E, E0, E1, E2, E3. reflexivity.
  - intros _. apply extra_keys_nil. intros k Hk.
    apply In_keys_without_keys in Hk. destruct Hk as [Hin Hk].
    specialize (Hextra eq_refl).
    apply (proj1 (extra_keys_nil _ _ _) Hextra) in Hin.
    revert Hin Hk. vm_compute.
    repeat match goal with
           | |- context [if ?b then _ else _] => destruct b
           end; congruence.
Qed.

Lemma versions_v1_of_v2 (l : list json) (vs : list VersionManifestV2.Version.t) :
  Forall2 (fun e v => VersionManifestV2.Version.model_validate e = Ok v) l vs ->
  mapM VersionManifestV1.Version.model_validate (map entry_as_v1 l)
  = Ok (map Version_as_v1 vs).
Proof.
  intros H. apply Forall2_mapM.
  induction H as [ | e v l vs Hev _ IH]; simpl; constructor;
    [ apply Version_v1_of_v2; exact Hev | exact IH ].
Qed.

End downgrade.

(** X15: a version-2 manifest holds a version-1 manifest.  When a document
    is accepted as a version-2 manifest, the document without the [sha1]
    and [complianceLevel] of its version entries is accepted as a version-1
    manifest, with the same [latest] and, entry by entry, the same [id],
    [type], [url], [time] and [release_time]. *)
Theorem manifest_v2_holds_v1 {PC : pydantic_core} (doc : json)
  (D : VersionManifestV2.t) :
  VersionManifestV2.model_validate_json doc = Ok D ->
  VersionManifestV1.model_validate_json (document_as_v1 doc)
  = Ok (manifest_as_v1 D).
Proof.
  unfold VersionManifestV2.model_validate_json,
    VersionManifestV1.model_validate_json,
    VersionManifestV2.model_validate, VersionManifestV1.model_validate.
  intros H. apply validate_model_inv in H.
  destruct H as [o [-> [Hbody Hextra]]]. cbn [document_as_v1].
  model_inv Hbody. injection Hbody as <-.
  unfold pydantic.required in E, E0.
  change (pydantic.alias VersionManifestV2.model_config "latest")
    with "latest" in E.
  change (pydantic.alias VersionManifestV2.model_config "versions")
    with "versions" in E0.
  destruct (get "latest" o) as [jl | ] eqn:Hl; [ | discriminate E ].
  destruct (get "versions" o) as [jv | ] eqn:Hv; [ | discriminate E0 ].
  apply validate_list_Forall2 in E0. destruct E0 as [entries [-> Hentries]].
  apply validate_model_intro.
  - unfold pydantic.required.
    change (pydantic.alias VersionManifestV1.model_config "latest")
      with "latest".
    change (pydantic.alias VersionManifestV1.model_config "versions")
      with "versions".
    rewrite get_replace_value_other by discriminate.
    rewrite get_replace_value_same by (rewrite Hv; discriminate).
    rewrite Hl. rewrite (Latest_v1_of_v2 _ E). cbn [bind].
    unfold version_entries, member. rewrite Hv.
    cbn [pydantic.validate_list].
    rewrite (versions_v1_of_v2 Hentries). reflexivity.
  - intros _. rewrite extra_keys_replace_value. exact (Hextra eq_refl).
Qed.

Lemma manifest_v2_holds_v1_witness :
  VersionManifestV1.model_validate_json (PC := simple_core.core)
    (document_as_v1 samples.manifest_v2)
  = Ok (manifest_as_v1 parsed.manifest_v2)
  /\ document_as_v1 samples.manifest_v2 = samples.manifest_v1.
Proof.
  split; [ | reflexivity ].
  exact (manifest_v2_holds_v1 (PC := simple_core.core) samples.manifest_v2
           (proj1 (proj2 samples_are_parsed))).
Defined.

(* ================================================================== *)
(** ** The three rule classes *)

Lemma get_Some_In {A : Type} (k : string) (j : A) (o : list (string * A)) :
  get k o = Some j -> In k (keys o).
Proof.
  intros H. destruct (in_dec string_dec k (keys o)) as [Hin | Hnot];
    [ exact Hin | ].
  apply get_None in Hnot. congruence.
Qed.

Lemma Library_OS_of_JVM (j : json)
  (os : ClientV1.Arguments.ConditionalJVMArgument.Rule.OS.t) :
  ClientV1.Arguments.ConditionalJVMArgument.Rule.OS.model_validate j = Ok os ->
  is_null j = false
  /\ ClientV1.Library.Rule.OS.model_validate j = Ok (Library_OS os).
Proof.
  unfold ClientV1.Arguments.ConditionalJVMArgument.Rule.OS.model_validate,
    ClientV1.Library.Rule.OS.model_validate.
  intros H. apply validate_model_inv in H.
  destruct H as [o [-> [Hbody Hextra]]]. split; [ reflexivity | ].
  apply validate_model_intro; [ | exact Hextra ].
  model_inv Hbody. injection Hbody as <-.
  unfold ClientV1.Arguments.ConditionalJVMArgument.Rule.OS.model_config,
    ClientV1.Library.Rule.OS.model_config in *.
  rewrite E, E0, E1. reflexivity.
Qed.

(** X16: the three rule classes.  What is accepted as the rule of a JVM
    argument is accepted as the rule of a library, with the same action and
    operating system; what is accepted as the rule of a game argument is
    rejected as either of the other two, and what is accepted as the rule
    of a JVM argument is rejected as the rule of a game argument. *)
Theorem rule_classes {PC : pydantic_core} (j : json) :
  (forall r,
      ClientV1.Arguments.ConditionalJVMArgument.Rule.model_validate j = Ok r ->
      ClientV1.Library.Rule.model_validate j = Ok (Library_Rule r)
      /\ SchemaViolation
           (ClientV1.Arguments.ConditionalGameArgument.Rule.model_validate j))
  /\ (forall g,
        ClientV1.Arguments.ConditionalGameArgument.Rule.model_validate j = Ok g ->
        SchemaViolation
          (ClientV1.Arguments.ConditionalJVMArgument.Rule.model_validate j)
        /\ SchemaViolation (ClientV1.Library.Rule.model_validate j)).
Proof.
  split.
  - intros r H.
    unfold ClientV1.Arguments.ConditionalJVMArgument.Rule.model_validate in H.
    apply validate_model_inv in H. destruct H as [o [-> [Hbody Hextra]]].
    model_inv Hbody. injection Hbody as <-.
    unfold ClientV1.Arguments.ConditionalJVMArgument.Rule.model_config in *.
    split.
    + unfold ClientV1.Library.Rule.model_validate.
      apply validate_model_intro; [ | exact Hextra ].
      unfold ClientV1.Library.Rule.model_config.
      rewrite E. cbn [bind].
      unfold pydantic.required in E0. unfold pydantic.defaulted.
      destruct (get (pydantic.alias _model.LauncherModel "os") o) as [jo | ];
        [ | discriminate E0 ].
      apply Library_OS_of_JVM in E0. destruct E0 as [Hjo E0].
      destruct jo; try discriminate Hjo; cbn [pydantic.nullable];
        rewrite E0; reflexivity.
    + unfold ClientV1.Arguments.ConditionalGameArgument.Rule.model_validate.
      read_field E0 "os".
      destruct E0 as [jo [Hget _]].
      apply validate_model_forbid with (k := "os");
        [ reflexivity | exact (get_Some_In _ _ Hget) | ].
      vm_compute. intros [H | [H | [ ]]]; discriminate H.
  - intros g H.
    unfold ClientV1.Arguments.ConditionalGameArgument.Rule.model_validate in H.
    apply validate_model_inv in H. destruct H as [o [-> [Hbody _]]].
    model_inv Hbody.
    read_field E0 "features".
    destruct E0 as [jf [Hget _]]. apply get_Some_In in Hget.
    split;
      [ unfold ClientV1.Arguments.ConditionalJVMArgument.Rule.model_validate
      | unfold ClientV1.Library.Rule.model_validate ];
      (apply validate_model_forbid with (k := "features");
       [ reflexivity | exact Hget | ];
       vm_compute; intros [H | [H | [ ]]]; discriminate H).
Qed.

Lemma rule_classes_witness :
  ClientV1.Library.Rule.model_validate
    (JObject
       [("action", JString "allow"); ("os", JObject [("name", JString "osx")])])
  = Ok (Library_Rule
          {| ClientV1.Arguments.ConditionalJVMArgument.Rule.action := "allow";
             ClientV1.Arguments.ConditionalJVMArgument.Rule.os :=
               {| ClientV1.Arguments.ConditionalJVMArgument.Rule.OS.name :=
                    Some "osx";
                  ClientV1.Arguments.ConditionalJVMArgument.Rule.OS.version :=
                    None;
                  ClientV1.Arguments.ConditionalJVMArgument.Rule.OS.arch :=
                    None |} |}).
Proof.
  refine (proj1
            (proj1 (rule_classes (PC := simple_core.core)
                      (JObject
                         [("action", JString "allow");
                          ("os", JObject [("name", JString "osx")])]))
               _ _)).
  vm_compute. reflexivity.
Defined.
